(* ===== verification/_CoqProject ===== *)
-Q . S2P
Prelude.v
PyStr.v
NodeType.v
Nodes.v
Spine.v
Tokenizer.v
Parser.v
PyExec.v
Analyse.v
Json.v
Run.v
