(* ===== verification/Prelude.v ===== *)
(** * A verification development of the Cosiek/v HTML word counter

    The repository is a small Python tool: [src/run.py] fetches a web page,
    hands the HTML text to the incremental parser of
    [src/html_parser/parser.py], asks the resulting tree for its visible text,
    and gives that text to the word-frequency analyser of
    [src/analyser/analyse.py], which prints and saves the ten most used words.

    ** How the program is built and how the files model it

    - [Prelude] (this file): the shared vocabulary: the [pyscope] notations,
      the list helper [update_last] used by the tree dispatcher to rewrite the
      last child of a node (Python's [self.nodes[-1].digest(buffer)]), the
      [pyhtml] hint databases and the development's tactics.
    - [PyStr]: the semantics of the Python [str] operations the code calls:
      [startswith], [endswith], [in] ([contains]), [split(sep)[0]]
      ([split_first]), [strip] and the truthiness of its result, ["sep".join]
      ([String.concat]).  A Rocq [string] is a sequence of 8-bit characters;
      it stands for a Python [str] whose code points are all below 256
      (Latin-1), and [is_space] is Python's [str.isspace] on that range.
    - [NodeType]: [NODE_TYPE_NAME_MATCHER] and [get_node_type]
      (parser.py l.3, l.149-153), [VOID_TYPES], [INVISIBLE_TYPES]; the regex is
      given a relational meaning (the set of its backtracking matches) and
      the scanner is proved to return exactly the greedy match.
    - [Nodes]: the node classes of parser.py (l.22-146) as one inductive type
      [node] with a constructor per class, [will_accept], [digest] and
      [get_text] per class, [get_new_node] (l.156-177) and [RootNode].  The
      Python object graph is a tree that every node owns exclusively and that
      is only ever mutated along its rightmost open path, so it is modelled
      as a value and each [digest] returns the updated tree.  Theorems: the
      right-spine well-formedness invariant and its preservation, closed
      nodes never reopen and never change, the classification of fragments.
    - [Spine]: the open nodes of the right spine, [open_depth] of them, and
      [closer], the fragment that closes the deepest one; the liveness
      theorem that the closers, delivered in turn, close every node.
    - [Tokenizer]: the character loop of [parse_html] (l.180-195) written
      once against the [FragmentSink] interface (anything with a [digest]),
      so its theorems hold whatever the tree does: the loop equals
      "tokenize, then deliver every fragment in order" (a refinement of the
      interleaved loop by a two-pass specification), no character is lost or
      duplicated (only whitespace runs before a [<] and the unterminated tail
      are discarded), and the shape of every delivered fragment.
    - [Parser]: [parse_html] itself, the [RootNode] instance of the sink,
      lemmas that read an input tag by tag ([parse_state_tag],
      [parse_html_beside]), and the whole-parser theorems: what invisible
      elements, a [textarea], comments, void elements, doctypes, unknown
      declarations and closing tags do to the tree and to the text.
    - [PyExec]: the parser as CPython 3.12 and later runs it: every Python
      call ([RootNode.digest], each [will_accept] and [digest] method,
      [get_new_node], the class's [__init__], [get_node_type]) takes a frame
      of the recursion limit, so [RecursionError] is raised when no frame is
      left, and a missing [digest] attribute raises [AttributeError];
      [parse_py] is the same loop of [Tokenizer] on this root.
    - [Analyse]: [src/analyser/analyse.py] on MathComp's [seq]: the regex
      substitution and split, the insertion-ordered counting dictionary, the
      stable descending sort (MathComp's [sort], proved to be the unique
      stable sort, so it coincides with Python's [list.sort]) and the slice
      of [get_most_used_words].  The cleanup and the split are related to a
      reference definition, [word_runs] (the maximal runs of word
      characters): the words counted are exactly these runs.
    - [Json]: the file [save_to_file] writes: the output of Python's
      [json.dump(..., indent=4)] for the list of [(word, count)] tuples
      ([dumps_at], [encode_basestring_ascii] with [ensure_ascii]), and a
      reference decoder [json_loads] (with fuel, the length of the text)
      to state what the file means.
    - [Run]: [main] and [save_to_file] of [src/run.py] as programs of a
      state-and-exception monad [IO] over a [world] (the web answering
      [requests.get], the clock, the script's directory, the writable
      paths, the standard output and the files); a Python exception is an
      [Err] that keeps the effects already done.

    ** The theorems, by group

    - The parser as a whole (C1, C4, C12): the interleaved loop refines the
      two-pass "tokenize, then deliver" reading; every tree it returns is
      well formed; an unterminated tail is dropped.
    - The loop (C2, C9, C10): the delivered pieces spell the input; each
      fragment has the shape the loop cuts; only blank runs are dropped.
    - The tree (C3, C5, C13, C17, C18, C39): the right-spine invariant is
      kept by every [digest]; closed nodes never change; closing tags are
      matched by prefix; [get_new_node] classifies start tags; every
      element of a parsed tree has a tag name as its type.
    - Tag names (C6): [get_node_type] returns exactly the regex match.
    - Rendering (C7, C8, C11, C14, C15, C16, C28), for all inputs of the
      stated shape: an invisible element hides what it swallows; a
      [textarea] renders its raw content; a comment hides everything up to
      its first [-->]; an open element takes the closing tags of its
      ancestors and is closed by them when its name is a prefix of theirs;
      a declaration such as [<!DOCTYPE html>] and a tag name followed by a
      newline are rendered as text; void elements and doctypes take
      nothing and render nothing.
    - Liveness (C21): every open node can be closed, by as many fragments
      as the spine has open nodes.
    - Python's execution (C19, C20, C40): with three more frames than the
      input has characters the parser terminates with the model's tree; it
      never raises [AttributeError], and raises [RecursionError] exactly
      when the deepest chain of calls of a fragment exceeds the frames
      left; [k + 1] nested unclosed elements need [k + 4] frames.
    - The analyser (C22-C27, C29-C31): the counts, the keys, the order of
      the report (descending counts, ties in first-occurrence order), the
      uniqueness of the stable sort, the slice, the report holding the
      most used words, the texts without words, and the words as the runs
      of word characters.
    - The JSON file (C32, C33): it decodes back to the pairs, and it is
      pure printable ASCII.
    - The whole tool (C34-C38): the fetch failures ([ConnectionError],
      [HTTPError] on 4xx and 5xx) leave the world unchanged; a successful
      run prints the report and writes a file that decodes to the ten most
      used words; a file that cannot be written fails after the report is
      printed.

    ** Bounds and fuel

    Every definition of the program is structurally recursive on the input
    string, the input list or the tree, so no fuel is needed and every
    function is total; termination of the parser is by construction (one
    step per character).  The Python call stack is modelled by a number of
    frames, [frames], that each Python call consumes: it is the real bound
    of the program (the recursion limit), not a device of the proof, and
    [stack_needed_le] shows that one frame per character, plus three,
    always suffices (one node per fragment, one frame per node of the
    spine, and [get_new_node], [__init__] and [get_node_type] below the
    deepest).  The only fuel is that of the reference JSON
    decoder: [json_loads] gives it the length of the text plus one, and
    [jsize_length] proves that a dump is at least as long as the fuel its
    value needs, so the round trip is proved with exactly that fuel.

    ** Not modelled

    The network, the clock and the file system are parameters of the
    [world] ([requests.get] is a function from URLs to an optional
    response; [open] succeeds or raises [OSError] as [writable] says); the
    argument parser of the [__main__] block of [src/run.py] (argparse with
    one positional URL) is library code and not modelled; the unittest
    files are tests, used only as scenarios.  Python
    strings with code points above 255 are outside the model of [PyStr].
    In [Nodes], the [digest] of a [VoidHTMLNode] or [DoctypeNode] (which
    Python does not have) returns the node unchanged; [PyExec] models the
    [AttributeError] and proves it is never raised.  The frames are those
    of CPython 3.12 and later, where only Python code counts toward the
    recursion limit; before 3.12 some C calls ([type.__call__], [str]
    methods with [METH_VARARGS]) count as well and the parser needs a few
    more frames, which is not modelled.  The recursion depth of [get_text]
    is not modelled: it depends on the Python version (a list
    comprehension has a frame of its own before Python 3.12), and it is
    below the depth [digest] already needs to build the tree.

    ** Left for later

    The per-fragment [-->] test of [CommentNode] is not compared with the
    spec's test on the whole accumulated comment in general (C11 shows
    that a comment closes at its first [-->]); the recursion depth of
    [get_text]. *)

From Stdlib Require Import List Bool Lia.
Import ListNotations.

Declare Scope pyscope.
Delimit Scope pyscope with py.

(** The hint database of the development: rewriting and resolution lemmas
    on the generic helpers, extended by every component file. *)
Create HintDb pyhtml.
Create Rewrite HintDb pyhtml_rw.

(** ** [update_last]: rewrite the last element of a list, if it agrees

    [update_last f l] is [None] when [l] is empty or [f] refuses the last
    element, and otherwise replaces the last element [x] by [y] when
    [f x = Some y].  It is the [if self.nodes and self.nodes[-1].will_accept
    (buffer): self.nodes[-1].digest(buffer)] step of the dispatcher. *)
Fixpoint update_last {A} (f : A -> option A) (l : list A) : option (list A) :=
  match l with
  | [] => None
  | x :: l' =>
      match l' with
      | [] => option_map (fun y => [y]) (f x)
      | _ :: _ => option_map (cons x) (update_last f l')
      end
  end.

Section UpdateLast.
Context {A : Type}.
Implicit Types (f : A -> option A) (l : list A) (x y : A).

Lemma update_last_app f l x :
  update_last f (l ++ [x]) = option_map (fun y => l ++ [y]) (f x).
Proof.
  induction l as [|a l IH]; [reflexivity|].
  cbn [app]. destruct l as [|b l]; cbn in *.
  - destruct (f x); reflexivity.
  - rewrite IH. destruct (f x); reflexivity.
Qed.

Lemma update_last_nil f : update_last f [] = None.
Proof. reflexivity. Qed.

(** Every list is empty or ends in a last element. *)
Lemma list_snoc_cases l : l = [] \/ exists l' x, l = l' ++ [x].
Proof.
  destruct l as [|a l]; [now left|right].
  destruct (exists_last (l := a :: l) ltac:(discriminate)) as (l' & x & E).
  eauto.
Qed.

Lemma update_last_Some f l l' :
  update_last f l = Some l' ->
  exists pre x y, l = pre ++ [x] /\ f x = Some y /\ l' = pre ++ [y].
Proof.
  destruct (list_snoc_cases l) as [->|(pre & x & ->)]; [discriminate|].
  rewrite update_last_app. destruct (f x) as [y|] eqn:E; [|discriminate].
  cbn. intros [= <-]. now exists pre, x, y.
Qed.

Lemma update_last_None f l :
  update_last f l = None -> l = [] \/ exists pre x, l = pre ++ [x] /\ f x = None.
Proof.
  destruct (list_snoc_cases l) as [->|(pre & x & ->)]; [now left|].
  rewrite update_last_app. destruct (f x) eqn:E; [discriminate|].
  right. now exists pre, x.
Qed.
End UpdateLast.

#[export] Hint Rewrite @update_last_app : pyhtml_rw.

(** ** [last_map]: split off the last element and apply a function to it

    [last_map f l] is [Some (pre, f x)] when [l = pre ++ [x]]: the view of
    [self.nodes[-1]] used by the analyses of the open spine and by the
    model of the call stack. *)
Fixpoint last_map {A B} (f : A -> B) (l : list A) : option (list A * B) :=
  match l with
  | [] => None
  | x :: l' =>
      match l' with
      | [] => Some ([], f x)
      | _ :: _ => option_map (fun p => (x :: fst p, snd p)) (last_map f l')
      end
  end.

Lemma last_map_snoc {A B} (f : A -> B) (l : list A) (x : A) :
  last_map f (l ++ [x]) = Some (l, f x).
Proof.
  induction l as [|a l IH]; [reflexivity|].
  cbn [app]. destruct l as [|b l]; [reflexivity|].
  cbn [app] in IH |- *. change (last_map f (a :: b :: l ++ [x]))
    with (option_map (fun p => (a :: fst p, snd p)) (last_map f (b :: l ++ [x]))).
  now rewrite IH.
Qed.

Lemma last_map_nil {A B} (f : A -> B) : last_map f [] = None.
Proof. reflexivity. Qed.

#[export] Hint Rewrite @last_map_snoc @last_map_nil : pyhtml_rw.

(** ** Shared lemmas on lists *)

Lemma Forall_app_snoc {A} (P : A -> Prop) l x :
  Forall P (l ++ [x]) <-> Forall P l /\ P x.
Proof.
  rewrite Forall_app. split; [intros [H1 H2]; inversion H2; auto|].
  intros [H1 H2]; auto.
Qed.

Lemma removelast_snoc {A} (l : list A) x : removelast (l ++ [x]) = l.
Proof. rewrite removelast_app by discriminate. simpl. apply app_nil_r. Qed.

#[export] Hint Rewrite @removelast_snoc : pyhtml_rw.

(** ** Tactics *)

(** Case analysis on every boolean test and option in the goal, the way the
    Python code branches on [if]/[elif]; equations are kept. *)
Ltac case_ifs :=
  repeat match goal with
  | |- context [if ?b then _ else _] =>
      lazymatch b with
      | context [if _ then _ else _] => fail
      | _ => destruct b eqn:?
      end
  end.

(** Simplify with the development's rewrite database. *)
Ltac py_simpl := repeat (progress (cbn in *; autorewrite with pyhtml_rw in *)).
