(* ===== verification/PyStr.v ===== *)
(** * Python [str] operations used by the parser and the analyser

    A Rocq [string] stands for a Python [str] whose code points are below
    256 (Latin-1).  This file gives the meaning of the [str] methods the code
    calls, each as an executable function with its characterisation lemma:
    [s.startswith(p)] is [startswith s p], [s.endswith(p)] is [endswith s p],
    [sub in s] is [contains s sub], [s.split(sep)[0]] is [split_first s sep]
    (for a non-empty [sep]; Python raises [ValueError] on an empty one),
    [s.strip()] is [strip s] and [bool(s)] is [nonempty s]; ["sep".join(l)]
    is the Standard Library's [String.concat sep l]; [str(n)] of a natural
    number is [str_of_nat n]. *)

From Stdlib Require Import String Ascii List Bool Lia DecimalString DecimalNat.
From S2P Require Import Prelude.
Import ListNotations.
Open Scope string_scope.

(** A one-character string from a code point, and the newline. *)
Definition chr (n : nat) : string := String (ascii_of_nat n) EmptyString.
Definition nl : string := chr 10.

(** [bool(s)]: a string is truthy iff it is not empty. *)
Definition nonempty (s : string) : bool :=
  match s with EmptyString => false | String _ _ => true end.

(** [s.startswith(p)] *)
Fixpoint startswith (s p : string) {struct p} : bool :=
  match p, s with
  | EmptyString, _ => true
  | String a p', String b s' => Ascii.eqb a b && startswith s' p'
  | String _ _, EmptyString => false
  end.

(** [s.endswith(suf)] *)
Fixpoint endswith (s suf : string) : bool :=
  String.eqb s suf ||
  match s with EmptyString => false | String _ s' => endswith s' suf end.

(** [sub in s] *)
Fixpoint contains (s sub : string) : bool :=
  startswith s sub ||
  match s with EmptyString => false | String _ s' => contains s' sub end.

(** [s.split(sep)[0]]: the part of [s] before the first occurrence of
    [sep], or [s] itself when [sep] does not occur. *)
Fixpoint split_first (s sep : string) : string :=
  if startswith s sep then EmptyString
  else match s with
       | EmptyString => EmptyString
       | String c s' => String c (split_first s' sep)
       end.

(** [c.isspace()] for a Latin-1 code point: the ASCII controls 9 to 13,
    the separators 28 to 31, the space, NEL (133) and NBSP (160). *)
Definition is_space (c : ascii) : bool :=
  let n := nat_of_ascii c in
  (Nat.leb 9 n && Nat.leb n 13) || (Nat.leb 28 n && Nat.leb n 32)
  || Nat.eqb n 133 || Nat.eqb n 160.

(** [s.lstrip()], [s.rstrip()] and [s.strip()] *)
Fixpoint lstrip (s : string) : string :=
  match s with
  | EmptyString => EmptyString
  | String c s' => if is_space c then lstrip s' else s
  end.

Fixpoint rstrip (s : string) : string :=
  match s with
  | EmptyString => EmptyString
  | String c s' =>
      let r := rstrip s' in
      if is_space c && negb (nonempty r) then EmptyString else String c r
  end.

Definition strip (s : string) : string := rstrip (lstrip s).

(** Does the string contain a character that is not whitespace? *)
Fixpoint has_nonspace (s : string) : bool :=
  match s with
  | EmptyString => false
  | String c s' => negb (is_space c) || has_nonspace s'
  end.

(** Does a character occur in a string? *)
Fixpoint has_char (c : ascii) (s : string) : bool :=
  match s with
  | EmptyString => false
  | String d s' => Ascii.eqb c d || has_char c s'
  end.

Notation "sub 'in_s' s" := (contains s sub) (at level 70) : pyscope.

(** ** Concatenation *)

Lemma append_nil_r (s : string) : s ++ EmptyString = s.
Proof. induction s; cbn; congruence. Qed.

Lemma append_assoc (a b c : string) : (a ++ b) ++ c = a ++ (b ++ c).
Proof. induction a; cbn; congruence. Qed.

Lemma append_cons (c : ascii) (a b : string) : String c a ++ b = String c (a ++ b).
Proof. reflexivity. Qed.

#[export] Hint Rewrite append_nil_r append_assoc : pyhtml_rw.

Lemma append_inv_l (a b c : string) : a ++ b = a ++ c -> b = c.
Proof. induction a; cbn; [auto|]. intros [=]; auto. Qed.

Lemma length_append (a b : string) : String.length (a ++ b) = String.length a + String.length b.
Proof. induction a; cbn; congruence. Qed.

Lemma append_inv_r (a b x : string) : a ++ x = b ++ x -> a = b.
Proof.
  revert b; induction a as [|c a IH]; intros [|d b] H; cbn in H; auto.
  - apply (f_equal String.length) in H. cbn in H. rewrite length_append in H. lia.
  - apply (f_equal String.length) in H. cbn in H. rewrite length_append in H. lia.
  - injection H as -> H. f_equal. now apply IH.
Qed.

Lemma nonempty_false (s : string) : nonempty s = false <-> s = EmptyString.
Proof. destruct s; cbn; split; congruence. Qed.

(** ** [startswith] *)

Lemma startswith_spec (s p : string) :
  startswith s p = true <-> exists r, s = p ++ r.
Proof.
  revert s; induction p as [|a p IH]; intros s; cbn.
  - split; eauto.
  - destruct s as [|b s]; [split; [discriminate|intros [r [=]]]|].
    rewrite andb_true_iff, Ascii.eqb_eq, IH.
    split; [intros [-> [r ->]]; eauto|intros [r [= -> ->]]; eauto].
Qed.

Lemma startswith_app (p r : string) : startswith (p ++ r) p = true.
Proof. apply startswith_spec; eauto. Qed.

Lemma startswith_refl (p : string) : startswith p p = true.
Proof. rewrite <- (append_nil_r p) at 1. apply startswith_app. Qed.

Lemma startswith_empty (s : string) : startswith s EmptyString = true.
Proof. reflexivity. Qed.

#[export] Hint Resolve startswith_app startswith_refl startswith_empty : pyhtml.

Lemma startswith_cons (c d : ascii) (s p : string) :
  startswith (String c s) (String d p) = Ascii.eqb d c && startswith s p.
Proof. reflexivity. Qed.

Lemma startswith_app_l (s t p : string) :
  startswith s p = true -> startswith (s ++ t) p = true.
Proof.
  rewrite !startswith_spec. intros [r ->]. exists (r ++ t).
  apply append_assoc.
Qed.

(** A prefix test on a concatenation either succeeds inside the left part
    or runs past its end. *)
Lemma startswith_app_cases (x y p : string) :
  startswith (x ++ y) p = true ->
  startswith x p = true \/ exists p2, p = x ++ p2 /\ startswith y p2 = true.
Proof.
  revert p; induction x as [|c x IH]; intros p H.
  - right. exists p. auto.
  - destruct p as [|d p]; [left; reflexivity|].
    cbn in H. apply andb_true_iff in H as [Hcd H].
    apply Ascii.eqb_eq in Hcd as ->.
    destruct (IH p H) as [H1|[p2 [-> H2]]].
    + left. cbn. rewrite Ascii.eqb_refl. exact H1.
    + right. exists p2. auto.
Qed.

(** A prefix without the character [c] is decided before the first [c]. *)
Lemma startswith_app_char (s r p : string) (c : ascii) :
  has_char c p = false -> startswith (s ++ String c r) p = startswith s p.
Proof.
  revert p; induction s as [|d s IH]; intros [|e p] Hp; try reflexivity.
  - cbn in Hp |- *. apply orb_false_iff in Hp as [Hp _]. now rewrite Ascii.eqb_sym, Hp.
  - cbn in Hp |- *. apply orb_false_iff in Hp as [_ Hp]. now rewrite IH.
Qed.

(** A string without [c] does not start with [c]. *)
Lemma startswith_no_char (s p : string) (c : ascii) :
  has_char c s = false -> startswith s (String c p) = false.
Proof.
  destruct s as [|d s]; [reflexivity|]. cbn. intros [H _]%orb_false_iff. now rewrite H.
Qed.

(** ** [endswith] *)

Lemma endswith_spec (s suf : string) :
  endswith s suf = true <-> exists p, s = p ++ suf.
Proof.
  induction s as [|c s IH]; cbn [endswith]; rewrite orb_true_iff, String.eqb_eq.
  - split; [intros [E|E]; [subst; exists EmptyString; reflexivity|discriminate]|].
    intros [[|d p] E]; [auto|discriminate].
  - rewrite IH. split.
    + intros [E|[p ->]]; [subst; exists EmptyString|exists (String c p)]; reflexivity.
    + intros [[|d p] E]; [left; auto|right].
      cbn in E. injection E as <- ->. eauto.
Qed.

Lemma endswith_app (p suf : string) : endswith (p ++ suf) suf = true.
Proof. apply endswith_spec; eauto. Qed.

#[export] Hint Resolve endswith_app : pyhtml.

(** ** [contains] *)

Lemma contains_spec (s sub : string) :
  contains s sub = true <-> exists a b, s = a ++ sub ++ b.
Proof.
  induction s as [|c s IH]; cbn [contains]; rewrite orb_true_iff, startswith_spec.
  - split.
    + intros [[r E]|E]; [exists EmptyString, r; exact E|discriminate].
    + intros [[|d a] [b E]]; [left; eauto|discriminate].
  - rewrite IH. split.
    + intros [[r E]|[a [b ->]]]; [exists EmptyString, r; exact E|].
      exists (String c a), b. reflexivity.
    + intros [[|d a] [b E]]; [left; eauto|right].
      cbn in E. injection E as <- ->. eauto.
Qed.

Lemma contains_app_l (s t sub : string) :
  contains s sub = true -> contains (s ++ t) sub = true.
Proof.
  rewrite !contains_spec. intros (a & b & ->). exists a, (b ++ t).
  now rewrite !append_assoc.
Qed.

Lemma contains_app_r (s t sub : string) :
  contains t sub = true -> contains (s ++ t) sub = true.
Proof.
  rewrite !contains_spec. intros (a & b & ->). exists (s ++ a), b.
  now rewrite !append_assoc.
Qed.

Lemma contains_startswith (s sub : string) :
  startswith s sub = true -> contains s sub = true.
Proof. destruct s; cbn; intros ->; reflexivity. Qed.

#[export] Hint Resolve contains_app_l contains_app_r contains_startswith : pyhtml.

Lemma contains_endswith (s sub : string) :
  endswith s sub = true -> contains s sub = true.
Proof.
  intros [p ->]%endswith_spec. apply contains_spec. exists p, EmptyString.
  now rewrite append_nil_r.
Qed.

(** ** [split_first] *)

Lemma split_first_no_sep (s sep : string) :
  contains s sep = false -> split_first s sep = s.
Proof.
  induction s as [|c s IH]; cbn; intros H; apply orb_false_iff in H as [H1 H2].
  - now rewrite H1.
  - rewrite H1, IH; auto.
Qed.

(** The separators the code uses start with a character ([<]) that does not
    occur again in them, so an occurrence can never straddle the end of a
    text that does not contain it: the text before the first separator is
    exactly that text. *)
Lemma split_first_app_sep (c : ascii) (sep' r : string) :
  has_char c sep' = false ->
  forall s, contains s (String c sep') = false ->
  split_first (s ++ String c sep' ++ r) (String c sep') = s.
Proof.
  intros Hc s0. induction s0 as [|d s IH]; intros H.
  - cbn. rewrite Ascii.eqb_refl, startswith_app. reflexivity.
  - change (String d s ++ ?X) with (String d (s ++ X)). cbn [split_first].
    cbn [contains] in H. apply orb_false_iff in H as [H1 H2].
    rewrite IH by exact H2. f_equal.
    destruct (startswith (String d (s ++ String c sep' ++ r)) (String c sep'))
      eqn:E; [|reflexivity].
    exfalso. change (String d (s ++ String c sep' ++ r))
      with (String d s ++ (String c sep' ++ r)) in E.
    apply startswith_app_cases in E as [E|[p2 [Ep Hp2]]];
      [change (String d s) with (String d s) in E; congruence|].
    destruct p2 as [|e p2].
    + rewrite append_nil_r in Ep. rewrite <- Ep in H1.
      rewrite startswith_refl in H1. discriminate.
    + cbn in Hp2. apply andb_true_iff in Hp2 as [He _].
      apply Ascii.eqb_eq in He as ->.
      injection Ep as _ Ep.
      assert (Hin : has_char c sep' = true).
      { rewrite Ep. clear. induction s as [|x s IH]; cbn;
          [now rewrite Ascii.eqb_refl|now rewrite IH, orb_true_r]. }
      congruence.
Qed.

(** ** [strip] and its truthiness *)

Lemma lstrip_has_nonspace (s : string) :
  has_nonspace (lstrip s) = has_nonspace s.
Proof.
  induction s as [|c s IH]; cbn; [reflexivity|].
  destruct (is_space c) eqn:E; cbn; [exact IH|now rewrite E].
Qed.

Lemma rstrip_nonempty (s : string) : nonempty (rstrip s) = has_nonspace s.
Proof.
  induction s as [|c s IH]; cbn; [reflexivity|].
  rewrite IH. destruct (is_space c), (has_nonspace s); reflexivity.
Qed.

(** Stripping the two ends commutes. *)
Lemma rstrip_lstrip (s : string) : rstrip (lstrip s) = lstrip (rstrip s).
Proof.
  induction s as [|c s IH]; [reflexivity|]. cbn [lstrip rstrip].
  destruct (is_space c) eqn:Ec; cbn [andb negb].
  - rewrite IH. destruct (nonempty (rstrip s)) eqn:En; cbn [negb lstrip]; [now rewrite Ec|].
    apply nonempty_false in En as ->. reflexivity.
  - cbn [lstrip rstrip]. now rewrite Ec.
Qed.

(** [bool(s.strip())] holds exactly when [s] has a non-whitespace
    character. *)
Lemma strip_truthy (s : string) : nonempty (strip s) = has_nonspace s.
Proof. unfold strip. now rewrite rstrip_nonempty, lstrip_has_nonspace. Qed.

#[export] Hint Rewrite strip_truthy : pyhtml_rw.

Lemma has_nonspace_app (s t : string) :
  has_nonspace (s ++ t) = has_nonspace s || has_nonspace t.
Proof. induction s as [|c s IH]; cbn; [reflexivity|]. now rewrite IH, orb_assoc. Qed.

#[export] Hint Rewrite has_nonspace_app : pyhtml_rw.

Lemma has_char_app (c : ascii) (s t : string) :
  has_char c (s ++ t) = has_char c s || has_char c t.
Proof. induction s as [|d s IH]; cbn; [reflexivity|]. now rewrite IH, orb_assoc. Qed.

#[export] Hint Rewrite has_char_app : pyhtml_rw.

(** [str(n)] (and [f"{n}"]) for a natural number: its decimal digits. *)
Definition str_of_nat (n : nat) : string := NilEmpty.string_of_uint (Nat.to_uint n).

(** [str(n)] is read back by [int(...)]. *)
Lemma str_of_nat_uint (n : nat) :
  option_map Nat.of_uint (NilEmpty.uint_of_string (str_of_nat n)) = Some n.
Proof. unfold str_of_nat. rewrite NilEmpty.usu. cbn. now rewrite Unsigned.of_to. Qed.

(** ["".join(l)] *)
Fixpoint cat (l : list string) : string :=
  match l with [] => EmptyString | x :: l' => x ++ cat l' end.

Lemma cat_app (l1 l2 : list string) : cat (l1 ++ l2) = cat l1 ++ cat l2.
Proof. induction l1 as [|x l1 IH]; cbn; [reflexivity|]. now rewrite IH, append_assoc. Qed.

#[export] Hint Rewrite cat_app : pyhtml_rw.

(** A text without a separator has none in any of its parts. *)
Lemma contains_app_false (s t sub : string) :
  contains (s ++ t) sub = false -> contains s sub = false /\ contains t sub = false.
Proof.
  intros H. destruct (contains s sub) eqn:E1.
  { rewrite (contains_app_l s t sub E1) in H. discriminate. }
  destruct (contains t sub) eqn:E2; [|auto].
  rewrite (contains_app_r s t sub E2) in H. discriminate.
Qed.
