(* ===== verification/NodeType.v ===== *)
(** * Tag names: [NODE_TYPE_NAME_MATCHER], [get_node_type] and the type sets

    [src/html_parser/parser.py] extracts a tag name with
    [re.compile(r"<([a-zA-Z0-9]+)([(\/>) ]|$)").match(buffer).group(1)].
    [node_type_regex_match] gives the pattern its meaning as a relation
    (every way [re.match] can match it at the start of the buffer, with the
    captured group); [get_node_type] is the scanner that computes the match,
    and [get_node_type_spec] proves that it returns exactly the match of the
    regex, which is unique, so Python's greedy backtracking order plays no
    role.  Also here: [VOID_TYPES] and [INVISIBLE_TYPES] with their
    membership tests. *)

From Stdlib Require Import String Ascii List Bool Lia.
From S2P Require Import Prelude PyStr.
Import ListNotations.
Open Scope string_scope.

Module NodeType.

(** ** Character classes of the pattern *)

(** [[a-zA-Z0-9]]: ASCII letters and digits only. *)
Definition is_name_char (c : ascii) : bool :=
  let n := nat_of_ascii c in
  (Nat.leb 48 n && Nat.leb n 57) || (Nat.leb 65 n && Nat.leb n 90)
  || (Nat.leb 97 n && Nat.leb n 122).

(** [[(\/>) ]]: the class holds [(], [/], [>], [)] and the space; no other
    whitespace. *)
Definition is_name_end (c : ascii) : bool :=
  existsb (Ascii.eqb c) ["("; "/"; ">"; ")"; " "]%char.

Fixpoint all_name_chars (s : string) : bool :=
  match s with
  | EmptyString => true
  | String c s' => is_name_char c && all_name_chars s'
  end.

(** ** The meaning of the regex

    [re.match] anchors the pattern at position 0: a [<], then the group
    [([a-zA-Z0-9]+)] captures a non-empty run [g] of name characters, then
    either one character of the class [[(\/>) ]] or [$], which without
    [re.MULTILINE] holds at the end of the string and just before a newline
    that ends the string. *)
Definition node_type_regex_match (buffer g : string) : Prop :=
  exists rest,
    buffer = String "<" (g ++ rest) /\ g <> EmptyString /\
    all_name_chars g = true /\
    (rest = EmptyString \/ rest = chr 10 \/
     exists c r, rest = String c r /\ is_name_end c = true).

(** ** The scanner *)

(** Split off the longest prefix of name characters. *)
Fixpoint span_name (s : string) : string * string :=
  match s with
  | EmptyString => (EmptyString, EmptyString)
  | String c s' =>
      if is_name_char c then let (a, b) := span_name s' in (String c a, b)
      else (EmptyString, s)
  end.

(** What may follow the group: a character of the class, or [$]. *)
Definition name_end_ok (rest : string) : bool :=
  match rest with
  | EmptyString => true
  | String c r => is_name_end c || (Ascii.eqb c (ascii_of_nat 10) && negb (nonempty r))
  end.

(** [get_node_type(buffer)] (parser.py l.149-153): the captured group, or
    [None] when the pattern does not match. *)
Definition get_node_type (buffer : string) : option string :=
  match buffer with
  | String c r =>
      if Ascii.eqb c "<" then
        let (name, rest) := span_name r in
        if nonempty name && name_end_ok rest then Some name else None
      else None
  | EmptyString => None
  end.

(** ** [VOID_TYPES] and [INVISIBLE_TYPES] (parser.py l.7-17) *)

Definition VOID_TYPES : list string :=
  ["area"; "base"; "br"; "col"; "embed"; "hr"; "img"; "input"; "link"; "meta";
   "param"; "source"; "track"; "wbr"].

Definition INVISIBLE_TYPES : list string :=
  ["audio"; "head"; "script"; "style"; "video"].

(** [x in S] for a Python set of strings, where [x] may be [None] (which is
    in no such set). *)
Definition in_set (x : option string) (S : list string) : bool :=
  match x with
  | Some t => existsb (String.eqb t) S
  | None => false
  end.

(** ** Lemmas on the scanner *)

Lemma span_name_app (s : string) :
  let (a, b) := span_name s in
  s = a ++ b /\ all_name_chars a = true /\
  (b = EmptyString \/ exists c r, b = String c r /\ is_name_char c = false).
Proof.
  induction s as [|c s IH]; cbn; [auto|].
  destruct (is_name_char c) eqn:Ec.
  - destruct (span_name s) as [a b]. destruct IH as (-> & Ha & Hb).
    cbn. rewrite Ec. auto.
  - split; [reflexivity|]. split; [reflexivity|]. right. eauto.
Qed.

(** The scanner is forced: a decomposition into a run of name characters
    followed by a non-name character (or nothing) is the one it finds. *)
Lemma span_name_unique (g rest : string) :
  all_name_chars g = true ->
  (rest = EmptyString \/ exists c r, rest = String c r /\ is_name_char c = false) ->
  span_name (g ++ rest) = (g, rest).
Proof.
  intros Hg Hr. induction g as [|c g IH]; cbn.
  - destruct Hr as [->|(c & r & -> & Hc)]; cbn; [reflexivity|now rewrite Hc].
  - cbn in Hg. apply andb_true_iff in Hg as [Hc Hg]. rewrite Hc, IH; auto.
Qed.

Lemma name_end_not_name (c : ascii) : is_name_end c = true -> is_name_char c = false.
Proof.
  unfold is_name_end. cbn.
  intros H. repeat (apply orb_true_iff in H as [H|H]; [apply Ascii.eqb_eq in H as ->; reflexivity|]).
  discriminate.
Qed.

Lemma name_end_ok_spec (rest : string) :
  name_end_ok rest = true <->
  rest = EmptyString \/ rest = chr 10 \/
  exists c r, rest = String c r /\ is_name_end c = true.
Proof.
  destruct rest as [|c r]; cbn.
  - split; auto.
  - rewrite orb_true_iff, andb_true_iff, Ascii.eqb_eq, negb_true_iff, nonempty_false.
    split.
    + intros [H|[-> ->]]; [right; right; eauto|right; left; reflexivity].
    + intros [H|[H|(d & r' & [= <- <-] & H)]]; [discriminate| |auto].
      injection H as -> ->. right. auto.
Qed.

(** A run of name characters holds no other character. *)
Lemma name_chars_no_char (p : string) (c : ascii) :
  all_name_chars p = true -> is_name_char c = false -> has_char c p = false.
Proof.
  induction p as [|d p IH]; cbn; [reflexivity|]. intros [Hd Hp]%andb_true_iff Hc.
  rewrite IH by assumption. destruct (Ascii.eqb c d) eqn:E; [|reflexivity].
  apply Ascii.eqb_eq in E as ->. congruence.
Qed.

(** A name followed by a character outside the class [[(\/>) ]] and more
    text is no tag: [$] only holds at the end or before a final newline. *)
Lemma get_node_type_other_char (g r : string) (c : ascii) :
  all_name_chars g = true -> is_name_char c = false -> is_name_end c = false ->
  nonempty r = true -> get_node_type (String "<" (g ++ String c r)) = None.
Proof.
  intros Hg Hc He Hr. unfold get_node_type. rewrite Ascii.eqb_refl.
  rewrite (span_name_unique g (String c r) Hg (or_intror (ex_intro _ c (ex_intro _ r (conj eq_refl Hc))))).
  cbn [name_end_ok].
  rewrite He, Hr, andb_false_r. now destruct (nonempty g).
Qed.

(** The tag [<n>] of a tag name [n] has the type [n]. *)
Lemma get_node_type_tag (n : string) :
  nonempty n = true -> all_name_chars n = true -> get_node_type ("<" ++ n ++ ">") = Some n.
Proof.
  intros Hne Hn. change ("<" ++ n ++ ">") with (String "<" (n ++ ">")).
  unfold get_node_type. rewrite Ascii.eqb_refl.
  rewrite (span_name_unique n ">" Hn (or_intror (ex_intro _ ">"%char (ex_intro _ EmptyString
             (conj eq_refl eq_refl))))).
  now rewrite Hne.
Qed.

(** ** The scanner computes the regex *)

(** [get_node_type] returns [Some g] exactly when [g] is the group that
    [NODE_TYPE_NAME_MATCHER.match] captures. *)
Theorem get_node_type_spec (buffer g : string) :
  get_node_type buffer = Some g <-> node_type_regex_match buffer g.
Proof.
  unfold node_type_regex_match, get_node_type. split.
  - destruct buffer as [|c r]; [discriminate|].
    destruct (Ascii.eqb c "<") eqn:Ec; [|discriminate]. apply Ascii.eqb_eq in Ec as ->.
    pose proof (span_name_app r) as Hs. destruct (span_name r) as [a b].
    destruct Hs as (-> & Ha & _).
    destruct (nonempty a && name_end_ok b) eqn:E; [|discriminate].
    intros [= <-]. apply andb_true_iff in E as [Ea Eb].
    exists b. repeat split; auto; [|now apply name_end_ok_spec].
    intros ->. discriminate.
  - intros (rest & -> & Hne & Hg & Hrest). cbn -[span_name name_end_ok].
    rewrite span_name_unique; auto.
    + destruct g as [|c g]; [congruence|]. cbn.
      apply name_end_ok_spec in Hrest as ->. reflexivity.
    + destruct Hrest as [->|[->|(c & r & -> & Hc)]]; auto; right.
      * exists (ascii_of_nat 10), EmptyString. split; reflexivity.
      * exists c, r. split; [reflexivity|]. now apply name_end_not_name.
Qed.

(** The regex has at most one match at the start of a buffer, so the
    order in which Python's backtracking tries the lengths of the group does
    not matter. *)
Lemma node_type_regex_match_unique (buffer g1 g2 : string) :
  node_type_regex_match buffer g1 -> node_type_regex_match buffer g2 -> g1 = g2.
Proof.
  rewrite <- !get_node_type_spec. congruence.
Qed.

Lemma get_node_type_None (buffer : string) :
  get_node_type buffer = None <-> forall g, ~ node_type_regex_match buffer g.
Proof.
  split.
  - intros H g Hm. apply get_node_type_spec in Hm. congruence.
  - intros H. destruct (get_node_type buffer) as [g|] eqn:E; [|reflexivity].
    exfalso. apply (H g). now apply get_node_type_spec.
Qed.

(** What [get_node_type] returns is a tag name: a non-empty run of
    ASCII letters and digits. *)
Definition tag_name (t : string) : bool := nonempty t && all_name_chars t.

Lemma get_node_type_tag_name (buffer t : string) :
  get_node_type buffer = Some t -> tag_name t = true.
Proof.
  intros (rest & _ & Hne & Hg & _)%get_node_type_spec. unfold tag_name.
  rewrite Hg, andb_true_r. destruct t; [congruence|reflexivity].
Qed.

(** C6: [get_node_type] returns [Some g] exactly when the pattern
    [<([a-zA-Z0-9]+)([(\/>) ]|$)] matches at the start of the buffer with
    [g] as its first group, and [None] exactly when it does not match. *)
Theorem get_node_type_matches_regex (buffer g : string) :
  (get_node_type buffer = Some g <-> node_type_regex_match buffer g) /\
  (get_node_type buffer = None <-> forall g', ~ node_type_regex_match buffer g').
Proof. split; [apply get_node_type_spec|apply get_node_type_None]. Qed.

End NodeType.
