(* ===== verification/Nodes.v ===== *)
(** * The node tree of [src/html_parser/parser.py]

    Every class of parser.py (l.22-146) is a constructor of [node], carrying
    the attributes the class sets in its [__init__]: [HTMLNode] its [type],
    [nodes] and [is_closed]; [VoidHTMLNode] its [type]; [TextNode] and
    [TextareaNode] their [content]; [CommentNode] and [TextareaNode] their
    [is_closed]; [DoctypeNode] nothing.  [RootNode] is a record holding its
    [nodes].  The methods are functions: [will_accept], [digest] (which
    returns the updated node: the tree is owned by its root and mutated in
    place only along the path [digest] follows), [get_text], and the factory
    [get_new_node].  The dispatch shared by [HTMLNode.digest] and
    [RootNode.digest] ("give the fragment to the last child if it accepts
    it") is [delegate].

    Theorems: the right-spine invariant [wf] holds of every node
    [get_new_node] builds and is preserved by [digest] and [root_digest];
    digesting only appends children and only ever changes the last one, so
    a closed node (and every void or doctype node) never changes again;
    every element keeps a tag name as its [type] ([typed]); classification
    lemmas for [get_new_node]. *)

From Stdlib Require Import String Ascii List Bool Arith Lia.
From S2P Require Import Prelude PyStr NodeType.
Import ListNotations.
Open Scope string_scope.
Open Scope list_scope.

#[local] Set Warnings "-register-all".

Module Nodes.
Import NodeType.

(** ** Data *)

Inductive node : Type :=
| HTMLNode (type : option string) (nodes : list node) (is_closed : bool)
| VoidHTMLNode (type : option string)
| TextNode (content : string)
| CommentNode (is_closed : bool)
| TextareaNode (content : string) (is_closed : bool)
| DoctypeNode.

(** Induction on nodes, with the hypothesis for the children of an
    [HTMLNode] as a [Forall]. *)
Section NodeInd.
Variable P : node -> Prop.
Hypothesis H_html : forall t ns c, Forall P ns -> P (HTMLNode t ns c).
Hypothesis H_void : forall t, P (VoidHTMLNode t).
Hypothesis H_text : forall s, P (TextNode s).
Hypothesis H_comment : forall c, P (CommentNode c).
Hypothesis H_textarea : forall s c, P (TextareaNode s c).
Hypothesis H_doctype : P DoctypeNode.

Fixpoint node_tree_ind (n : node) : P n :=
  match n with
  | HTMLNode t ns c =>
      H_html t ns c
        ((fix go (l : list node) : Forall P l :=
            match l with
            | [] => Forall_nil P
            | x :: l' => Forall_cons x (node_tree_ind x) (go l')
            end) ns)
  | VoidHTMLNode t => H_void t
  | TextNode s => H_text s
  | CommentNode c => H_comment c
  | TextareaNode s c => H_textarea s c
  | DoctypeNode => H_doctype
  end.
End NodeInd.

(** [node.type]: the tag name of element nodes, a fixed name otherwise. *)
Definition type_of (n : node) : option string :=
  match n with
  | HTMLNode t _ _ | VoidHTMLNode t => t
  | TextNode _ => Some "text"
  | CommentNode _ => Some "comment"
  | TextareaNode _ _ => Some "textarea"
  | DoctypeNode => Some "doctype"
  end.

(** [f"{self.type}"]: Python formats [None] as ["None"]. *)
Definition type_str (t : option string) : string :=
  match t with Some s => s | None => "None" end.

(** ** [will_accept] (l.24-25, 39-40, 66-67, 76-77, 93-94, 111-112, 129-130) *)
Definition will_accept (buffer : string) (n : node) : bool :=
  match n with
  | HTMLNode _ _ is_closed => negb is_closed
  | VoidHTMLNode _ => false
  | TextNode _ => negb (startswith buffer "<")
  | CommentNode is_closed => negb is_closed
  | TextareaNode _ is_closed => negb is_closed
  | DoctypeNode => false
  end.

(** ** The leaf [digest] methods *)

(** [CommentNode.digest] (l.96-97): the comment keeps no content; it is
    closed exactly when the latest fragment ends with [-->]. *)
Definition comment_digest (buffer : string) : node :=
  CommentNode (endswith buffer "-->").

(** [TextareaNode.digest] (l.114-117). *)
Definition textarea_digest (buffer content : string) : node :=
  let content' := (content ++ buffer)%string in
  TextareaNode content' (contains content' "</textarea").

(** ** The constructors: [cls(buffer)] *)

Definition mk_HTMLNode (buffer : string) : node :=
  HTMLNode (get_node_type buffer) [] false.
Definition mk_VoidHTMLNode (buffer : string) : node :=
  VoidHTMLNode (get_node_type buffer).
Definition mk_TextNode (buffer : string) : node := TextNode buffer.
(** [CommentNode.__init__] sets [is_closed = False], then digests the
    buffer. *)
Definition mk_CommentNode (buffer : string) : node := comment_digest buffer.
(** [TextareaNode.__init__] ignores its buffer: the opening tag is not part
    of the content. *)
Definition mk_TextareaNode (buffer : string) : node := TextareaNode "" false.
Definition mk_DoctypeNode (buffer : string) : node := DoctypeNode.

(** The class [get_new_node] selects. *)
Inductive node_class := CText | CComment | CDoctype | CTextarea | CVoid | CHTML.

(** The [if]/[elif] chain of [get_new_node] (l.157-175). *)
Definition classify (buffer : string) : node_class :=
  if negb (startswith buffer "<") then CText
  else if startswith buffer "<!--" then CComment
  else if startswith buffer "<!doctype" then CDoctype
  else if startswith buffer "<textarea" then CTextarea
  else
    let node_type := get_node_type buffer in
    if in_set node_type VOID_TYPES then CVoid
    else match node_type with
         | None => CText
         | Some _ => CHTML
         end.

Definition construct (cls : node_class) : string -> node :=
  match cls with
  | CText => mk_TextNode
  | CComment => mk_CommentNode
  | CDoctype => mk_DoctypeNode
  | CTextarea => mk_TextareaNode
  | CVoid => mk_VoidHTMLNode
  | CHTML => mk_HTMLNode
  end.

(** [get_new_node(buffer)] (l.156-177): [return cls(buffer)]. *)
Definition get_new_node (buffer : string) : node :=
  construct (classify buffer) buffer.

(** ** [digest] *)

(** [HTMLNode.digest] (l.42-50): give the fragment to the last child if it
    accepts it; otherwise close this node on its closing tag (a prefix
    test); otherwise append a new child.  [TextNode.digest] (l.79-80)
    appends.  [VoidHTMLNode] and [DoctypeNode] have no [digest]: their branch
    is never taken by the dispatcher (see [delegate_accepting]). *)
Fixpoint digest (buffer : string) (n : node) {struct n} : node :=
  match n with
  | HTMLNode t ns is_closed =>
      match update_last
              (fun x => if will_accept buffer x then Some (digest buffer x) else None) ns
      with
      | Some ns' => HTMLNode t ns' is_closed
      | None =>
          if startswith buffer ("</" ++ type_str t) then HTMLNode t ns true
          else HTMLNode t (ns ++ [get_new_node buffer]) is_closed
      end
  | TextNode content => TextNode (content ++ buffer)
  | CommentNode _ => comment_digest buffer
  | TextareaNode content _ => textarea_digest buffer content
  | VoidHTMLNode _ | DoctypeNode => n
  end.

(** [if self.nodes and self.nodes[-1].will_accept(buffer):
    self.nodes[-1].digest(buffer)], shared by the two containers. *)
Definition delegate (buffer : string) (ns : list node) : option (list node) :=
  update_last (fun x => if will_accept buffer x then Some (digest buffer x) else None) ns.

(** ** [RootNode] (l.133-146) *)

Record RootNode := { root_nodes : list node }.

Definition RootNode_init : RootNode := {| root_nodes := [] |}.

(** [RootNode.digest]: the same dispatch, with no closing tag. *)
Definition root_digest (buffer : string) (root : RootNode) : RootNode :=
  match delegate buffer (root_nodes root) with
  | Some ns' => {| root_nodes := ns' |}
  | None => {| root_nodes := root_nodes root ++ [get_new_node buffer] |}
  end.

(** ** [get_text] *)

(** [HTMLNode.is_visible] (l.55-57) *)
Definition is_visible (t : option string) : bool := negb (in_set t INVISIBLE_TYPES).

(** [get_text] of every class: [HTMLNode] (l.52-53) joins the non-empty
    texts of its children with newlines when visible; [TextNode] (l.82-83)
    returns its content; [TextareaNode] (l.119-121) the content before the
    first [</textarea]; the others inherit [BaseNode.get_text] (l.27-28). *)
Fixpoint get_text (n : node) : string :=
  match n with
  | HTMLNode t ns _ =>
      if is_visible t then String.concat nl (filter nonempty (map get_text ns))
      else EmptyString
  | TextNode content => content
  | TextareaNode content _ => split_first content "</textarea"
  | VoidHTMLNode _ | CommentNode _ | DoctypeNode => EmptyString
  end.

(** [RootNode.get_text] (l.145-146) *)
Definition root_get_text (root : RootNode) : string :=
  String.concat nl (filter nonempty (map get_text (root_nodes root))).

(** ** The right-spine invariant *)

(** A node is open when it has an [is_closed] attribute that is false. *)
Definition is_open (n : node) : bool :=
  match n with
  | HTMLNode _ _ c | CommentNode c | TextareaNode _ c => negb c
  | _ => false
  end.

(** A node is frozen when it refuses every fragment. *)
Definition is_frozen (n : node) : bool :=
  match n with
  | HTMLNode _ _ c | CommentNode c | TextareaNode _ c => c
  | VoidHTMLNode _ | DoctypeNode => true
  | TextNode _ => false
  end.

Definition none_open (ns : list node) : bool := forallb (fun x => negb (is_open x)) ns.

(** In every container only the last child may be open, and a closed
    element has no open child: the open nodes form one path from the root,
    the right spine. *)
Fixpoint wf (n : node) : bool :=
  match n with
  | HTMLNode _ ns c =>
      forallb wf ns && none_open (removelast ns) && (negb c || none_open ns)
  | _ => true
  end.

Definition root_wf (r : RootNode) : bool :=
  forallb wf (root_nodes r) && none_open (removelast (root_nodes r)).

(** ** The dispatcher *)

Lemma digest_HTMLNode (b : string) t ns c :
  digest b (HTMLNode t ns c) =
  match delegate b ns with
  | Some ns' => HTMLNode t ns' c
  | None =>
      if startswith b ("</" ++ type_str t) then HTMLNode t ns true
      else HTMLNode t (ns ++ [get_new_node b]) c
  end.
Proof. reflexivity. Qed.

Lemma delegate_nil (b : string) : delegate b [] = None.
Proof. reflexivity. Qed.

Lemma delegate_snoc (b : string) (pre : list node) (x : node) :
  delegate b (pre ++ [x]) =
  if will_accept b x then Some (pre ++ [digest b x]) else None.
Proof. unfold delegate. rewrite update_last_app. now destruct (will_accept b x). Qed.

#[export] Hint Rewrite delegate_nil delegate_snoc : pyhtml_rw.

(** Split a list of children into its last child and the rest, and compute
    the dispatcher on it. *)
Ltac destruct_children ns :=
  let pre := fresh "pre" in let x := fresh "x" in
  destruct (list_snoc_cases ns) as [->|(pre & x & ->)];
  autorewrite with pyhtml_rw.

(** The dispatcher only ever calls [digest] on a node that accepts the
    fragment, so never on a [VoidHTMLNode] or [DoctypeNode], which have no
    [digest] method in Python. *)
Lemma will_accept_has_digest (b : string) (x : node) :
  will_accept b x = true ->
  match x with VoidHTMLNode _ | DoctypeNode => False | _ => True end.
Proof. destruct x; cbn; auto; discriminate. Qed.

Lemma will_accept_open (b : string) (x : node) :
  is_open x = true -> will_accept b x = true.
Proof. destruct x; cbn; auto; discriminate. Qed.

Lemma will_accept_frozen (b : string) (x : node) :
  is_frozen x = true -> will_accept b x = false.
Proof. destruct x; cbn; intros H; try rewrite H; auto; discriminate. Qed.

(** ** Well-formedness *)

Lemma none_open_snoc (ns : list node) (x : node) :
  none_open (ns ++ [x]) = none_open ns && negb (is_open x).
Proof. unfold none_open. rewrite forallb_app. cbn. now rewrite andb_true_r. Qed.

#[export] Hint Rewrite none_open_snoc : pyhtml_rw.

Lemma forallb_snoc {A} (f : A -> bool) (l : list A) (x : A) :
  forallb f (l ++ [x]) = forallb f l && f x.
Proof. rewrite forallb_app. cbn. now rewrite andb_true_r. Qed.

#[export] Hint Rewrite @forallb_snoc : pyhtml_rw.

(** A rejecting last child is not open. *)
Lemma reject_not_open (b : string) x :
  will_accept b x = false -> negb (is_open x) = true.
Proof.
  intros H. destruct (is_open x) eqn:E; [|reflexivity].
  now rewrite (will_accept_open b x E) in H.
Qed.

Lemma wf_get_new_node (b : string) : wf (get_new_node b) = true.
Proof.
  unfold get_new_node, classify.
  case_ifs; try reflexivity; destruct (get_node_type b); reflexivity.
Qed.

#[export] Hint Resolve wf_get_new_node reject_not_open : pyhtml.

(** The step shared by the two containers: a list of children whose
    non-last members are closed keeps that shape when the dispatcher
    delegates, and all children are closed when it does not. *)
Lemma delegate_wf (b : string) ns :
  forallb wf ns = true -> none_open (removelast ns) = true ->
  (forall x, In x ns -> wf x = true -> will_accept b x = true -> wf (digest b x) = true) ->
  match delegate b ns with
  | Some ns' => forallb wf ns' = true /\ none_open (removelast ns') = true
  | None => none_open ns = true
  end.
Proof.
  intros Hwf Hopen IH. destruct_children ns; [reflexivity|].
  rewrite removelast_snoc in Hopen. rewrite forallb_snoc in Hwf.
  apply andb_true_iff in Hwf as [Hpre Hx].
  destruct (will_accept b x) eqn:Ea.
  - autorewrite with pyhtml_rw. rewrite Hpre, Hopen, IH; auto using in_or_app, in_eq.
  - rewrite Hopen. cbn. now apply reject_not_open in Ea as ->.
Qed.

(** [digest] keeps a node well formed when the node accepts the fragment,
    which is the only way the dispatcher calls it. *)
Lemma digest_wf (b : string) (n : node) :
  wf n = true -> will_accept b n = true -> wf (digest b n) = true.
Proof.
  induction n using node_tree_ind; intros Hwf Ha; try reflexivity.
  rename H into IH. cbn in Ha. apply negb_true_iff in Ha as ->.
  cbn [wf] in Hwf. rewrite andb_true_r in Hwf. apply andb_true_iff in Hwf as [Hwf Hopen].
  rewrite Forall_forall in IH.
  pose proof (delegate_wf b ns Hwf Hopen (fun x Hx => IH x Hx)) as Hd.
  rewrite digest_HTMLNode. destruct (delegate b ns) as [ns'|].
  - destruct Hd as [H1 H2]. cbn. now rewrite H1, H2.
  - destruct (startswith b ("</" ++ type_str t)); cbn [wf negb orb andb].
    + now rewrite Hwf, Hopen, Hd.
    + autorewrite with pyhtml_rw. now rewrite Hwf, Hd, wf_get_new_node.
Qed.

(** [RootNode.digest] keeps the root well formed. *)
Lemma root_digest_wf (b : string) (r : RootNode) :
  root_wf r = true -> root_wf (root_digest b r) = true.
Proof.
  unfold root_wf, root_digest. intros [Hwf Hopen]%andb_true_iff.
  pose proof (delegate_wf b _ Hwf Hopen (fun x _ Hx Ha => digest_wf b x Hx Ha)) as Hd.
  destruct (delegate b (root_nodes r)) as [ns'|]; cbn [root_nodes].
  - now destruct Hd as [-> ->].
  - autorewrite with pyhtml_rw. now rewrite Hwf, Hd, wf_get_new_node.
Qed.

(** Deliver fragments to the root, in order. *)
Definition digest_all (fs : list string) (r : RootNode) : RootNode :=
  fold_left (fun r b => root_digest b r) fs r.

Lemma digest_all_app (fs gs : list string) (r : RootNode) :
  digest_all (fs ++ gs) r = digest_all gs (digest_all fs r).
Proof. unfold digest_all. apply fold_left_app. Qed.

Lemma digest_all_step (f : string) (fs : list string) (r : RootNode) :
  digest_all (f :: fs) r = digest_all fs (root_digest f r).
Proof. reflexivity. Qed.

Lemma digest_all_wf (fs : list string) (r : RootNode) :
  root_wf r = true -> root_wf (digest_all fs r) = true.
Proof.
  revert r; induction fs as [|b fs IH]; intros r H; [exact H|].
  apply IH, root_digest_wf, H.
Qed.

(** ** Types of the nodes

    The [type] attribute of an element node is what [get_node_type]
    returned when [get_new_node] chose [HTMLNode] or [VoidHTMLNode]: never
    [None] for an element (a fragment without a tag name becomes a text
    node), and one of [VOID_TYPES] for a void node. *)
Fixpoint typed (n : node) : bool :=
  match n with
  | HTMLNode (Some t) ns _ => tag_name t && forallb typed ns
  | HTMLNode None _ _ => false
  | VoidHTMLNode t => in_set t VOID_TYPES
  | _ => true
  end.

Definition root_typed (r : RootNode) : bool := forallb typed (root_nodes r).

Lemma typed_get_new_node (b : string) : typed (get_new_node b) = true.
Proof.
  unfold get_new_node, classify. cbv zeta.
  destruct (negb (startswith b "<")); [reflexivity|].
  destruct (startswith b "<!--"); [reflexivity|].
  destruct (startswith b "<!doctype"); [reflexivity|].
  destruct (startswith b "<textarea"); [reflexivity|].
  destruct (in_set (get_node_type b) VOID_TYPES) eqn:Ev; [exact Ev|].
  destruct (get_node_type b) as [t|] eqn:Et; [|reflexivity].
  cbn. unfold mk_HTMLNode. rewrite Et. cbn. now rewrite (get_node_type_tag_name b t Et).
Qed.

#[export] Hint Resolve typed_get_new_node : pyhtml.

(** The dispatcher keeps a property of all children that [digest]
    keeps. *)
Lemma delegate_forallb (P : node -> bool) (b : string) (ns ns' : list node) :
  (forall x, In x ns -> P x = true -> P (digest b x) = true) ->
  forallb P ns = true -> delegate b ns = Some ns' -> forallb P ns' = true.
Proof.
  intros Hstep Hns. destruct_children ns; [discriminate|].
  destruct (will_accept b x); [|discriminate]. intros [= <-].
  rewrite forallb_snoc in Hns |- *. apply andb_true_iff in Hns as [Hpre Hx].
  rewrite Hpre, Hstep; auto using in_or_app, in_eq.
Qed.

Lemma digest_typed (b : string) (n : node) : typed n = true -> typed (digest b n) = true.
Proof.
  induction n using node_tree_ind; intros Ht; try reflexivity; [|exact Ht].
  rewrite Forall_forall in H. destruct t as [t|]; [|discriminate].
  cbn [typed] in Ht. apply andb_true_iff in Ht as [Htn Hns].
  rewrite digest_HTMLNode. destruct (delegate b ns) as [ns'|] eqn:Ed.
  - cbn [typed]. rewrite Htn. exact (delegate_forallb typed b ns ns' H Hns Ed).
  - destruct (startswith b ("</" ++ type_str (Some t))); cbn [typed]; rewrite Htn; [exact Hns|].
    rewrite forallb_snoc, Hns. apply typed_get_new_node.
Qed.

Lemma root_digest_typed (b : string) (r : RootNode) :
  root_typed r = true -> root_typed (root_digest b r) = true.
Proof.
  unfold root_typed, root_digest. intros Hr.
  destruct (delegate b (root_nodes r)) as [ns'|] eqn:Ed; cbn [root_nodes].
  - exact (delegate_forallb typed b _ ns' (fun x _ => digest_typed b x) Hr Ed).
  - rewrite forallb_snoc, Hr. apply typed_get_new_node.
Qed.

Lemma digest_all_typed (fs : list string) (r : RootNode) :
  root_typed r = true -> root_typed (digest_all fs r) = true.
Proof.
  revert r; induction fs as [|b fs IH]; intros r H; [exact H|].
  apply IH, root_digest_typed, H.
Qed.

(** ** Closed nodes are frozen *)

(** The node at a path of child indices below a node, and below the root. *)
Fixpoint subtree (p : list nat) (n : node) : option node :=
  match p with
  | [] => Some n
  | i :: p' =>
      match n with
      | HTMLNode _ ns _ =>
          match nth_error ns i with Some m => subtree p' m | None => None end
      | _ => None
      end
  end.

Definition root_subtree (p : list nat) (r : RootNode) : option node :=
  match p with
  | [] => None
  | i :: p' =>
      match nth_error (root_nodes r) i with Some m => subtree p' m | None => None end
  end.

(** The dispatcher changes at most the last child, by digesting it; so
    every property of the [i]-th child that digesting the accepting last
    child preserves, and that a frozen child has, is preserved. *)
Lemma delegate_nth (b : string) (ns : list node) (i : nat) (P : node -> Prop) :
  (forall x, In x ns -> will_accept b x = true -> P x -> P (digest b x)) ->
  forall m, nth_error ns i = Some m -> P m ->
  match delegate b ns with
  | Some ns' => exists m', nth_error ns' i = Some m' /\ P m'
  | None => nth_error (ns ++ [get_new_node b]) i = Some m
  end.
Proof.
  intros Hstep m Hi Hm. destruct_children ns.
  - destruct i; discriminate.
  - assert (Hlt : i < length (pre ++ [x])) by (apply nth_error_Some; congruence).
    rewrite length_app in Hlt. cbn in Hlt.
    destruct (will_accept b x) eqn:Ea.
    + destruct (Nat.eq_dec i (length pre)) as [->|Hne].
      * rewrite nth_error_app2, Nat.sub_diag in Hi by lia. injection Hi as <-.
        exists (digest b x). rewrite nth_error_app2, Nat.sub_diag by lia.
        split; [reflexivity|]. apply Hstep; auto using in_or_app, in_eq.
      * rewrite nth_error_app1 in Hi |- * by lia. eauto.
    + rewrite nth_error_app1; auto. rewrite length_app. cbn. lia.
Qed.

(** A frozen node below an accepting node is still there, unchanged,
    after [digest]. *)
Lemma digest_subtree_frozen (b : string) (m : node) :
  will_accept b m = true ->
  forall p n, subtree p m = Some n -> is_frozen n = true ->
  subtree p (digest b m) = Some n.
Proof.
  induction m using node_tree_ind; intros Ha p n Hp Hf;
    destruct p as [|i p]; cbn in Hp; try discriminate;
    try (injection Hp as <-; now rewrite will_accept_frozen in Ha).
  rewrite Forall_forall in H.
  destruct (nth_error ns i) as [m|] eqn:Hi; [|discriminate].
  pose proof (delegate_nth b ns i (fun m => subtree p m = Some n)
                (fun x Hx Hax Hpx => H x Hx Hax p n Hpx Hf) m Hi Hp) as Hd.
  rewrite digest_HTMLNode. destruct (delegate b ns) as [ns'|].
  - destruct Hd as (m' & Hm' & Hp'). cbn. now rewrite Hm'.
  - destruct (startswith b ("</" ++ type_str t)); cbn; [now rewrite Hi|now rewrite Hd].
Qed.

Lemma root_digest_subtree_frozen (b : string) (r : RootNode) p n :
  root_subtree p r = Some n -> is_frozen n = true ->
  root_subtree p (root_digest b r) = Some n.
Proof.
  destruct p as [|i p]; [discriminate|]. cbn. intros Hp Hf.
  destruct (nth_error (root_nodes r) i) as [m|] eqn:Hi; [|discriminate].
  pose proof (delegate_nth b (root_nodes r) i (fun m => subtree p m = Some n)
                (fun x _ Hax Hpx => digest_subtree_frozen b x Hax p n Hpx Hf) m Hi Hp) as Hd.
  unfold root_digest. destruct (delegate b (root_nodes r)) as [ns'|]; cbn.
  - destruct Hd as (m' & -> & Hp'). exact Hp'.
  - now rewrite Hd.
Qed.

Lemma digest_all_subtree_frozen (fs : list string) (r : RootNode) p n :
  root_subtree p r = Some n -> is_frozen n = true ->
  root_subtree p (digest_all fs r) = Some n.
Proof.
  revert r; induction fs as [|b fs IH]; intros r Hp Hf; [exact Hp|].
  apply IH; [apply root_digest_subtree_frozen|]; assumption.
Qed.

(** ** An open node at the root absorbs what it accepts *)

(** An open element that is the last child of the root takes every
    fragment that does not start with its closing tag, and stays open. *)
Lemma open_element_absorbs (t : option string) (fs : list string) :
  Forall (fun f => startswith f ("</" ++ type_str t) = false) fs ->
  forall pre ns, exists ns',
    digest_all fs {| root_nodes := pre ++ [HTMLNode t ns false] |} =
    {| root_nodes := pre ++ [HTMLNode t ns' false] |}.
Proof.
  induction 1 as [|f fs Hf Hfs IH]; intros pre ns; [now exists ns|].
  cbn [digest_all fold_left]. unfold root_digest at 2. cbn [root_nodes].
  rewrite delegate_snoc. cbn [will_accept negb]. rewrite digest_HTMLNode.
  destruct (delegate f ns) as [ns1|]; [apply IH|]. rewrite Hf. apply IH.
Qed.

(** An open [textarea] at the root takes every fragment and keeps it,
    until its content contains [</textarea]. *)
Lemma textarea_absorbs (fs : list string) (pre : list node) (c : string) :
  contains (c ++ cat fs) "</textarea" = false ->
  digest_all fs {| root_nodes := pre ++ [TextareaNode c false] |} =
  {| root_nodes := pre ++ [TextareaNode (c ++ cat fs) false] |}.
Proof.
  revert c; induction fs as [|f fs IH]; intros c H; cbn [cat] in *.
  - now rewrite append_nil_r.
  - cbn [digest_all fold_left]. unfold root_digest at 2. cbn [root_nodes].
    rewrite delegate_snoc. cbn [will_accept negb digest]. unfold textarea_digest.
    rewrite <- append_assoc in H. rewrite (proj1 (contains_app_false _ _ _ H)).
    rewrite IH by exact H. now rewrite append_assoc.
Qed.

(** The text of a root with one child is the text of that child. *)
Lemma root_get_text_single (n : node) :
  root_get_text {| root_nodes := [n] |} = get_text n.
Proof.
  unfold root_get_text. cbn [root_nodes map filter].
  now destruct (get_text n) as [|a s].
Qed.

(** An open comment at the root takes every fragment that does not end
    with [-->], and stays open. *)
Lemma comment_absorbs (fs : list string) (pre : list node) :
  Forall (fun f => endswith f "-->" = false) fs ->
  digest_all fs {| root_nodes := pre ++ [CommentNode false] |} =
  {| root_nodes := pre ++ [CommentNode false] |}.
Proof.
  induction 1 as [|f fs Hf Hfs IH]; [reflexivity|].
  rewrite digest_all_step. unfold root_digest. cbn [root_nodes].
  rewrite delegate_snoc. cbn [will_accept negb digest]. unfold comment_digest.
  now rewrite Hf.
Qed.

(** ** A node the fragments no longer reach *)

(** A node at the front of the root is never given a fragment once
    another node follows it; alone, it must refuse the fragment. *)
Lemma root_digest_cons (b : string) (c : node) (ns : list node) :
  (ns = [] -> will_accept b c = false) ->
  root_digest b {| root_nodes := c :: ns |} =
  {| root_nodes := c :: root_nodes (root_digest b {| root_nodes := ns |}) |}.
Proof.
  intros H. unfold root_digest. cbn [root_nodes].
  destruct (list_snoc_cases ns) as [->|(pre & x & ->)].
  - change [c] with ([] ++ [c]). rewrite delegate_snoc, H by reflexivity. reflexivity.
  - change (c :: pre ++ [x]) with ((c :: pre) ++ [x]). rewrite !delegate_snoc.
    now destruct (will_accept b x).
Qed.

Lemma root_digest_nonempty (b : string) (r : RootNode) : root_nodes (root_digest b r) <> [].
Proof.
  destruct r as [ns]. unfold root_digest. cbn [root_nodes].
  destruct_children ns; [discriminate|].
  destruct (will_accept b x); cbn [root_nodes]; intros E; apply app_eq_nil in E as [_ E];
    discriminate.
Qed.

Lemma digest_all_cons (c : node) (fs : list string) : forall ns,
  (ns = [] -> forall f fs', fs = f :: fs' -> will_accept f c = false) ->
  digest_all fs {| root_nodes := c :: ns |} =
  {| root_nodes := c :: root_nodes (digest_all fs {| root_nodes := ns |}) |}.
Proof.
  induction fs as [|f fs IH]; intros ns H; [reflexivity|].
  rewrite !digest_all_step, root_digest_cons by (intros E; exact (H E f fs eq_refl)).
  destruct (root_digest f {| root_nodes := ns |}) as [ns'] eqn:E. cbn [root_nodes].
  apply IH. intros ->. exfalso. apply (root_digest_nonempty f {| root_nodes := ns |}).
  now rewrite E.
Qed.

(** ["\n".join(filter(None, [a] + l))] is [a] joined to the join of [l]. *)
Lemma concat_filter_cons (a : string) (l : list string) :
  String.concat nl (filter nonempty (a :: l)) =
  String.concat nl (filter nonempty [a; String.concat nl (filter nonempty l)]).
Proof.
  assert (Hf : forallb nonempty (filter nonempty l) = true).
  { apply forallb_forall. intros x Hx. apply filter_In in Hx. tauto. }
  change (filter nonempty (a :: l))
    with (if nonempty a then a :: filter nonempty l else filter nonempty l).
  destruct (filter nonempty l) as [|x [|y L]]; cbn in Hf |- *;
    [now destruct (nonempty a)| |];
    (destruct x; [discriminate|]); destruct (nonempty a); reflexivity.
Qed.

Lemma root_get_text_cons (c : node) (ns : list node) :
  root_get_text {| root_nodes := c :: ns |} =
  String.concat nl (filter nonempty [get_text c; root_get_text {| root_nodes := ns |}]).
Proof. unfold root_get_text. cbn [root_nodes map]. apply concat_filter_cons. Qed.

(** ** The closing-tag test is a prefix test *)

(** C13: the closing-tag test is a prefix test: an open element whose last
    child refuses the fragment is closed by any fragment that starts with
    [</] and its tag name, so [</body>] closes an open [<b>] and
    [</article>] an open [<a>]. *)
Lemma closing_tag_prefix (t x : string) (ns : list node) :
  delegate ("</" ++ t ++ x) ns = None ->
  digest ("</" ++ t ++ x) (HTMLNode (Some t) ns false) = HTMLNode (Some t) ns true.
Proof.
  intros H. rewrite digest_HTMLNode, H. cbn [type_str].
  replace ("</" ++ t ++ x)%string with (("</" ++ t) ++ x)%string by apply append_assoc.
  now rewrite startswith_app.
Qed.

(** ** Classification of fragments *)

(** A fragment with a tag name cannot start with [<!]. *)
Lemma tag_not_bang (b t : string) :
  get_node_type b = Some t -> forall p, startswith b (String "<" (String "!" p)) = false.
Proof.
  intros Ht p. apply get_node_type_spec in Ht as (rest & -> & Hne & Hg & _).
  destruct t as [|c t]; [congruence|]. cbn in Hg. apply andb_true_iff in Hg as [Hc _].
  cbn [append]. rewrite !startswith_cons, Ascii.eqb_refl. cbn [andb].
  destruct (Ascii.eqb "!" c) eqn:E; [apply Ascii.eqb_eq in E as <-; discriminate|reflexivity].
Qed.

Lemma classify_void (b t : string) :
  get_node_type b = Some t -> In t VOID_TYPES -> classify b = CVoid.
Proof.
  intros Ht Hv. pose proof Ht as Hm. apply get_node_type_spec in Hm as (rest & -> & _).
  unfold classify. rewrite Ht.
  cbn in Hv. repeat destruct Hv as [<-|Hv]; try contradiction; reflexivity.
Qed.

Lemma classify_HTML (b t : string) :
  get_node_type b = Some t -> in_set (Some t) VOID_TYPES = false ->
  startswith b "<textarea" = false -> classify b = CHTML.
Proof.
  intros Ht Hv Htx. unfold classify. rewrite Ht, Hv, Htx.
  rewrite !(tag_not_bang b t Ht). cbn [negb].
  apply get_node_type_spec in Ht as (rest & -> & _). reflexivity.
Qed.

(** The nodes the parser builds from a start tag, from a closing tag
    and from a text. *)
Lemma get_new_node_open_tag (n : string) :
  tag_name n = true -> in_set (Some n) VOID_TYPES = false -> startswith n "textarea" = false ->
  get_new_node ("<" ++ n ++ ">") = HTMLNode (Some n) [] false.
Proof.
  intros Hn Hv Htx. apply andb_true_iff in Hn as [Hne Hn].
  pose proof (get_node_type_tag n Hne Hn) as Ht.
  unfold get_new_node. rewrite (classify_HTML _ n Ht Hv); [cbn [construct]; unfold mk_HTMLNode; now rewrite Ht|].
  change ("<" ++ n ++ ">")%string with (String "<" (n ++ ">")%string). rewrite startswith_cons, Ascii.eqb_refl.
  now rewrite startswith_app_char.
Qed.

Lemma get_new_node_closing (n : string) : get_new_node ("</" ++ n) = TextNode ("</" ++ n).
Proof. reflexivity. Qed.

Lemma get_new_node_text (x : string) : has_char "<" x = false -> get_new_node x = TextNode x.
Proof. intros H. unfold get_new_node, classify. now rewrite startswith_no_char. Qed.

(** C17: a fragment [<t...] whose tag name [t] is one of [VOID_TYPES]
    builds a void node of type [t], which never accepts a fragment. *)
Lemma get_new_node_void (b t : string) :
  get_node_type b = Some t -> In t VOID_TYPES ->
  get_new_node b = VoidHTMLNode (Some t).
Proof.
  intros Ht Hv. unfold get_new_node. rewrite (classify_void b t Ht Hv).
  cbn [construct]. unfold mk_VoidHTMLNode. now rewrite Ht.
Qed.

(** C18: a fragment [<t...] whose tag name [t] is not void and that does
    not start with [<textarea] builds an open element of type [t] with no
    children. *)
Lemma get_new_node_element (b t : string) :
  get_node_type b = Some t -> in_set (Some t) VOID_TYPES = false ->
  startswith b "<textarea" = false ->
  get_new_node b = HTMLNode (Some t) [] false.
Proof.
  intros Ht Hv Htx. unfold get_new_node. rewrite (classify_HTML b t Ht Hv Htx).
  cbn [construct]. unfold mk_HTMLNode. now rewrite Ht.
Qed.

Lemma closing_tag_prefix_witness :
  delegate ("</" ++ "b" ++ "ody>") [TextNode "bold"] = None /\
  digest ("</" ++ "b" ++ "ody>") (HTMLNode (Some "b") [TextNode "bold"] false) =
  HTMLNode (Some "b") [TextNode "bold"] true.
Proof. split; [reflexivity|apply (closing_tag_prefix "b" "ody>" [TextNode "bold"]); reflexivity]. Defined.

Lemma get_new_node_void_witness :
  get_node_type "<br/>" = Some "br" /\ In "br" VOID_TYPES /\
  get_new_node "<br/>" = VoidHTMLNode (Some "br").
Proof.
  split; [reflexivity|split; [cbn; tauto|]].
  apply (get_new_node_void "<br/>" "br"); [reflexivity|cbn; tauto].
Defined.

Lemma get_new_node_element_witness :
  get_node_type "<p class='x'>" = Some "p" /\ in_set (Some "p") VOID_TYPES = false /\
  startswith "<p class='x'>" "<textarea" = false /\
  get_new_node "<p class='x'>" = HTMLNode (Some "p") [] false.
Proof.
  split; [reflexivity|split; [reflexivity|split; [reflexivity|]]].
  apply (get_new_node_element "<p class='x'>" "p"); reflexivity.
Defined.

(** C3: [RootNode.digest] preserves the right-spine invariant: in every
    container only the last child may be open, and a closed element has no
    open child. *)
Theorem root_digest_preserves_wf (b : string) (r : RootNode) :
  root_wf r = true -> root_wf (root_digest b r) = true.
Proof. exact (root_digest_wf b r). Qed.

Lemma root_digest_preserves_wf_witness :
  root_wf {| root_nodes := [HTMLNode (Some "p") [TextNode "x"] false] |} = true /\
  root_wf (root_digest "</p>" {| root_nodes := [HTMLNode (Some "p") [TextNode "x"] false] |}) = true.
Proof. split; [reflexivity|apply root_digest_preserves_wf; reflexivity]. Defined.

(** C5: a frozen node (a closed element, comment or textarea, a void or a
    doctype node) anywhere in the tree stays at the same place, unchanged,
    whatever fragments the root receives afterwards. *)
Theorem frozen_nodes_persist (fs : list string) (r : RootNode) (p : list nat) (n : node) :
  root_subtree p r = Some n -> is_frozen n = true ->
  root_subtree p (digest_all fs r) = Some n.
Proof. exact (digest_all_subtree_frozen fs r p n). Qed.

Lemma frozen_nodes_persist_witness :
  root_subtree [0; 0] {| root_nodes := [HTMLNode (Some "div") [VoidHTMLNode (Some "br")] false] |}
    = Some (VoidHTMLNode (Some "br")) /\
  is_frozen (VoidHTMLNode (Some "br")) = true /\
  root_subtree [0; 0]
    (digest_all ["text"; "<p>"; "</div>"]
       {| root_nodes := [HTMLNode (Some "div") [VoidHTMLNode (Some "br")] false] |})
    = Some (VoidHTMLNode (Some "br")).
Proof. split; [reflexivity|split; [reflexivity|apply frozen_nodes_persist; reflexivity]]. Defined.

End Nodes.
