(* ===== verification/Spine.v ===== *)
(** * The open spine: every open node can be closed

    The open nodes of a well-formed tree lie on its right spine
    ([Nodes.wf]).  [open_depth] counts them; [closer] is the fragment that
    closes the deepest one: its closing tag for an element ([</t>], the
    prefix test of [HTMLNode.digest] then holds), [-->] for a comment,
    [</textarea>] for a textarea.  Delivering it to the root closes that
    node and nothing else, so the spine shrinks by one.  The liveness
    theorem: from any well-formed tree, the [open_depth] fragments of
    [closing_fragments] leave no open node anywhere in the tree. *)

From Stdlib Require Import String Ascii List Bool Arith Lia.
From S2P Require Import Prelude PyStr NodeType Nodes.
Import ListNotations.
Open Scope string_scope.
Open Scope list_scope.

Module Spine.
Import NodeType Nodes.

(** ** The spine *)

(** The number of open nodes on the right spine, from [n] down. *)
Fixpoint open_depth (n : node) : nat :=
  match n with
  | HTMLNode _ ns false =>
      S (match last_map open_depth ns with Some (_, k) => k | None => 0 end)
  | CommentNode false | TextareaNode _ false => 1
  | _ => 0
  end.

(** The fragment that closes the deepest open node below [n]. *)
Fixpoint closer (n : node) : option string :=
  match n with
  | HTMLNode t ns false =>
      match last_map closer ns with
      | Some (_, Some f) => Some f
      | _ => Some ("</" ++ type_str t ++ ">")%string
      end
  | CommentNode false => Some "-->"
  | TextareaNode _ false => Some "</textarea>"
  | _ => None
  end.

Definition root_open_depth (r : RootNode) : nat :=
  match last_map open_depth (root_nodes r) with Some (_, k) => k | None => 0 end.

Definition root_closer (r : RootNode) : option string :=
  match last_map closer (root_nodes r) with Some (_, f) => f | None => None end.

(** Some node of the subtree is open. *)
Fixpoint has_open (n : node) : bool :=
  is_open n || match n with HTMLNode _ ns _ => existsb has_open ns | _ => false end.

Definition root_all_closed (r : RootNode) : bool := negb (existsb has_open (root_nodes r)).

(** Deliver the closer of the current tree, [k] times. *)
Fixpoint closing_from (k : nat) (r : RootNode) : list string :=
  match k with
  | 0 => []
  | S k' =>
      match root_closer r with
      | Some f => f :: closing_from k' (root_digest f r)
      | None => []
      end
  end.

Definition closing_fragments (r : RootNode) : list string :=
  closing_from (root_open_depth r) r.

(** ** Lemmas *)

Lemma closer_open (n : node) : is_open n = false -> closer n = None.
Proof. destruct n as [t ns []|t|s|[]|s []|]; cbn; congruence. Qed.

Lemma closer_some (n : node) : is_open n = true -> exists f, closer n = Some f.
Proof.
  destruct n as [t ns []|t|s|[]|s []|]; cbn; try discriminate; eauto.
  intros _. destruct (last_map closer ns) as [[? [f|]]|]; eauto.
Qed.

Lemma open_depth_closed (n : node) : is_open n = false -> open_depth n = 0.
Proof. destruct n as [t ns []|t|s|[]|s []|]; cbn; congruence. Qed.

Lemma open_depth_open (n : node) : is_open n = true -> 1 <= open_depth n.
Proof. destruct n as [t ns []|t|s|[]|s []|]; cbn; try discriminate; lia. Qed.

(** A closing fragment starts with [<]; a node that is not open refuses
    it. *)
Lemma not_open_refuses (x : node) (f : string) :
  is_open x = false -> startswith f "<" = true -> will_accept f x = false.
Proof.
  intros Ho Hs. destruct x as [t ns []|t|s|[]|s []|]; cbn [will_accept is_open negb] in *;
    try discriminate; try rewrite Hs; reflexivity.
Qed.

Lemma closing_tag_closes (t : option string) :
  startswith (String "<" (String "/" (type_str t ++ ">"))) ("</" ++ type_str t)%string = true.
Proof.
  change (String "<" (String "/" (type_str t ++ ">"))) with ("</" ++ (type_str t ++ ">"))%string.
  rewrite <- append_assoc. apply startswith_app.
Qed.

(** The closer is accepted and closes exactly the deepest open node. *)
Lemma closer_step (n : node) (f : string) :
  closer n = Some f -> will_accept f n = true /\ open_depth (digest f n) = pred (open_depth n).
Proof.
  induction n as [t ns c IH| | | c | s c |] using node_tree_ind; cbn [closer];
    try discriminate; [|destruct c; intros [= <-]; split; [reflexivity|]..].
  2: { reflexivity. }
  2: { cbn [digest]. unfold textarea_digest. now rewrite contains_app_r. }
  destruct c; [discriminate|]. split; [reflexivity|]. rewrite Forall_forall in IH.
  rewrite digest_HTMLNode. destruct_children ns.
  - injection H as <-. rewrite closing_tag_closes. reflexivity.
  - rewrite last_map_snoc in H. destruct (closer x) as [f'|] eqn:Ex.
    + injection H as <-. destruct (IH x ltac:(auto using in_or_app, in_eq) Ex) as [Ha Hd].
      rewrite Ha. cbn [open_depth]. autorewrite with pyhtml_rw.
      assert (1 <= open_depth x).
      { apply open_depth_open. destruct (is_open x) eqn:E; [reflexivity|].
        now rewrite closer_open in Ex. }
      lia.
    + injection H as <-.
      destruct (is_open x) eqn:Eo; [destruct (closer_some x Eo) as [? E]; congruence|].
      rewrite not_open_refuses by (exact Eo || reflexivity). rewrite closing_tag_closes.
      cbn [open_depth]. autorewrite with pyhtml_rw. now rewrite open_depth_closed.
Qed.

Lemma root_closer_step (r : RootNode) (f : string) :
  root_closer r = Some f -> root_open_depth (root_digest f r) = pred (root_open_depth r).
Proof.
  destruct r as [ns]. unfold root_closer, root_open_depth, root_digest. cbn [root_nodes].
  destruct_children ns; [discriminate|]. intros H.
  destruct (closer_step x f H) as [Ha Hd]. rewrite Ha. cbn [root_nodes].
  autorewrite with pyhtml_rw. exact Hd.
Qed.

Lemma root_closer_none (r : RootNode) : root_closer r = None -> root_open_depth r = 0.
Proof.
  destruct r as [ns]. unfold root_closer, root_open_depth. cbn [root_nodes].
  destruct_children ns; [reflexivity|]. intros H. apply open_depth_closed.
  destruct (is_open x) eqn:E; [|reflexivity]. destruct (closer_some x E) as [? E']. congruence.
Qed.

(** Well-formed children none of which is open hold no open node at any
    depth. *)
Lemma children_closed (ns : list node) :
  (forall y, In y ns -> wf y = true -> is_open y = false -> has_open y = false) ->
  forallb wf ns = true -> none_open ns = true -> existsb has_open ns = false.
Proof.
  intros IH Hwf Hno. apply not_true_iff_false. rewrite existsb_exists.
  intros (y & Hy & Hh). unfold none_open in Hno. rewrite forallb_forall in Hwf, Hno.
  specialize (Hno y Hy). apply negb_true_iff in Hno. rewrite IH in Hh; auto. discriminate.
Qed.

Lemma wf_not_open_closed (n : node) : wf n = true -> is_open n = false -> has_open n = false.
Proof.
  induction n as [t ns c IH| | | | |] using node_tree_ind; intros Hwf Ho;
    cbn [has_open]; rewrite Ho; try reflexivity.
  cbn [is_open] in Ho. apply negb_false_iff in Ho as ->. cbn [wf negb orb] in Hwf.
  apply andb_true_iff in Hwf as [[Hwf _]%andb_true_iff Hno].
  rewrite Forall_forall in IH. cbn [orb]. apply children_closed; auto.
Qed.

Lemma root_all_closed_depth0 (r : RootNode) :
  root_wf r = true -> root_open_depth r = 0 -> root_all_closed r = true.
Proof.
  destruct r as [ns]. unfold root_wf, root_open_depth, root_all_closed. cbn [root_nodes].
  intros [Hwf Hno]%andb_true_iff Hd. apply negb_true_iff.
  apply children_closed; [intros y _; apply wf_not_open_closed|exact Hwf|].
  destruct_children ns; [reflexivity|]. rewrite removelast_snoc in Hno. rewrite last_map_snoc in Hd. rewrite Hno.
  destruct (is_open x) eqn:E; [|reflexivity]. pose proof (open_depth_open x E). lia.
Qed.

Lemma closing_from_spec (k : nat) (r : RootNode) :
  root_wf r = true -> root_open_depth r = k ->
  root_all_closed (digest_all (closing_from k r) r) = true /\ length (closing_from k r) = k.
Proof.
  revert r; induction k as [|k IH]; intros r Hwf Hd.
  - split; [now apply root_all_closed_depth0|reflexivity].
  - cbn [closing_from]. destruct (root_closer r) as [f|] eqn:Hc.
    + unfold digest_all. cbn [fold_left length].
      destruct (IH (root_digest f r)) as [H1 H2];
        [now apply root_digest_wf|now rewrite (root_closer_step r f Hc), Hd|].
      split; [exact H1|now rewrite H2].
    + rewrite (root_closer_none r Hc) in Hd. discriminate.
Qed.

(** ** Liveness *)

(** C21: no node stays open for want of input: from any well-formed tree,
    delivering the fragments of [closing_fragments] (one closing tag,
    [-->] or [</textarea>] per open node of the spine, deepest first)
    leaves no open node anywhere in the tree. *)
Theorem open_nodes_can_close (r : RootNode) :
  root_wf r = true ->
  root_all_closed (digest_all (closing_fragments r) r) = true /\
  length (closing_fragments r) = root_open_depth r.
Proof. intros H. now apply closing_from_spec. Qed.

Lemma open_nodes_can_close_witness :
  let r := {| root_nodes := [HTMLNode (Some "div")
                [HTMLNode (Some "p") [TextNode "Hi "; CommentNode false] false] false] |} in
  root_wf r = true /\
  root_all_closed (digest_all (closing_fragments r) r) = true /\
  length (closing_fragments r) = root_open_depth r.
Proof. cbv zeta. split; [reflexivity|apply open_nodes_can_close; reflexivity]. Defined.

End Spine.
