(* ===== verification/Tokenizer.v ===== *)
(** * The character loop of [parse_html] against a fragment sink

    [parse_html] (src/html_parser/parser.py l.180-195) walks the input one
    character at a time with a string [buffer]: on [<] it hands the buffer
    to the root when [buffer.strip()] is truthy and restarts it as ["<"]; on
    [>] it hands [buffer + ">"] to the root and empties it; any other
    character is appended.  The loop only ever calls [root.digest], so it is
    written here against the interface [FragmentSink] (a type with a
    [digest]), and everything proved here holds whatever the tree does.

    [tokenize] is the two-pass reading of the same loop: it cuts the input
    into pieces, each delivered to the sink or dropped, and returns the
    final buffer.  Theorems: the loop is "tokenize, then deliver the
    delivered pieces in order" ([run_tokenize]); the pieces and the final
    buffer spell the input back exactly ([tokenize_no_loss]); a delivered
    piece is never blank and a dropped one always is; every delivered
    fragment has [<] at most in front and [>] at most at the end. *)

From Stdlib Require Import String Ascii List Bool Lia.
From S2P Require Import Prelude PyStr.
Import ListNotations.
Open Scope string_scope.

(** What the loop needs from the tree: [root.digest(fragment)]. *)
Class FragmentSink (S : Type) := sink_digest : string -> S -> S.

Module Tokenizer.

(** ** The loop *)

Section Loop.
Context {S : Type} `{FragmentSink S}.

(** The loop's state: the root and the buffer. *)
Record parser_state := { root : S; buffer : string }.

(** One iteration of [for letter in html]. *)
Definition parse_step (st : parser_state) (letter : ascii) : parser_state :=
  if Ascii.eqb letter "<" then
    {| root := if nonempty (strip (buffer st)) then sink_digest (buffer st) (root st)
               else root st;
       buffer := "<" |}
  else if Ascii.eqb letter ">" then
    {| root := sink_digest (buffer st ++ ">") (root st); buffer := "" |}
  else {| root := root st; buffer := buffer st ++ String letter "" |}.

(** The whole [for] loop. *)
Fixpoint run (html : string) (st : parser_state) : parser_state :=
  match html with
  | EmptyString => st
  | String letter html' => run html' (parse_step st letter)
  end.

(** Deliver fragments to the sink, in order. *)
Definition deliver (fs : list string) (r : S) : S :=
  fold_left (fun r f => sink_digest f r) fs r.

Lemma run_app (s t : string) (st : parser_state) :
  run (s ++ t) st = run t (run s st).
Proof. revert st; induction s as [|c s IH]; intros st; cbn; auto. Qed.
End Loop.

Arguments parser_state S : clear implicits.

(** ** The two-pass specification *)

(** A piece of the input: delivered to the sink, or discarded as a blank
    buffer before a [<]. *)
Inductive piece := Deliver (s : string) | Drop (s : string).

Definition piece_text (p : piece) : string :=
  match p with Deliver s | Drop s => s end.

Fixpoint fragments (ps : list piece) : list string :=
  match ps with
  | [] => []
  | Deliver s :: ps' => s :: fragments ps'
  | Drop _ :: ps' => fragments ps'
  end.

Fixpoint pieces_text (ps : list piece) : string :=
  match ps with
  | [] => EmptyString
  | p :: ps' => piece_text p ++ pieces_text ps'
  end.

(** Cut the input, from a current buffer, into pieces and a final
    buffer. *)
Fixpoint tokenize (buf html : string) : list piece * string :=
  match html with
  | EmptyString => ([], buf)
  | String c html' =>
      if Ascii.eqb c "<" then
        let (ps, b') := tokenize "<" html' in
        ((if has_nonspace buf then Deliver buf else Drop buf) :: ps, b')
      else if Ascii.eqb c ">" then
        let (ps, b') := tokenize EmptyString html' in
        (Deliver (buf ++ ">") :: ps, b')
      else tokenize (buf ++ String c EmptyString) html'
  end.

(** ** The loop refines the two-pass specification *)

Section Refinement.
Context {S : Type} `{FragmentSink S}.

Theorem run_tokenize (html : string) (r : S) (b : string) :
  run html {| root := r; buffer := b |} =
  {| root := deliver (fragments (fst (tokenize b html))) r;
     buffer := snd (tokenize b html) |}.
Proof.
  revert r b; induction html as [|c html IH]; intros r b; [reflexivity|].
  cbn [run tokenize]. unfold parse_step. cbn [root buffer].
  destruct (Ascii.eqb c "<").
  - rewrite IH. destruct (tokenize "<" html) as [ps b']. cbn.
    rewrite strip_truthy. now destruct (has_nonspace b).
  - destruct (Ascii.eqb c ">"); rewrite IH; [|reflexivity].
    now destruct (tokenize EmptyString html).
Qed.
End Refinement.

(** ** No character is lost or duplicated *)

Theorem tokenize_no_loss (buf html : string) :
  pieces_text (fst (tokenize buf html)) ++ snd (tokenize buf html) = buf ++ html.
Proof.
  revert buf; induction html as [|c html IH]; intros buf; cbn [tokenize].
  - cbn. now rewrite append_nil_r.
  - destruct (Ascii.eqb c "<") eqn:Elt; [|destruct (Ascii.eqb c ">") eqn:Egt].
    + specialize (IH "<"). destruct (tokenize "<" html) as [ps b']. cbn in *.
      apply Ascii.eqb_eq in Elt as ->.
      rewrite append_assoc, IH. now destruct (has_nonspace buf).
    + specialize (IH EmptyString). destruct (tokenize EmptyString html) as [ps b'].
      cbn in *. apply Ascii.eqb_eq in Egt as ->.
      rewrite !append_assoc, IH. reflexivity.
    + rewrite IH, append_assoc. reflexivity.
Qed.

Lemma tokenize_app (buf s t : string) :
  tokenize buf (s ++ t) =
  let (ps, b') := tokenize buf s in
  let (qs, b'') := tokenize b' t in ((ps ++ qs)%list, b'').
Proof.
  revert buf; induction s as [|c s IH]; intros buf; cbn [tokenize append].
  - now destruct (tokenize buf t).
  - destruct (Ascii.eqb c "<"); [|destruct (Ascii.eqb c ">")];
      rewrite ?IH; [destruct (tokenize "<" s) as [ps b']
                   |destruct (tokenize EmptyString s) as [ps b']
                   |reflexivity];
      now destruct (tokenize b' t).
Qed.

Lemma tokenize_app_fst (buf s t : string) :
  fst (tokenize buf (s ++ t)) =
  (fst (tokenize buf s) ++ fst (tokenize (snd (tokenize buf s)) t))%list.
Proof.
  rewrite tokenize_app. destruct (tokenize buf s) as [ps b']. cbn.
  now destruct (tokenize b' t).
Qed.

(** A tail without [<] or [>] only grows the buffer. *)
Lemma tokenize_no_delim (buf t : string) :
  has_char "<" t = false -> has_char ">" t = false -> tokenize buf t = ([], buf ++ t).
Proof.
  revert buf; induction t as [|c t IH]; intros buf Hlt Hgt; cbn [tokenize].
  - now rewrite append_nil_r.
  - cbn [has_char] in Hlt, Hgt. apply orb_false_iff in Hlt as [Hc1 Hlt].
    apply orb_false_iff in Hgt as [Hc2 Hgt].
    rewrite Ascii.eqb_sym in Hc1, Hc2. rewrite Hc1, Hc2, IH by assumption.
    now rewrite append_assoc.
Qed.

(** The buffer after a [<] is ["<"]. *)
Lemma tokenize_snoc_lt (buf s : string) :
  tokenize buf (s ++ "<") =
  (fst (tokenize buf s) ++
   [if has_nonspace (snd (tokenize buf s)) then Deliver (snd (tokenize buf s))
    else Drop (snd (tokenize buf s))], "<")%list.
Proof.
  rewrite tokenize_app. destruct (tokenize buf s) as [ps b']. cbn.
  now destruct (has_nonspace b').
Qed.

(** A closing [>] after a text without delimiters delivers the buffer,
    the text and the [>], and empties the buffer. *)
Lemma tokenize_close (buf s : string) :
  has_char "<" s = false -> has_char ">" s = false ->
  tokenize buf (s ++ ">") = ([Deliver (buf ++ s ++ ">")], EmptyString).
Proof.
  intros H1 H2. rewrite tokenize_app, tokenize_no_delim by assumption.
  cbn. now rewrite append_assoc.
Qed.

(** A whole tag [<s>] read from the buffer [buf]: the buffer is delivered
    unless it is blank, then the tag. *)
Lemma tokenize_tag (buf s : string) :
  has_char "<" s = false -> has_char ">" s = false ->
  tokenize buf ("<" ++ s ++ ">") =
  ([if has_nonspace buf then Deliver buf else Drop buf; Deliver ("<" ++ s ++ ">")], EmptyString).
Proof. intros H1 H2. cbn [append tokenize]. now rewrite tokenize_close. Qed.

(** From a buffer that is not blank, the first delivered fragment starts
    with the buffer; or nothing is delivered and the buffer grows. *)
Lemma tokenize_head (buf s : string) :
  has_nonspace buf = true ->
  (fragments (fst (tokenize buf s)) = [] /\ snd (tokenize buf s) = buf ++ s) \/
  exists w fs, fragments (fst (tokenize buf s)) = (buf ++ w) :: fs.
Proof.
  revert buf; induction s as [|c s IH]; intros buf Hb; cbn [tokenize].
  - left. cbn. now rewrite append_nil_r.
  - destruct (Ascii.eqb c "<"); [|destruct (Ascii.eqb c ">")].
    + right. destruct (tokenize "<" s) as [ps b']. rewrite Hb.
      exists EmptyString, (fragments ps). now rewrite append_nil_r.
    + right. destruct (tokenize EmptyString s) as [ps b']. now exists ">", (fragments ps).
    + destruct (IH (buf ++ String c EmptyString)) as [[H1 H2]|(w & fs & H)].
      * now rewrite has_nonspace_app, Hb.
      * left. split; [exact H1|]. now rewrite H2, append_assoc.
      * right. exists (String c w), fs. now rewrite H, append_assoc.
Qed.

(** Each character of the input cuts at most one fragment. *)
Lemma tokenize_fragments_length (buf html : string) :
  length (fragments (fst (tokenize buf html))) <= String.length html.
Proof.
  revert buf; induction html as [|c html IH]; intros buf; cbn [tokenize]; [cbn; lia|].
  destruct (Ascii.eqb c "<").
  - specialize (IH "<"). destruct (tokenize "<" html) as [ps b']. cbn in *.
    destruct (has_nonspace buf); cbn; lia.
  - destruct (Ascii.eqb c ">").
    + specialize (IH EmptyString). destruct (tokenize EmptyString html) as [ps b']. cbn in *. lia.
    + specialize (IH (buf ++ String c EmptyString)). cbn. lia.
Qed.

Lemma fragments_app (ps qs : list piece) :
  fragments (ps ++ qs) = (fragments ps ++ fragments qs)%list.
Proof. induction ps as [|[] ps IH]; cbn; congruence. Qed.

#[export] Hint Rewrite fragments_app : pyhtml_rw.

(** Every delivered fragment is a piece of the text the pieces spell. *)
Lemma fragments_in_text (ps : list piece) (f : string) :
  In f (fragments ps) -> exists a b, pieces_text ps = a ++ f ++ b.
Proof.
  induction ps as [|[s|s] ps IH]; cbn; [contradiction| |].
  - intros [->|Hin]; [exists EmptyString, (pieces_text ps); reflexivity|].
    destruct (IH Hin) as (a & b & ->). exists (s ++ a), b. now rewrite append_assoc.
  - intros Hin. destruct (IH Hin) as (a & b & ->). exists (s ++ a), b. now rewrite append_assoc.
Qed.

(** No fragment of a text starts with a string the text does not contain. *)
Lemma tokenize_fragment_not_startswith (html pat f : string) :
  contains html pat = false -> In f (fragments (fst (tokenize EmptyString html))) ->
  startswith f pat = false.
Proof.
  intros Hc Hin. destruct (startswith f pat) eqn:E; [|reflexivity].
  destruct (fragments_in_text _ _ Hin) as (a & b & Hab).
  pose proof (tokenize_no_loss EmptyString html) as Hl. rewrite Hab in Hl. cbn in Hl.
  rewrite <- Hl, !append_assoc in Hc.
  now rewrite (contains_app_r a _ _ (contains_app_l _ _ _ (contains_startswith _ _ E))) in Hc.
Qed.

(** No fragment of a text contains a string the text does not contain. *)
Lemma tokenize_fragment_not_contains (html pat f : string) :
  contains html pat = false -> In f (fragments (fst (tokenize EmptyString html))) ->
  contains f pat = false.
Proof.
  intros Hc Hin. destruct (contains f pat) eqn:E; [|reflexivity].
  destruct (fragments_in_text _ _ Hin) as (a & b & Hab).
  pose proof (tokenize_no_loss EmptyString html) as Hl. rewrite Hab in Hl. cbn in Hl.
  rewrite <- Hl, !append_assoc in Hc.
  now rewrite (contains_app_r a _ _ (contains_app_l _ _ _ E)) in Hc.
Qed.

(** The loop drops nothing but empty buffers. *)
Definition drops_nothing (ps : list piece) : bool :=
  forallb (fun p => match p with Drop x => negb (nonempty x) | Deliver _ => true end) ps.

Lemma drops_nothing_cat (ps : list piece) :
  drops_nothing ps = true -> cat (fragments ps) = pieces_text ps.
Proof.
  induction ps as [|[s|s] ps IH]; cbn; intros H; [reflexivity|now rewrite IH|].
  apply andb_true_iff in H as [H1 H2]. rewrite IH by exact H2.
  apply negb_true_iff, nonempty_false in H1 as ->. reflexivity.
Qed.

(** ** What is delivered and what is dropped *)

Definition piece_ok (p : piece) : Prop :=
  match p with
  | Deliver s => has_nonspace s = true
  | Drop s => has_nonspace s = false
  end.

(** C9: the loop hands the tree only fragments with a visible character:
    every delivered piece has a non-whitespace character, and every
    dropped piece is whitespace only. *)
Theorem tokenize_pieces_ok (buf html : string) :
  Forall piece_ok (fst (tokenize buf html)).
Proof.
  revert buf; induction html as [|c html IH]; intros buf; cbn [tokenize]; [constructor|].
  destruct (Ascii.eqb c "<"); [|destruct (Ascii.eqb c ">")].
  - specialize (IH "<"). destruct (tokenize "<" html) as [ps b']. cbn in *.
    constructor; [|exact IH]. destruct (has_nonspace buf) eqn:E; exact E.
  - specialize (IH EmptyString). destruct (tokenize EmptyString html) as [ps b'].
    cbn in *. constructor; [|exact IH]. cbn.
    rewrite has_nonspace_app. apply orb_true_r.
  - apply IH.
Qed.

(** ** The shape of a fragment *)

(** A buffer holds no [>], and [<] at most as its first character. *)
Definition buf_ok (b : string) : bool :=
  negb (has_char ">" b) &&
  match b with EmptyString => true | String _ b' => negb (has_char "<" b') end.

(** A delivered fragment is such a buffer, possibly closed by one [>]. *)
Definition fragment_shape (f : string) : Prop :=
  exists b, buf_ok b = true /\ (f = b \/ f = b ++ ">").

Lemma buf_ok_snoc (b : string) (c : ascii) :
  buf_ok b = true -> Ascii.eqb c "<" = false -> Ascii.eqb c ">" = false ->
  buf_ok (b ++ String c EmptyString) = true.
Proof.
  intros Hb Hlt Hgt. rewrite Ascii.eqb_sym in Hlt, Hgt.
  unfold buf_ok in *. destruct b as [|d b]; cbn [append has_char] in *.
  - now rewrite Hgt.
  - rewrite !has_char_app. cbn [has_char]. rewrite Hgt, Hlt, !orb_false_r. exact Hb.
Qed.

(** C10: from a well-formed buffer (no [>], [<] only in front), every
    fragment delivered to the tree has [<] at most as its first character
    and [>] at most as its last, and the final buffer is again well
    formed. *)
Theorem tokenize_shape (buf html : string) :
  buf_ok buf = true ->
  Forall fragment_shape (fragments (fst (tokenize buf html))) /\
  buf_ok (snd (tokenize buf html)) = true.
Proof.
  revert buf; induction html as [|c html IH]; intros buf Hb; cbn [tokenize];
    [split; [constructor|exact Hb]|].
  destruct (Ascii.eqb c "<") eqn:Elt; [|destruct (Ascii.eqb c ">") eqn:Egt].
  - destruct (IH "<" eq_refl) as [IH1 IH2].
    destruct (tokenize "<" html) as [ps b']. cbn in *.
    split; [|exact IH2].
    destruct (has_nonspace buf); cbn; [constructor; [exists buf; auto|]|]; exact IH1.
  - destruct (IH EmptyString eq_refl) as [IH1 IH2].
    destruct (tokenize EmptyString html) as [ps b']. cbn in *.
    split; [constructor; [exists buf; auto|exact IH1]|exact IH2].
  - apply IH, buf_ok_snoc; assumption.
Qed.

Lemma tokenize_shape_witness :
  buf_ok EmptyString = true /\
  Forall fragment_shape (fragments (fst (tokenize EmptyString "a<b>c</b>d"))) /\
  buf_ok (snd (tokenize EmptyString "a<b>c</b>d")) = true.
Proof. split; [reflexivity|apply (tokenize_shape EmptyString "a<b>c</b>d"); reflexivity]. Defined.

(** C2: no character of the input is lost or duplicated: the pieces the
    loop delivers or drops, followed by the unterminated final buffer,
    spell exactly the starting buffer followed by the input. *)
Theorem tokenize_spells_input (buf html : string) :
  pieces_text (fst (tokenize buf html)) ++ snd (tokenize buf html) = buf ++ html.
Proof. exact (tokenize_no_loss buf html). Qed.

End Tokenizer.
