(* ===== verification/Parser.v ===== *)
(** * [parse_html]: the loop of [Tokenizer] feeding the tree of [Nodes]

    [RootNode] is made a [FragmentSink] by its [digest] ([root_digest]), and
    [parse_html] (src/html_parser/parser.py l.180-195) is the loop run from
    an empty root and an empty buffer.  The theorems here are about what the
    whole parser does with an input string: it is the tree built by
    delivering the fragments of [tokenize] in order; the tree is always well
    formed; a frozen node never changes as more input arrives; an unfinished
    tail is ignored; an invisible element hides everything it swallows; a
    [textarea] renders its raw content; a comment hides everything up to
    its first [-->]; an open element takes the closing tags of its
    ancestors; unknown declarations and names followed by other characters
    are rendered as text; void elements and doctypes render nothing.  The
    lemmas [parse_state_tag] and [parse_state_text] read an input one tag
    or one text at a time, and [parse_html_beside] parses the rest of an
    input beside a node no fragment reaches any more. *)

From Stdlib Require Import String Ascii List Bool Lia.
From S2P Require Import Prelude PyStr NodeType Nodes Tokenizer.
Import ListNotations.
Open Scope string_scope.

Module Parser.
Import NodeType Nodes Tokenizer.

#[export] Instance RootNode_sink : FragmentSink RootNode := root_digest.

(** The loop's state after reading [html]. *)
Definition parse_state (html : string) : parser_state RootNode :=
  run html {| root := RootNode_init; buffer := EmptyString |}.

(** [parse_html(html)] *)
Definition parse_html (html : string) : RootNode := root (parse_state html).

(** The text the tool extracts: [parse_html(html).get_text()]. *)
Definition html_text (html : string) : string := root_get_text (parse_html html).

(** ** The parser is "tokenize, then build" *)

Lemma deliver_digest_all (fs : list string) (r : RootNode) :
  deliver fs r = digest_all fs r.
Proof. reflexivity. Qed.

Lemma run_root (html : string) (st : parser_state RootNode) :
  root (run html st) = digest_all (fragments (fst (tokenize (buffer st) html))) (root st).
Proof. destruct st as [r b]. now rewrite run_tokenize. Qed.

Lemma parse_html_app (s t : string) :
  parse_html (s ++ t) =
  digest_all (fragments (fst (tokenize (buffer (parse_state s)) t))) (parse_html s).
Proof. unfold parse_html, parse_state. now rewrite run_app, run_root. Qed.

Lemma invisible_not_visible (t : string) :
  In t INVISIBLE_TYPES -> is_visible (Some t) = false.
Proof. cbn. intros Ht. repeat destruct Ht as [<-|Ht]; try contradiction; reflexivity. Qed.

(** C1: the interleaved loop of [parse_html] builds the same tree as the
    two-pass reading: cut the whole input into fragments with [tokenize],
    then deliver them to an empty root in order. *)
Theorem parse_html_tokenize (html : string) :
  parse_html html = digest_all (fragments (fst (tokenize EmptyString html))) RootNode_init.
Proof. unfold parse_html, parse_state. now rewrite run_root. Qed.

(** C4: for every input, the tree [parse_html] returns satisfies the
    right-spine invariant. *)
Theorem parse_html_wf (html : string) : root_wf (parse_html html) = true.
Proof. unfold parse_html, parse_state. rewrite run_root. now apply digest_all_wf. Qed.

(** C39: the [type] of every element node of the tree [parse_html]
    returns is a tag name (a non-empty run of ASCII letters and digits),
    never [None], and the [type] of every void node is one of
    [VOID_TYPES]; so the closing test [f"</{self.type}"] never looks for
    [</None]. *)
Theorem parse_html_typed (html : string) : root_typed (parse_html html) = true.
Proof. unfold parse_html, parse_state. rewrite run_root. now apply digest_all_typed. Qed.

(** A frozen node of the tree built from a prefix of the input is still
    there, unchanged, in the tree built from the whole input. *)
Lemma parse_html_frozen (s t : string) (p : list nat) (n : node) :
  root_subtree p (parse_html s) = Some n -> is_frozen n = true ->
  root_subtree p (parse_html (s ++ t)) = Some n.
Proof. intros Hp Hf. rewrite parse_html_app. now apply digest_all_subtree_frozen. Qed.

(** C12: the loop never flushes its buffer at the end of the input: a tail
    with no [<] and no [>] is silently dropped, so ["<p>Hello</p>world"]
    parses as ["<p>Hello</p>"]. *)
Theorem parse_html_unterminated_tail (s t : string) :
  has_char "<" t = false -> has_char ">" t = false -> parse_html (s ++ t) = parse_html s.
Proof. intros H1 H2. now rewrite parse_html_app, tokenize_no_delim. Qed.

(** C7: an element of [INVISIBLE_TYPES] opened at the start of the input
    swallows everything up to its closing tag, and the whole document then
    renders as the empty text. *)
Theorem invisible_element_hides (t s : string) :
  In t INVISIBLE_TYPES -> contains s ("</" ++ t) = false ->
  html_text ("<" ++ t ++ ">" ++ s) = EmptyString.
Proof.
  intros Ht Hs.
  assert (Hpre : parse_state ("<" ++ t ++ ">") =
                 {| root := {| root_nodes := [HTMLNode (Some t) [] false] |};
                    buffer := EmptyString |}).
  { cbn in Ht. repeat destruct Ht as [<-|Ht]; try contradiction; reflexivity. }
  unfold html_text.
  replace ("<" ++ t ++ ">" ++ s) with (("<" ++ t ++ ">") ++ s) by now rewrite !append_assoc.
  rewrite parse_html_app. unfold parse_html. rewrite Hpre. cbn [root buffer].
  assert (Hall : Forall (fun f => startswith f ("</" ++ type_str (Some t)) = false)
                   (fragments (fst (tokenize EmptyString s)))).
  { apply Forall_forall. intros f Hf. now apply (tokenize_fragment_not_startswith s). }
  destruct (open_element_absorbs (Some t) _ Hall [] []) as [ns' E]. cbn [app] in E.
  rewrite E, root_get_text_single. cbn [get_text]. now rewrite invisible_not_visible.
Qed.

(** C8: a [textarea] renders its content verbatim, markup included, up to
    the first [</textarea], provided the loop drops no whitespace run before
    a [<] inside it. *)
Theorem textarea_renders_raw (s : string) :
  contains s "</textarea" = false ->
  drops_nothing (fst (tokenize EmptyString (s ++ "<"))) = true ->
  html_text ("<textarea>" ++ s ++ "</textarea>") = s.
Proof.
  intros Hs Hd.
  assert (Hpre : parse_state "<textarea>" =
                 {| root := {| root_nodes := [TextareaNode EmptyString false] |};
                    buffer := EmptyString |}) by reflexivity.
  unfold html_text.
  replace (s ++ "</textarea>") with ((s ++ "<") ++ "/textarea>")
    by (rewrite append_assoc; reflexivity).
  rewrite parse_html_app. unfold parse_html. rewrite Hpre. cbn [root buffer].
  rewrite tokenize_app_fst.
  assert (Hb : snd (tokenize EmptyString (s ++ "<")) = "<") by now rewrite tokenize_snoc_lt.
  pose proof (tokenize_no_loss EmptyString (s ++ "<")) as Hl. rewrite Hb in Hl.
  rewrite Hb. set (ps := fst (tokenize EmptyString (s ++ "<"))) in *.
  change (fst (tokenize "<" "/textarea>")) with [Deliver "</textarea>"].
  rewrite fragments_app, digest_all_app.
  assert (Hcat : cat (fragments ps) = s).
  { rewrite drops_nothing_cat by exact Hd. now apply (append_inv_r _ _ "<"). }
  pose proof (textarea_absorbs (fragments ps) [] EmptyString) as E. cbn [app] in E.
  rewrite E by (cbn; now rewrite Hcat). cbn [append]. rewrite Hcat.
  cbn [fragments digest_all fold_left]. unfold root_digest. cbn [root_nodes].
  cbn [delegate update_last option_map will_accept negb digest]. unfold textarea_digest.
  rewrite root_get_text_single. cbn [get_text].
  change "</textarea>" with (String "<" "/textarea" ++ ">").
  now apply split_first_app_sep.
Qed.

Lemma parse_html_unterminated_tail_witness :
  has_char "<" "world" = false /\ has_char ">" "world" = false /\
  parse_html ("<p>Hello</p>" ++ "world") = parse_html "<p>Hello</p>".
Proof.
  split; [reflexivity|split; [reflexivity|]].
  apply (parse_html_unterminated_tail "<p>Hello</p>" "world"); reflexivity.
Defined.

Lemma invisible_element_hides_witness :
  In "script" INVISIBLE_TYPES /\
  contains "if (a < b) { go(); }<p>x</p>" ("</" ++ "script") = false /\
  html_text ("<" ++ "script" ++ ">" ++ "if (a < b) { go(); }<p>x</p>") = EmptyString.
Proof.
  split; [cbn; tauto|split; [reflexivity|]].
  apply invisible_element_hides; [cbn; tauto|reflexivity].
Defined.

Lemma textarea_renders_raw_witness :
  contains "x <p>y</p> z" "</textarea" = false /\
  drops_nothing (fst (tokenize EmptyString ("x <p>y</p> z" ++ "<"))) = true /\
  html_text ("<textarea>" ++ "x <p>y</p> z" ++ "</textarea>") = "x <p>y</p> z".
Proof.
  split; [reflexivity|split; [reflexivity|]].
  apply textarea_renders_raw; reflexivity.
Defined.

(** ** Reading the input piece by piece *)

(** A whole tag after a prefix: the prefix's buffer is delivered unless it
    is blank, then the tag; the buffer is left empty. *)
Lemma parse_state_tag (p s : string) :
  has_char "<" s = false -> has_char ">" s = false ->
  parse_state (p ++ "<" ++ s ++ ">") =
  {| root := root_digest ("<" ++ s ++ ">")
               (if has_nonspace (buffer (parse_state p))
                then root_digest (buffer (parse_state p)) (parse_html p) else parse_html p);
     buffer := EmptyString |}.
Proof.
  intros H1 H2. unfold parse_html, parse_state. rewrite run_app.
  destruct (run p _) as [r b]. cbn [root buffer].
  rewrite run_tokenize, tokenize_tag by assumption. now destruct (has_nonspace b).
Qed.

Lemma parse_state_single_tag (s : string) :
  has_char "<" s = false -> has_char ">" s = false ->
  parse_state ("<" ++ s ++ ">") =
  {| root := {| root_nodes := [get_new_node ("<" ++ s ++ ">")] |}; buffer := EmptyString |}.
Proof. intros H1 H2. exact (parse_state_tag EmptyString s H1 H2). Qed.

(** Text without delimiters only grows the buffer. *)
Lemma parse_state_text (p x : string) :
  has_char "<" x = false -> has_char ">" x = false ->
  parse_state (p ++ x) = {| root := parse_html p; buffer := buffer (parse_state p) ++ x |}.
Proof.
  intros H1 H2. unfold parse_html, parse_state. rewrite run_app.
  destruct (run p _) as [r b]. cbn [root buffer].
  now rewrite run_tokenize, tokenize_no_delim.
Qed.

(** After a prefix that leaves a single node [c] and an empty buffer, the
    rest of the input builds its nodes beside [c] when [c] refuses its
    first fragment. *)
Lemma parse_html_beside (p t : string) (c : node) :
  parse_state p = {| root := {| root_nodes := [c] |}; buffer := EmptyString |} ->
  (forall f fs, fragments (fst (tokenize EmptyString t)) = f :: fs -> will_accept f c = false) ->
  root_nodes (parse_html (p ++ t)) = c :: root_nodes (parse_html t).
Proof.
  intros Hp Hf. rewrite parse_html_app.
  change (parse_html p) with (root (parse_state p)). rewrite Hp. cbn [root buffer].
  rewrite digest_all_cons by (intros _; exact Hf). cbn [root_nodes].
  unfold parse_html, parse_state. now rewrite run_root.
Qed.

Lemma html_text_beside (p t : string) (c : node) :
  parse_state p = {| root := {| root_nodes := [c] |}; buffer := EmptyString |} ->
  (forall f fs, fragments (fst (tokenize EmptyString t)) = f :: fs -> will_accept f c = false) ->
  html_text (p ++ t) = String.concat nl (filter nonempty [get_text c; html_text t]).
Proof.
  intros Hp Hf. unfold html_text, root_get_text.
  rewrite (parse_html_beside p t c Hp Hf). apply concat_filter_cons.
Qed.

(** A prefix that leaves one frozen node rendering nothing is invisible
    to the rest of the input. *)
Lemma silent_prefix (p t : string) (c : node) :
  parse_state p = {| root := {| root_nodes := [c] |}; buffer := EmptyString |} ->
  is_frozen c = true -> get_text c = EmptyString ->
  root_nodes (parse_html (p ++ t)) = c :: root_nodes (parse_html t) /\
  html_text (p ++ t) = html_text t.
Proof.
  intros Hp Hf Ht.
  assert (Hr : forall f fs, fragments (fst (tokenize EmptyString t)) = f :: fs ->
                            will_accept f c = false) by (intros; now apply will_accept_frozen).
  split; [now apply parse_html_beside|].
  rewrite (html_text_beside p t c Hp Hr), Ht. now destruct (html_text t).
Qed.

(** The first fragment of a text that starts with [<] starts with [<]. *)
Lemma first_fragment_lt (t f : string) (fs : list string) :
  fragments (fst (tokenize EmptyString ("<" ++ t))) = f :: fs -> startswith f "<" = true.
Proof.
  assert (E : fragments (fst (tokenize EmptyString ("<" ++ t))) =
              fragments (fst (tokenize "<" t))) by (cbn; now destruct (tokenize "<" t)).
  rewrite E. destruct (tokenize_head "<" t eq_refl) as [[-> _]|(w & fs' & ->)]; [discriminate|].
  intros [= <- _]. reflexivity.
Qed.

(** A tag the classifier reads as text becomes a text node that renders
    the tag; what follows, from a [<] on, is parsed beside it. *)
Lemma text_tag_beside (s t : string) :
  has_char "<" s = false -> has_char ">" s = false -> classify ("<" ++ s ++ ">") = CText ->
  html_text ("<" ++ s ++ ">" ++ "<" ++ t) =
  String.concat nl (filter nonempty ["<" ++ s ++ ">"; html_text ("<" ++ t)]).
Proof.
  intros H1 H2 Hc.
  replace ("<" ++ s ++ ">" ++ "<" ++ t) with (("<" ++ s ++ ">") ++ "<" ++ t)
    by now rewrite !append_assoc.
  apply (html_text_beside _ _ (TextNode ("<" ++ s ++ ">"))).
  - rewrite parse_state_single_tag by assumption. unfold get_new_node. now rewrite Hc.
  - intros f fs Hf. cbn [will_accept]. now rewrite (first_fragment_lt t f fs Hf).
Qed.

(** ** Comments *)

Lemma tokenize_comment_open (s : string) :
  tokenize EmptyString ("<!--" ++ s) =
  let (ps, b) := tokenize "<!--" s in (Drop EmptyString :: ps, b).
Proof. reflexivity. Qed.

Lemma get_new_node_comment (b : string) :
  startswith b "<!--" = true -> get_new_node b = CommentNode (endswith b "-->").
Proof.
  intros H. assert (H' : startswith b "<" = true)
    by (apply startswith_spec in H as [r ->]; reflexivity).
  unfold get_new_node, classify. now rewrite H', H.
Qed.

Lemma root_digest_init (b : string) :
  root_digest b RootNode_init = {| root_nodes := [get_new_node b] |}.
Proof. reflexivity. Qed.

(** A comment whose first [-->] ends it leaves one closed comment node and
    an empty buffer: its fragments before the last one do not end with
    [-->], and the last one does. *)
Lemma parse_state_comment (s : string) :
  contains ("<!--" ++ s) "-->" = false ->
  parse_state ("<!--" ++ s ++ "-->") =
  {| root := {| root_nodes := [CommentNode true] |}; buffer := EmptyString |}.
Proof.
  intros Hc. unfold parse_state.
  replace ("<!--" ++ s ++ "-->") with (("<!--" ++ s) ++ "--" ++ ">") by now rewrite append_assoc.
  rewrite run_tokenize, tokenize_app.
  destruct (tokenize EmptyString ("<!--" ++ s)) as [ps b1] eqn:E.
  rewrite tokenize_close by reflexivity. cbn [fst snd]. f_equal.
  rewrite deliver_digest_all, fragments_app, digest_all_app.
  assert (Hno : Forall (fun f => endswith f "-->" = false) (fragments ps)).
  { apply Forall_forall. intros f Hf. destruct (endswith f "-->") eqn:Ef; [|reflexivity].
    apply contains_endswith in Ef.
    rewrite (tokenize_fragment_not_contains ("<!--" ++ s) "-->" f Hc) in Ef;
      [discriminate|now rewrite E]. }
  rewrite tokenize_comment_open in E. destruct (tokenize "<!--" s) as [ps' b'] eqn:E'.
  injection E as <- <-. cbn [fragments] in Hno |- *.
  assert (Harrow : endswith (b' ++ "--" ++ ">") "-->" = true) by exact (endswith_app b' "-->").
  destruct (tokenize_head "<!--" s eq_refl) as [[H0 H1]|(w & fs & H0)];
    rewrite E' in *; cbn [fst snd] in *; rewrite H0 in *.
  - subst b'. cbn [digest_all fold_left].
    rewrite root_digest_init, get_new_node_comment, Harrow; [reflexivity|].
    apply startswith_app_l, startswith_app.
  - pose proof (Forall_inv Hno) as Hw. pose proof (Forall_inv_tail Hno) as Hfs. cbv beta in Hw.
    rewrite (digest_all_step ("<!--" ++ w) fs), root_digest_init, get_new_node_comment, Hw
      by apply startswith_app.
    change [CommentNode false] with ([] ++ [CommentNode false])%list.
    rewrite comment_absorbs by exact Hfs. rewrite digest_all_step. unfold root_digest.
    cbn [root_nodes]. rewrite delegate_snoc. cbn [will_accept negb digest].
    unfold comment_digest. now rewrite Harrow.
Qed.

(** ** Closing tags *)

Lemma tag_no_delims (n : string) :
  tag_name n = true -> has_char "<" n = false /\ has_char ">" n = false.
Proof. intros [_ Hn]%andb_true_iff. split; now apply name_chars_no_char. Qed.

(** A start tag is not a closing tag. *)
Lemma start_tag_not_closing (u p : string) :
  tag_name u = true -> startswith ("<" ++ u ++ ">") ("</" ++ p) = false.
Proof.
  intros [_ Hu]%andb_true_iff. change ("<" ++ u ++ ">") with (String "<" (u ++ ">")).
  change ("</" ++ p) with (String "<" (String "/" p)). rewrite startswith_cons, Ascii.eqb_refl.
  apply startswith_no_char. rewrite has_char_app. now rewrite name_chars_no_char.
Qed.

(** C14: an open element takes the closing tags meant for its parent,
    and the closing test is a prefix test: in [<t><u>x</t>] (tag names
    [t] and [u], not void, not [textarea]) the [</t>] goes to the open
    [<u>], which it closes when [u] is a prefix of [t] (so [</article>]
    closes an open [<a>]) and otherwise keeps as a text child; the outer
    [<t>] stays open either way. *)
Theorem unclosed_child_takes_closing_tag (t u x : string) :
  tag_name t = true -> tag_name u = true ->
  in_set (Some t) VOID_TYPES = false -> in_set (Some u) VOID_TYPES = false ->
  startswith t "textarea" = false -> startswith u "textarea" = false ->
  has_nonspace x = true -> has_char "<" x = false -> has_char ">" x = false ->
  root_nodes (parse_html ("<" ++ t ++ "><" ++ u ++ ">" ++ x ++ "</" ++ t ++ ">")) =
  [HTMLNode (Some t)
     [HTMLNode (Some u)
        (TextNode x :: if startswith t u then [] else [TextNode ("</" ++ t ++ ">")])
        (startswith t u)] false].
Proof.
  intros Ht Hu Hvt Hvu Hxt Hxu Hx Hx1 Hx2.
  destruct (tag_no_delims t Ht) as [Ht1 Ht2]. destruct (tag_no_delims u Hu) as [Hu1 Hu2].
  set (r2 := {| root_nodes := [HTMLNode (Some t) [HTMLNode (Some u) [] false] false] |}).
  assert (S1 : parse_state ("<" ++ t ++ ">") =
               {| root := {| root_nodes := [HTMLNode (Some t) [] false] |}; buffer := "" |}).
  { rewrite parse_state_single_tag by assumption. now rewrite get_new_node_open_tag. }
  assert (S2 : parse_state (("<" ++ t ++ ">") ++ "<" ++ u ++ ">") = {| root := r2; buffer := "" |}).
  { rewrite parse_state_tag by assumption.
    change (parse_html ("<" ++ t ++ ">")) with (root (parse_state ("<" ++ t ++ ">"))).
    rewrite S1. cbn [root buffer has_nonspace]. f_equal.
    unfold root_digest. cbn [root_nodes delegate update_last option_map will_accept negb digest type_str].
    rewrite start_tag_not_closing by assumption. cbn [app].
    now rewrite get_new_node_open_tag. }
  assert (S3 : parse_state (((("<" ++ t ++ ">") ++ "<" ++ u ++ ">") ++ x) ++ "<" ++ ("/" ++ t) ++ ">") =
               {| root := root_digest ("</" ++ t ++ ">") (root_digest x r2); buffer := "" |}).
  { rewrite parse_state_tag by first [assumption|exact Ht1|exact Ht2].
    unfold parse_html. rewrite parse_state_text by assumption.
    unfold parse_html. rewrite S2. cbn [root buffer append]. now rewrite Hx. }
  replace ("<" ++ t ++ "><" ++ u ++ ">" ++ x ++ "</" ++ t ++ ">")
    with (((("<" ++ t ++ ">") ++ "<" ++ u ++ ">") ++ x) ++ "<" ++ ("/" ++ t) ++ ">")
    by now rewrite !append_assoc.
  unfold parse_html. rewrite S3. cbn [root]. subst r2.
  unfold root_digest. cbn [root_nodes delegate update_last option_map will_accept negb digest type_str].
  replace (startswith x ("</" ++ u)) with false
    by (symmetry; exact (startswith_no_char x ("/" ++ u) "<" Hx1)).
  rewrite get_new_node_text by assumption.
  cbn [root_nodes delegate update_last option_map will_accept negb digest type_str app append startswith
       Ascii.eqb Bool.eqb andb].
  rewrite startswith_app_char by exact Hu2.
  now destruct (startswith t u).
Qed.

(** ** Properties of comments, declarations and void elements *)

(** C11: a comment hides everything up to the first [-->] after its
    [<!--]: it becomes one closed [CommentNode], which renders nothing and
    is never given a fragment again, so the rest of the input is parsed
    and rendered as if the comment were not there. *)
Theorem comment_hides_until_arrow (s t : string) :
  contains ("<!--" ++ s) "-->" = false ->
  root_nodes (parse_html ("<!--" ++ s ++ "-->" ++ t)) =
    CommentNode true :: root_nodes (parse_html t) /\
  html_text ("<!--" ++ s ++ "-->" ++ t) = html_text t.
Proof.
  intros Hc.
  replace ("<!--" ++ s ++ "-->" ++ t) with (("<!--" ++ s ++ "-->") ++ t)
    by now rewrite !append_assoc.
  now apply silent_prefix; [apply parse_state_comment|..].
Qed.

(** C28: a void element and a [<!doctype ...>] take nothing and render
    nothing: a tag whose name is one of [VOID_TYPES] becomes a
    [VoidHTMLNode] that no later fragment reaches (what follows is its
    sibling, never its child), a doctype becomes a [DoctypeNode] in the
    same way, and the rest of the input is parsed and rendered as if they
    were not there. *)
Theorem void_and_doctype_silent (s v d t : string) :
  (has_char "<" s = false -> has_char ">" s = false ->
   get_node_type ("<" ++ s ++ ">") = Some v -> In v VOID_TYPES ->
   root_nodes (parse_html ("<" ++ s ++ ">" ++ t)) =
     VoidHTMLNode (Some v) :: root_nodes (parse_html t) /\
   html_text ("<" ++ s ++ ">" ++ t) = html_text t) /\
  (has_char "<" d = false -> has_char ">" d = false ->
   root_nodes (parse_html ("<!doctype" ++ d ++ ">" ++ t)) =
     DoctypeNode :: root_nodes (parse_html t) /\
   html_text ("<!doctype" ++ d ++ ">" ++ t) = html_text t).
Proof.
  split.
  - intros H1 H2 Ht Hv.
    replace ("<" ++ s ++ ">" ++ t) with (("<" ++ s ++ ">") ++ t) by now rewrite !append_assoc.
    apply silent_prefix; [|reflexivity..]. rewrite parse_state_single_tag by assumption.
    unfold get_new_node. rewrite (classify_void _ v Ht Hv). cbn [construct].
    unfold mk_VoidHTMLNode. now rewrite Ht.
  - intros H1 H2.
    replace ("<!doctype" ++ d ++ ">" ++ t) with (("<!doctype" ++ d ++ ">") ++ t)
      by now rewrite !append_assoc.
    apply silent_prefix; [|reflexivity..]. exact (parse_state_single_tag ("!doctype" ++ d) H1 H2).
Qed.

(** C15: a declaration [<!...>] that is neither a comment nor a lowercase
    [<!doctype] (the usual [<!DOCTYPE html>] among them) has no tag name,
    so it becomes a text node and is rendered verbatim, as the first line
    of the text, before the text of the rest of the document. *)
Theorem declaration_rendered_as_text (s t : string) :
  has_char "<" s = false -> has_char ">" s = false ->
  startswith s "--" = false -> startswith s "doctype" = false ->
  html_text ("<!" ++ s ++ ">" ++ "<" ++ t) =
  String.concat nl (filter nonempty ["<!" ++ s ++ ">"; html_text ("<" ++ t)]).
Proof.
  intros H1 H2 H3 H4. apply (text_tag_beside ("!" ++ s) t); [exact H1|exact H2|].
  unfold classify. change ("<" ++ ("!" ++ s) ++ ">") with (String "<" (String "!" (s ++ ">"))).
  assert (Hn : get_node_type (String "<" (String "!" (s ++ ">"))) = None) by reflexivity.
  rewrite Hn, !startswith_cons, !Ascii.eqb_refl. cbn [andb negb].
  rewrite !startswith_app_char by reflexivity. now rewrite H3, H4.
Qed.

(** C16: a tag name followed by a character outside the class [[(\/>) ]]
    of the pattern (a tab, a newline, a quote...) and more text is no tag
    name at all, so the tag is a text node rendered verbatim: the tag
    [<div\nid='whatever'>] of [test_getting_node_types] is rendered as
    text where the test expects the type ["div"]. *)
Theorem tag_name_then_other_char_is_text (g r t : string) (c : ascii) :
  tag_name g = true -> is_name_char c = false -> is_name_end c = false -> c <> "<"%char ->
  has_char "<" r = false -> has_char ">" r = false -> startswith g "textarea" = false ->
  html_text ("<" ++ g ++ String c r ++ ">" ++ "<" ++ t) =
  String.concat nl (filter nonempty ["<" ++ g ++ String c r ++ ">"; html_text ("<" ++ t)]).
Proof.
  intros Hg Hc He Hlt H1 H2 Htx. apply andb_true_iff in Hg as [Hne Hg].
  pose proof (text_tag_beside (g ++ String c r) t) as HT. rewrite !append_assoc in HT.
  assert (Hd : forall x, is_name_char x = false -> x <> c -> has_char x r = false ->
                         has_char x (g ++ String c r) = false).
  { intros x Hx Hxc Hxr. rewrite has_char_app, (name_chars_no_char g x Hg Hx). cbn [has_char].
    rewrite Hxr, orb_false_r. apply Ascii.eqb_neq. congruence. }
  apply HT; [apply Hd; auto|apply Hd; [reflexivity|intros <-; discriminate He|exact H2]|].
  assert (Hn : get_node_type ("<" ++ g ++ String c r ++ ">") = None)
    by (apply (get_node_type_other_char g (r ++ ">") c Hg Hc He); now destruct r).
  destruct g as [|x g]; [discriminate|]. cbn in Hg. apply andb_true_iff in Hg as [Hx _].
  assert (Hbang : Ascii.eqb "!" x = false)
    by (destruct (Ascii.eqb "!" x) eqn:E; [apply Ascii.eqb_eq in E as <-; discriminate|reflexivity]).
  unfold classify. change ("<" ++ String x g ++ String c r ++ ">")
    with (String "<" (String x (g ++ String c (r ++ ">")))) in *.
  rewrite Hn, !startswith_cons, Ascii.eqb_refl, Hbang. cbn [andb negb].
  rewrite startswith_cons in Htx.
  rewrite startswith_app_char by (apply name_chars_no_char; [reflexivity|exact Hc]).
  now rewrite Htx.
Qed.

Lemma unclosed_child_takes_closing_tag_witness :
  tag_name "article" = true /\ tag_name "a" = true /\
  in_set (Some "article") VOID_TYPES = false /\ in_set (Some "a") VOID_TYPES = false /\
  startswith "article" "textarea" = false /\ startswith "a" "textarea" = false /\
  has_nonspace "x" = true /\ has_char "<" "x" = false /\ has_char ">" "x" = false /\
  root_nodes (parse_html ("<" ++ "article" ++ "><" ++ "a" ++ ">" ++ "x" ++ "</" ++ "article" ++ ">")) =
  [HTMLNode (Some "article")
     [HTMLNode (Some "a")
        (TextNode "x" :: if startswith "article" "a" then [] else [TextNode ("</" ++ "article" ++ ">")])
        (startswith "article" "a")] false].
Proof.
  do 9 (split; [reflexivity|]).
  apply unclosed_child_takes_closing_tag; reflexivity.
Defined.

Lemma comment_hides_until_arrow_witness :
  contains ("<!--" ++ " a < b > c ") "-->" = false /\
  root_nodes (parse_html ("<!--" ++ " a < b > c " ++ "-->" ++ "<p>x</p>")) =
    CommentNode true :: root_nodes (parse_html "<p>x</p>") /\
  html_text ("<!--" ++ " a < b > c " ++ "-->" ++ "<p>x</p>") = html_text "<p>x</p>".
Proof.
  assert (H : contains ("<!--" ++ " a < b > c ") "-->" = false) by reflexivity.
  split; [exact H|]. exact (comment_hides_until_arrow " a < b > c " "<p>x</p>" H).
Defined.

Lemma void_and_doctype_silent_witness :
  (has_char "<" "br /" = false /\ has_char ">" "br /" = false /\
   get_node_type ("<" ++ "br /" ++ ">") = Some "br" /\ In "br" VOID_TYPES /\
   root_nodes (parse_html ("<" ++ "br /" ++ ">" ++ "<p>x</p>")) =
     VoidHTMLNode (Some "br") :: root_nodes (parse_html "<p>x</p>") /\
   html_text ("<" ++ "br /" ++ ">" ++ "<p>x</p>") = html_text "<p>x</p>") /\
  (has_char "<" " html" = false /\ has_char ">" " html" = false /\
   root_nodes (parse_html ("<!doctype" ++ " html" ++ ">" ++ "<p>x</p>")) =
     DoctypeNode :: root_nodes (parse_html "<p>x</p>") /\
   html_text ("<!doctype" ++ " html" ++ ">" ++ "<p>x</p>") = html_text "<p>x</p>").
Proof.
  destruct (void_and_doctype_silent "br /" "br" " html" "<p>x</p>") as [HA HB].
  assert (Hv : In "br" VOID_TYPES) by (cbn; tauto).
  split.
  - do 3 (split; [reflexivity|]). split; [exact Hv|]. exact (HA eq_refl eq_refl eq_refl Hv).
  - do 2 (split; [reflexivity|]). exact (HB eq_refl eq_refl).
Defined.

Lemma declaration_rendered_as_text_witness :
  has_char "<" "DOCTYPE html" = false /\ has_char ">" "DOCTYPE html" = false /\
  startswith "DOCTYPE html" "--" = false /\ startswith "DOCTYPE html" "doctype" = false /\
  html_text ("<!" ++ "DOCTYPE html" ++ ">" ++ "<" ++ "p>Hi</p>") =
  String.concat nl (filter nonempty ["<!" ++ "DOCTYPE html" ++ ">"; html_text ("<" ++ "p>Hi</p>")]).
Proof.
  do 4 (split; [reflexivity|]). apply declaration_rendered_as_text; reflexivity.
Defined.

Lemma tag_name_then_other_char_is_text_witness :
  tag_name "div" = true /\ is_name_char (ascii_of_nat 10) = false /\
  is_name_end (ascii_of_nat 10) = false /\ ascii_of_nat 10 <> "<"%char /\
  has_char "<" "id='whatever'" = false /\ has_char ">" "id='whatever'" = false /\
  startswith "div" "textarea" = false /\
  html_text ("<" ++ "div" ++ String (ascii_of_nat 10) "id='whatever'" ++ ">" ++ "<" ++ "p>x</p>") =
  String.concat nl (filter nonempty
    ["<" ++ "div" ++ String (ascii_of_nat 10) "id='whatever'" ++ ">"; html_text ("<" ++ "p>x</p>")]).
Proof.
  assert (Hc : ascii_of_nat 10 <> "<"%char) by discriminate.
  do 3 (split; [reflexivity|]). split; [exact Hc|]. do 3 (split; [reflexivity|]).
  apply tag_name_then_other_char_is_text; first [exact Hc|reflexivity].
Defined.

End Parser.
