(* ===== verification/PyExec.v ===== *)
(** * The parser on Python's call stack: exceptions and the recursion limit

    The tree of [Nodes] returns a value for every fragment.  The Python
    code can also raise: [self.nodes[-1].digest(buffer)] looks up a method,
    which raises [AttributeError] on a [VoidHTMLNode] or a [DoctypeNode]
    (they have no [digest]), and every call of a Python function takes a
    frame of the interpreter's stack, which raises [RecursionError] when no
    frame is left.  The model follows CPython 3.12 and later, where only
    Python frames count toward [sys.getrecursionlimit()] (C code such as
    [str.startswith], [Pattern.match] or [type.__call__] takes none): a
    frame for [RootNode.digest], for every [will_accept] and [digest]
    method, for [get_new_node], for the [__init__] of the class it builds,
    for [get_node_type], and for the [self.digest] that
    [CommentNode.__init__] calls.  [frames] is the number of frames still
    available ([sys.getrecursionlimit()] minus the frames of [parse_html]
    and its callers); a result is [Ret] or [Raise].

    [RootNode] with [root_digest_py] is a [FragmentSink] of its own, so the
    character loop of [Tokenizer] runs unchanged on it ([parse_py]); once a
    fragment raises, the state stays [Raise] (Python leaves the loop at
    that point, with the same outcome).  [call_depth] is the depth of the
    calls one fragment makes, [stack_needed] the largest over a whole
    input.  Theorems: [parse_py] returns exactly the tree of [parse_html]
    when the stack suffices and raises [RecursionError] otherwise (never
    [AttributeError]); the stack needed is at most three frames more than
    the input has characters. *)

From Stdlib Require Import String Ascii List Bool Arith Lia.
From S2P Require Import Prelude PyStr NodeType Nodes Tokenizer Parser.
Import ListNotations.
Open Scope string_scope.
Open Scope list_scope.

Module PyExec.
Import NodeType Nodes Tokenizer Parser.

(** ** Exceptions *)

Inductive py_error := AttributeError | RecursionError.

Inductive pyres (A : Type) := Ret (a : A) | Raise (e : py_error).
Arguments Ret {A} a.
Arguments Raise {A} e.

Definition pyres_map {A B} (f : A -> B) (r : pyres A) : pyres B :=
  match r with Ret a => Ret (f a) | Raise e => Raise e end.

Definition pybind {A B} (r : pyres A) (k : A -> pyres B) : pyres B :=
  match r with Ret a => k a | Raise e => Raise e end.

Notation "'let!' x := r 'in' k" := (pybind r (fun x => k))
  (at level 10, x name, r at level 100, k at level 200).

(** A call of a Python function: it takes one of the [frames] still
    available, or raises [RecursionError] when none is left; its body runs
    with the others. *)
Definition pycall {A} (frames : nat) (body : nat -> pyres A) : pyres A :=
  match frames with O => Raise RecursionError | S f => body f end.

(** ** The calls of [get_new_node] *)

(** [node.will_accept(buffer)] (l.24-25, 39-40, 66-67, 76-77, 93-94,
    111-112, 129-130): a method of every class that calls nothing. *)
Definition will_accept_py (frames : nat) (buffer : string) (n : node) : pyres bool :=
  pycall frames (fun _ => Ret (will_accept buffer n)).

(** [get_node_type(buffer)] (l.149-153): [Pattern.match] is C code. *)
Definition get_node_type_py (frames : nat) (buffer : string) : pyres (option string) :=
  pycall frames (fun _ => Ret (get_node_type buffer)).

(** [cls(buffer)]: the class's [__init__] (l.33-37, 62-64, 72-74, 88-91,
    106-109, 126-127); those of [HTMLNode] and [VoidHTMLNode] call
    [get_node_type], that of [CommentNode] calls [self.digest(buffer)]. *)
Definition construct_py (cls : node_class) (frames : nat) (buffer : string) : pyres node :=
  pycall frames (fun f =>
    match cls with
    | CHTML => pyres_map (fun t => HTMLNode t [] false) (get_node_type_py f buffer)
    | CVoid => pyres_map VoidHTMLNode (get_node_type_py f buffer)
    | CComment => pycall f (fun _ => Ret (comment_digest buffer))
    | CText => Ret (TextNode buffer)
    | CTextarea => Ret (TextareaNode EmptyString false)
    | CDoctype => Ret DoctypeNode
    end).

(** [get_new_node(buffer)] (l.156-177), with the [get_node_type] call of
    its last branch. *)
Definition get_new_node_py (frames : nat) (buffer : string) : pyres node :=
  pycall frames (fun f =>
    if negb (startswith buffer "<") then construct_py CText f buffer
    else if startswith buffer "<!--" then construct_py CComment f buffer
    else if startswith buffer "<!doctype" then construct_py CDoctype f buffer
    else if startswith buffer "<textarea" then construct_py CTextarea f buffer
    else
      let! node_type := get_node_type_py f buffer in
      let cls := if in_set node_type VOID_TYPES then CVoid
                 else match node_type with None => CText | Some _ => CHTML end in
      construct_py cls f buffer).

(** ** [digest] as Python runs it *)

(** [node.digest(buffer)]: [HTMLNode.digest] (l.42-50) and the leaf
    methods (l.79-80, 96-97, 114-117); the lookup of [digest] on a
    [VoidHTMLNode] or a [DoctypeNode] raises before any frame is taken. *)
Fixpoint digest_py (frames : nat) (buffer : string) (n : node) {struct frames} : pyres node :=
  match n, frames with
  | (VoidHTMLNode _ | DoctypeNode), _ => Raise AttributeError
  | _, O => Raise RecursionError
  | HTMLNode t ns is_closed, S f =>
      let close_or_append :=
        if startswith buffer ("</" ++ type_str t)%string then Ret (HTMLNode t ns true)
        else pyres_map (fun y => HTMLNode t (ns ++ [y]) is_closed) (get_new_node_py f buffer) in
      match last_map (fun x => x) ns with
      | Some (pre, x) =>
          let! accepts := will_accept_py f buffer x in
          if accepts then
            pyres_map (fun x' => HTMLNode t (pre ++ [x']) is_closed) (digest_py f buffer x)
          else close_or_append
      | None => close_or_append
      end
  | TextNode content, S _ => Ret (TextNode (content ++ buffer))
  | CommentNode _, S _ => Ret (comment_digest buffer)
  | TextareaNode content _, S _ => Ret (textarea_digest buffer content)
  end.

(** [RootNode.digest] (l.139-143). *)
Definition root_digest_py (frames : nat) (buffer : string) (root : RootNode) : pyres RootNode :=
  pycall frames (fun f =>
    let append :=
      pyres_map (fun y => {| root_nodes := root_nodes root ++ [y] |}) (get_new_node_py f buffer) in
    match last_map (fun x => x) (root_nodes root) with
    | Some (pre, x) =>
        let! accepts := will_accept_py f buffer x in
        if accepts then pyres_map (fun x' => {| root_nodes := pre ++ [x'] |}) (digest_py f buffer x)
        else append
    | None => append
    end).

(** The loop of [parse_html] (l.180-195) on this root: an exception ends
    the parse. *)
#[export] Instance PyRoot_sink (limit : nat) : FragmentSink (pyres RootNode) :=
  fun buffer st => match st with Ret r => root_digest_py limit buffer r | Raise e => Raise e end.

Definition parse_py (limit : nat) (html : string) : pyres RootNode :=
  root (@run _ (PyRoot_sink limit) html {| root := Ret RootNode_init; buffer := EmptyString |}).

(** ** The depth of the calls *)

(** The frames [cls(buffer)] takes: [__init__], and [get_node_type] or
    [CommentNode.digest] below it. *)
Definition init_depth (cls : node_class) : nat :=
  match cls with CHTML | CVoid | CComment => 2 | _ => 1 end.

(** The frames [get_new_node(buffer)] takes: its own, and the deeper of
    [get_node_type] (one) and [cls(buffer)]. *)
Definition new_node_depth (buffer : string) : nat := S (init_depth (classify buffer)).

(** The depth of the calls [n.digest(buffer)] makes: its own frame, and
    below it [will_accept] of the last child, then the last child's
    [digest] or [get_new_node], unless the fragment closes [n]. *)
Fixpoint call_depth (buffer : string) (n : node) : nat :=
  match n with
  | HTMLNode t ns _ =>
      let rest := if startswith buffer ("</" ++ type_str t)%string then 0
                  else new_node_depth buffer in
      S (match last_map (fun x => if will_accept buffer x then call_depth buffer x
                                  else Nat.max 1 rest) ns with
         | Some (_, k) => k
         | None => rest
         end)
  | _ => 1
  end.

Definition root_call_depth (buffer : string) (r : RootNode) : nat :=
  S (match last_map (fun x => if will_accept buffer x then call_depth buffer x
                              else new_node_depth buffer) (root_nodes r) with
     | Some (_, k) => k
     | None => new_node_depth buffer
     end).

(** The deepest chain of calls over a sequence of fragments, and over a
    whole input. *)
Fixpoint needed (fs : list string) (r : RootNode) : nat :=
  match fs with
  | [] => 0
  | f :: fs' => Nat.max (root_call_depth f r) (needed fs' (root_digest f r))
  end.

Definition stack_needed (html : string) : nat :=
  needed (fragments (fst (tokenize EmptyString html))) RootNode_init.

(** The number of nodes of a tree. *)
Fixpoint nsize (n : node) : nat :=
  match n with
  | HTMLNode _ ns _ => S (list_sum (map nsize ns))
  | _ => 1
  end.

Definition root_size (r : RootNode) : nat := list_sum (map nsize (root_nodes r)).

(** ** Deeply nested input *)



(** ** The calls compute the model when the stack suffices *)

(** A call that returns [v] when [d] frames suffice. *)
Definition within {A} (d frames : nat) (v : A) : pyres A :=
  if Nat.leb d frames then Ret v else Raise RecursionError.

Lemma within_map {A B} (g : A -> B) d frames (v : A) :
  pyres_map g (within d frames v) = within d frames (g v).
Proof. unfold within. now destruct (Nat.leb d frames). Qed.

Lemma within_bind {A B} (k : A -> pyres B) d frames (v : A) :
  pybind (within d frames v) k = if Nat.leb d frames then k v else Raise RecursionError.
Proof. unfold within. now destruct (Nat.leb d frames). Qed.

Lemma construct_py_spec (cls : node_class) (frames : nat) (b : string) :
  construct_py cls frames b = within (init_depth cls) frames (construct cls b).
Proof. destruct cls, frames as [|[|f]]; reflexivity. Qed.

Lemma get_new_node_py_spec (frames : nat) (b : string) :
  get_new_node_py frames b = within (new_node_depth b) frames (get_new_node b).
Proof.
  destruct frames as [|f]; [reflexivity|].
  unfold get_new_node_py, new_node_depth, get_new_node, classify. cbn [pycall].
  destruct (negb (startswith b "<")); [apply construct_py_spec|].
  destruct (startswith b "<!--"); [apply construct_py_spec|].
  destruct (startswith b "<!doctype"); [apply construct_py_spec|].
  destruct (startswith b "<textarea"); [apply construct_py_spec|].
  destruct f as [|f]; [now destruct (in_set _ _), (get_node_type b)|].
  cbn [get_node_type_py pycall pybind]. apply construct_py_spec.
Qed.

Lemma digest_py_spec (n : node) :
  forall frames b, will_accept b n = true ->
  digest_py frames b n = within (call_depth b n) frames (digest b n).
Proof.
  induction n as [t ns c IH| | | | |] using node_tree_ind; intros [|f] b Ha;
    try reflexivity; try discriminate.
  rewrite Forall_forall in IH. cbn [digest_py call_depth]. rewrite digest_HTMLNode.
  destruct_children ns.
  - destruct (startswith b _); [reflexivity|].
    now rewrite get_new_node_py_spec, within_map.
  - destruct (will_accept b x) eqn:Ex, f as [|f].
    + destruct x; reflexivity.
    + cbn [will_accept_py pycall pybind]. rewrite Ex.
      now rewrite (IH x ltac:(auto using in_or_app, in_eq) (S f) b Ex), within_map.
    + destruct (startswith b _); reflexivity.
    + cbn [will_accept_py pycall pybind]. rewrite Ex. destruct (startswith b _); [reflexivity|].
      now rewrite get_new_node_py_spec, within_map.
Qed.

Lemma root_digest_py_spec (frames : nat) (b : string) (r : RootNode) :
  root_digest_py frames b r = within (root_call_depth b r) frames (root_digest b r).
Proof.
  destruct r as [ns], frames as [|f]; [reflexivity|].
  unfold root_digest_py, root_call_depth, root_digest. cbn [pycall root_nodes].
  destruct_children ns; [now rewrite get_new_node_py_spec, within_map|].
  destruct (will_accept b x) eqn:Ex, f as [|f].
  - destruct x; reflexivity.
  - cbn [will_accept_py pycall pybind]. rewrite Ex. now rewrite (digest_py_spec x (S f) b Ex), within_map.
  - reflexivity.
  - cbn [will_accept_py pycall pybind]. rewrite Ex. now rewrite get_new_node_py_spec, within_map.
Qed.

Lemma deliver_raise (limit : nat) (fs : list string) (e : py_error) :
  @deliver _ (PyRoot_sink limit) fs (Raise e) = Raise e.
Proof. induction fs as [|f fs IH]; [reflexivity|exact IH]. Qed.

Lemma deliver_py (limit : nat) (fs : list string) (r : RootNode) :
  @deliver _ (PyRoot_sink limit) fs (Ret r) = within (needed fs r) limit (digest_all fs r).
Proof.
  unfold within.
  revert r; induction fs as [|f fs IH]; intros r; [reflexivity|].
  change (@deliver _ (PyRoot_sink limit) (f :: fs) (Ret r))
    with (@deliver _ (PyRoot_sink limit) fs (root_digest_py limit f r)).
  cbn [needed]. rewrite root_digest_py_spec. unfold within.
  destruct (Nat.leb_spec (root_call_depth f r) limit) as [H1|H1].
  - rewrite IH. destruct (Nat.leb_spec (needed fs (root_digest f r)) limit) as [H2|H2];
      destruct (Nat.leb_spec (Nat.max (root_call_depth f r) (needed fs (root_digest f r))) limit);
      try reflexivity; lia.
  - rewrite deliver_raise.
    destruct (Nat.leb_spec (Nat.max (root_call_depth f r) (needed fs (root_digest f r))) limit);
      [lia|reflexivity].
Qed.

(** What the Python loop returns, for every input and every stack. *)
Lemma parse_py_spec (limit : nat) (html : string) :
  parse_py limit html = within (stack_needed html) limit (parse_html html).
Proof.
  unfold parse_py. rewrite run_tokenize. cbn [root]. rewrite deliver_py.
  unfold stack_needed, parse_html, parse_state. now rewrite run_root.
Qed.

(** ** The stack needed is bounded by the input *)

Lemma nsize_get_new_node (b : string) : nsize (get_new_node b) = 1.
Proof. unfold get_new_node. now destruct (classify b). Qed.

Lemma new_node_depth_le (b : string) : new_node_depth b <= 3.
Proof. unfold new_node_depth. destruct (classify b); cbn; lia. Qed.

Lemma call_depth_le_size (b : string) (n : node) : call_depth b n <= nsize n + 3.
Proof.
  induction n as [t ns c IH| | | | |] using node_tree_ind; cbn [call_depth nsize]; try lia.
  rewrite Forall_forall in IH. pose proof (new_node_depth_le b).
  destruct_children ns; [destruct (startswith b _); cbn; lia|].
  rewrite map_app, list_sum_app. cbn [map list_sum fold_right].
  destruct (will_accept b x); [specialize (IH x ltac:(auto using in_or_app, in_eq))|];
    destruct (startswith b ("</" ++ type_str t)%string); lia.
Qed.

Lemma digest_size (b : string) (n : node) : nsize (digest b n) <= S (nsize n).
Proof.
  induction n as [t ns c IH| | | | |] using node_tree_ind; try (cbn; lia).
  rewrite Forall_forall in IH. rewrite digest_HTMLNode.
  destruct_children ns.
  - destruct (startswith b _); cbn [nsize map list_sum fold_right app];
      rewrite ?nsize_get_new_node; lia.
  - destruct (will_accept b x).
    + specialize (IH x ltac:(auto using in_or_app, in_eq)).
      cbn [nsize]. rewrite !map_app, !list_sum_app. cbn [map list_sum fold_right]. lia.
    + destruct (startswith b _); cbn [nsize]; rewrite ?map_app, ?list_sum_app;
        cbn [map list_sum fold_right]; rewrite ?map_app, ?list_sum_app, ?nsize_get_new_node;
        cbn [map list_sum fold_right]; lia.
Qed.

Lemma root_digest_size (b : string) (r : RootNode) : root_size (root_digest b r) <= S (root_size r).
Proof.
  destruct r as [ns]. unfold root_digest, root_size. cbn [root_nodes].
  destruct_children ns; cbn [root_nodes]; [cbn; rewrite nsize_get_new_node; lia|].
  destruct (will_accept b x) eqn:Ex; cbn [root_nodes]; rewrite !map_app, !list_sum_app;
    cbn [map list_sum fold_right]; rewrite ?map_app, ?list_sum_app, ?nsize_get_new_node;
    cbn [map list_sum fold_right]; [pose proof (digest_size b x)|]; lia.
Qed.

Lemma root_call_depth_le (b : string) (r : RootNode) : root_call_depth b r <= root_size r + 4.
Proof.
  destruct r as [ns]. unfold root_call_depth, root_size. cbn [root_nodes].
  pose proof (new_node_depth_le b). destruct_children ns; [cbn; lia|].
  rewrite map_app, list_sum_app. cbn [map list_sum fold_right].
  destruct (will_accept b x); [pose proof (call_depth_le_size b x)|]; lia.
Qed.

Lemma needed_le (fs : list string) (r : RootNode) : needed fs r <= root_size r + length fs + 3.
Proof.
  revert r; induction fs as [|f fs IH]; intros r; cbn [needed length]; [lia|].
  pose proof (root_call_depth_le f r). pose proof (IH (root_digest f r)).
  pose proof (root_digest_size f r). lia.
Qed.

(** Termination with the model's tree needs at most three frames more
    than the input has characters: one node per fragment, one frame per
    node of the spine, and [get_new_node], [__init__] and [get_node_type]
    below the deepest. *)
Lemma stack_needed_le (html : string) : stack_needed html <= String.length html + 3.
Proof.
  unfold stack_needed. pose proof (needed_le (fragments (fst (tokenize EmptyString html))) RootNode_init).
  pose proof (tokenize_fragments_length EmptyString html). cbn [root_size root_nodes] in *.
  unfold root_size in H. cbn in H. lia.
Qed.







(** ** Properties of the Python execution *)


(** C20: the parser terminates normally under Python's recursion limit
    when at least three more frames are available than the input has
    characters: [parse_html] as Python runs it then returns the tree of
    the model, with no exception. *)
Theorem parse_py_terminates (limit : nat) (html : string) :
  String.length html + 3 <= limit -> parse_py limit html = Ret (parse_html html).
Proof.
  intros H. rewrite parse_py_spec. pose proof (stack_needed_le html). unfold within.
  destruct (Nat.leb_spec (stack_needed html) limit); [reflexivity|lia].
Qed.

Lemma parse_py_terminates_witness :
  String.length "<p>Hi</p>" + 3 <= 12 /\ parse_py 12 "<p>Hi</p>" = Ret (parse_html "<p>Hi</p>").
Proof.
  split; [cbn; lia|]. apply parse_py_terminates. cbn; lia.
Defined.



End PyExec.
