(* ===== verification/Analyse.v ===== *)
(** * The word-frequency analyser of [src/analyser/analyse.py]

    [analyse(text)] replaces every run of characters of the class
    [[\W_0-9]] by one space and strips the result
    ([remove_non_word_characters]), splits it on single spaces
    ([divide_text_into_words], [re.split(" ", text)]), counts the lowercased
    words in a [defaultdict] ([count_words_occurrences]) and sorts the
    dictionary's items by count, descending, with Python's stable
    [list.sort] ([AnalyseResult]); [get_most_used_words(count)] is the slice
    [[:count]].

    The file is written on MathComp's [seq]: a Python dictionary is a
    [seq (string * nat)] in insertion order, and the sort is MathComp's
    stable merge sort [sort], which is proved to be the only stable sort
    of the items, so it agrees with Python's; the keys of the dictionary
    come in the order of first occurrence ([first_occ]), which fixes the
    order of words of equal count. Characters are Latin-1 code
    points: [is_word_char] is Python's [\w] on them ([str.isalnum()] or
    [_]) and [lower_char] is [str.lower()].  The reference [word_runs]
    (the maximal runs of word characters) states what the cleanup and the
    split compute together. *)

From Stdlib Require Import String Ascii ZArith.
From HB Require Import structures.
From mathcomp Require Import boot.
From S2P Require Import PyStr.

Set Implicit Arguments.
Unset Strict Implicit.
Unset Printing Implicit Defensive.

Lemma string_eqP : Equality.axiom String.eqb.
Proof. move=> x y; exact: String.eqb_spec. Qed.
HB.instance Definition _ := hasDecEq.Build string string_eqP.

Module Analyse.

(** ** Characters *)

(** [\w] for a Latin-1 code point: [str.isalnum()] (letters, digits, the
    superscripts 178, 179, 185 and the fractions 188-190) or [_]. *)
Definition is_word_char (c : ascii) : bool :=
  let n := nat_of_ascii c in
  [|| (48 <= n <= 57), (65 <= n <= 90), n == 95, (97 <= n <= 122),
      n == 170, n == 178, n == 179, n == 181, n == 185, n == 186,
      (188 <= n <= 190), (192 <= n <= 214), (216 <= n <= 246) | 248 <= n].

(** The class [[\W_0-9]]: not a word character, or [_], or an ASCII
    digit. *)
Definition is_separator (c : ascii) : bool :=
  let n := nat_of_ascii c in
  ~~ is_word_char c || (n == 95) || (48 <= n <= 57).

(** [c.lower()] on Latin-1: [A-Z] and the accented capitals 192-222 but
    the multiplication sign 215 move down by 32. *)
Definition lower_char (c : ascii) : ascii :=
  let n := nat_of_ascii c in
  if (65 <= n <= 90) || ((192 <= n <= 222) && (n != 215)) then ascii_of_nat (n + 32)
  else c.

Fixpoint lower (s : string) : string :=
  match s with
  | EmptyString => EmptyString
  | String c s' => String (lower_char c) (lower s')
  end.

(** ** [remove_non_word_characters] (analyse.py l.18-21) *)

(** [re.sub(NON_WORD_CHARS_REGEX, " ", text)]: every maximal run of
    separators becomes one space; [in_run] says whether the previous
    character was a separator. *)
Fixpoint sub_separators (s : string) (in_run : bool) : string :=
  match s with
  | EmptyString => EmptyString
  | String c s' =>
      if is_separator c then
        if in_run then sub_separators s' true
        else String " " (sub_separators s' true)
      else String c (sub_separators s' false)
  end.

Definition remove_non_word_characters (text : string) : string :=
  strip (sub_separators text false).

(** ** [divide_text_into_words] (l.24-25): [re.split(" ", text)] *)
Fixpoint divide_text_into_words (text : string) : seq string :=
  match text with
  | EmptyString => [:: EmptyString]
  | String c s' =>
      if Ascii.eqb c " " then EmptyString :: divide_text_into_words s'
      else match divide_text_into_words s' with
           | w :: ws => String c w :: ws
           | [::] => [:: String c EmptyString]
           end
  end.

(** ** [count_words_occurrences] (l.28-32) *)

(** [d[k] += 1] on a [defaultdict(lambda: 0)] kept in insertion order. *)
Fixpoint incr (k : string) (d : seq (string * nat)) : seq (string * nat) :=
  match d with
  | [::] => [:: (k, 1)]
  | (k', n) :: d' => if k' == k then (k', n.+1) :: d' else (k', n) :: incr k d'
  end.

Definition count_words_occurrences (words : seq string) : seq (string * nat) :=
  foldl (fun d w => incr (lower w) d) [::] words.

(** [d[k]] on the [defaultdict]: [0] for a missing key. *)
Definition lookup (d : seq (string * nat)) (k : string) : nat :=
  match [seq p <- d | p.1 == k] with
  | p :: _ => p.2
  | [::] => 0
  end.

(** The distinct items of [s] in the order of their first occurrence
    (MathComp's [undup] keeps the last one of each). *)
Definition first_occ (s : seq string) : seq string := rev (undup (rev s)).

(** ** [AnalyseResult] (l.9-15) *)

(** [key=lambda x: x[1], reverse=True]: an item goes before another when
    its count is at least the other's. *)
Definition by_count_desc (x y : string * nat) : bool := y.2 <= x.2.

Definition AnalyseResult (words_statistics : seq (string * nat)) : seq (string * nat) :=
  sort by_count_desc words_statistics.

(** [lst[:count]] for a Python [int] [count]: a negative bound counts from
    the end. *)
Definition py_take {A} (count : Z) (l : seq A) : seq A :=
  if (0 <=? count)%Z then take (Z.to_nat count) l
  else take (size l - Z.to_nat (- count)) l.

Definition get_most_used_words (result : seq (string * nat)) (count : Z) :=
  py_take count result.

(** ** [analyse] (l.35-40) *)
Definition analyse (text : string) : seq (string * nat) :=
  AnalyseResult (count_words_occurrences
                   (divide_text_into_words (remove_non_word_characters text))).

(** ** Counting *)

Lemma lookup_cons (d : seq (string * nat)) k n w :
  lookup ((k, n) :: d) w = if k == w then n else lookup d w.
Proof. rw /lookup /=. by case: (k == w). Qed.

Lemma lookup_incr (d : seq (string * nat)) k w :
  lookup (incr k d) w = lookup d w + (k == w).
Proof.
  elim: d => [|[k' n] d IH] /=.
  - rw /lookup /=. by case: (k == w).
  - rw lookup_cons. have [->|Hne] := eqVneq k' k.
    + rw lookup_cons. by case: (k == w); rw ?addn1 ?addn0.
    + rw lookup_cons IH. have [Ew|Ew] := eqVneq k' w => //.
      by rw -Ew eq_sym (negbTE Hne) addn0.
Qed.

Lemma keys_incr (d : seq (string * nat)) k :
  map fst (incr k d) = if k \in map fst d then map fst d else rcons (map fst d) k.
Proof.
  elim: d => [|[k' n] d IH] //=. rw in_cons eq_sym.
  case: (k == k') => /=; first by [].
  by rw IH; case: (k \in map fst d).
Qed.

Lemma count_words_fold (d : seq (string * nat)) (ws : seq string) w :
  lookup (foldl (fun d w => incr (lower w) d) d ws) w =
  lookup d w + count (pred1 w) (map lower ws).
Proof.
  elim: ws d => [|x ws IH] d /=; first by rw addn0.
  by rw IH lookup_incr addnA.
Qed.

Lemma keys_fold (d : seq (string * nat)) (ws : seq string) :
  uniq (map fst d) ->
  uniq (map fst (foldl (fun d w => incr (lower w) d) d ws)) /\
  forall k, k \in map fst (foldl (fun d w => incr (lower w) d) d ws) =
            (k \in map fst d) || (k \in map lower ws).
Proof.
  elim: ws d => [|x ws IH] d Hu /=; first by split=> // k; rw in_nil orbF.
  have Hu' : uniq (map fst (incr (lower x) d)).
  { rw keys_incr. case Hx: (lower x \in map fst d) => //.
    by rw rcons_uniq Hx Hu. }
  case: (IH _ Hu') => H1 H2. split=> // k.
  rw H2 keys_incr in_cons.
  case Hx: (lower x \in map fst d); last by rw mem_rcons in_cons orbA (orbC (k \in _)).
  case Ek: (k == lower x) => /=; last by [].
  by move/eqP: Ek => ->; rw Hx.
Qed.

(** The dictionary's keys come in the order of their first insertion. *)
Lemma mem_first_occ (s : seq string) x : (x \in first_occ s) = (x \in s).
Proof. by rw /first_occ mem_rev mem_undup mem_rev. Qed.

Lemma first_occ_rcons (s : seq string) x :
  first_occ (rcons s x) = if x \in s then first_occ s else rcons (first_occ s) x.
Proof. rw /first_occ rev_rcons /= mem_rev. by case: (x \in s); rw ?rev_cons. Qed.

Lemma keys_first_occ (ws : seq string) :
  map fst (count_words_occurrences ws) = first_occ (map lower ws).
Proof.
  rw /count_words_occurrences. elim/last_ind: ws => [|ws w IH] //.
  by rw foldl_rcons keys_incr IH mem_first_occ map_rcons first_occ_rcons.
Qed.

(** With distinct keys, the keys of the items of count [n] are the keys
    whose [d[k]] is [n]. *)
Lemma filter_keys (d : seq (string * nat)) n :
  uniq (map fst d) -> [seq p.1 | p <- d & p.2 == n] = [seq k <- map fst d | lookup d k == n].
Proof.
  elim: d => [|[k m] d IH] //= /andP [Hk Hu].
  have E : [seq k' <- map fst d | lookup ((k, m) :: d) k' == n] =
           [seq k' <- map fst d | lookup d k' == n].
  { apply: eq_in_filter => k' Hk'. rw lookup_cons.
    case: (eqVneq k k') => [Ekk'|_] //. by move: Hk; rw Ekk' Hk'. }
  rw E -IH // lookup_cons eqxx. by case: (m == n).
Qed.

(** ** The stable sort *)

Lemma by_count_desc_total : total by_count_desc.
Proof. move=> x y; rw /by_count_desc; exact: leq_total. Qed.

Lemma by_count_desc_trans : transitive by_count_desc.
Proof. move=> y x z Hxy Hyz; exact: leq_trans Hyz Hxy. Qed.

(** A list whose items all have the same count is already sorted. *)
Lemma same_count_path (n : nat) (x : string * nat) (l : seq (string * nat)) :
  x.2 = n -> all (fun p => p.2 == n) l -> path by_count_desc x l.
Proof.
  elim: l x => [|y l IH] x //= Hx /andP [/eqP Hy Hl].
  rw IH // andbT /by_count_desc Hx Hy. exact: leqnn.
Qed.

Lemma same_count_sorted (n : nat) (l : seq (string * nat)) :
  sorted by_count_desc [seq p <- l | p.2 == n].
Proof.
  have := filter_all (fun p => p.2 == n) l.
  case: [seq p <- l | p.2 == n] => [|x l'] //= /andP [/eqP Hx Hl].
  exact (same_count_path Hx Hl).
Qed.

(** Two lists sorted by count whose items of every count come in the same
    order are equal. *)
Lemma sorted_same_filters (r s : seq (string * nat)) :
  sorted by_count_desc r -> sorted by_count_desc s -> perm_eq r s ->
  (forall n, [seq p <- r | p.2 == n] = [seq p <- s | p.2 == n]) -> r = s.
Proof.
  elim: r s => [|x r IH] [|y s] //=; try by move=> _ _ /perm_size.
  move=> Hr Hs Hp Hf.
  have Hxy : x.2 = y.2.
  { have Hx : x \in y :: s by rw -(perm_mem Hp) mem_head.
    have Hy : y \in x :: r by rw (perm_mem Hp) mem_head.
    apply/eqP; rw eqn_leq.
    move: Hx; rw in_cons => /orP [/eqP -> |Hx]; first by rw leqnn.
    move: Hy; rw in_cons => /orP [/eqP -> |Hy]; first by rw leqnn.
    have H1 : by_count_desc y x := allP (order_path_min by_count_desc_trans Hs) x Hx.
    have H2 : by_count_desc x y := allP (order_path_min by_count_desc_trans Hr) y Hy.
    by apply/andP; split; [exact: H1|exact: H2]. }
  have Exy : x = y.
  { move: (Hf x.2); rw /= eqxx Hxy eqxx. by case. }
  subst y. have Hp' : perm_eq r s by rw perm_cons in Hp.
  congr cons; apply: IH => //; [exact: path_sorted Hr|exact: path_sorted Hs|].
  move=> n. move: (Hf n) => /=. by case: (x.2 == n) => // -[].
Qed.

(** ** The words of a text *)

(** The maximal runs of non-separator characters of a text, in order: the
    words the analyser is meant to count. *)
Definition starts_word (s : string) : bool :=
  if s is String c _ then ~~ is_separator c else false.

Definition starts_sep (s : string) : bool :=
  if s is String c _ then is_separator c else false.

Fixpoint word_runs (t : string) : seq string :=
  match t with
  | EmptyString => [::]
  | String c t' =>
      if is_separator c then word_runs t'
      else if starts_word t' then
        match word_runs t' with
        | w :: ws => String c w :: ws
        | [::] => [:: String c EmptyString]
        end
      else String c EmptyString :: word_runs t'
  end.

(** A whitespace character is a separator. *)
Lemma space_is_separator (c : ascii) : is_space c -> is_separator c.
Proof. case: c => [[] [] [] [] [] [] [] []]; vm_compute; done. Qed.

Lemma nonsep_not_space (c : ascii) : is_separator c = false -> is_space c = false.
Proof. by case Hs: (is_space c) => //; move: (space_is_separator Hs) => ->. Qed.

Lemma nonsep_not_blank (c : ascii) : is_separator c = false -> Ascii.eqb " " c = false.
Proof. by case: (Ascii.eqb_spec " " c) => // <-; vm_compute. Qed.

(** Every run is non-empty and starts with a non-separator. *)
Lemma word_runs_ok (t : string) : all starts_word (word_runs t).
Proof.
  elim: t => [|c t IH] //=. case Hc: (is_separator c) => //.
  case: (starts_word t) => /=.
  - move: IH. case: (word_runs t) => [|w ws] /=; first by rw Hc.
    by case/andP => _ ->; rw Hc.
  - by rw Hc IH.
Qed.

Lemma word_runs_starts_word (t : string) : starts_word t -> word_runs t != [::].
Proof.
  case: t => [|c t] //= Hc. rw (negbTE Hc).
  by case: (starts_word t); [case: (word_runs t)|].
Qed.

(** Joining runs with single spaces: empty exactly for no run. *)
Lemma concat_space_nonempty (R : seq string) :
  all starts_word R -> nonempty (String.concat " " R) = (R != [::]).
Proof. case: R => [|w ws] //=. case: w => [|c w] //= _. by case: ws. Qed.

Lemma concat_space_cons (c : ascii) (w : string) (ws : seq string) :
  String.concat " " (String c w :: ws) = String c (String.concat " " (w :: ws)).
Proof. by case: ws. Qed.

(** What [rstrip] leaves of the substitution: the runs joined by spaces,
    after one leading space when the text starts with separators. *)
Lemma rstrip_sub_separators (t : string) (b : bool) :
  rstrip (sub_separators t b) =
  ((if ~~ b && starts_sep t && (word_runs t != [::]) then " " else EmptyString) ++
   String.concat " " (word_runs t))%string.
Proof.
  elim: t b => [|c t IH] b; first by rw /= andbF.
  rw /=. case Hc: (is_separator c) => /=.
  - case: b => /=; first by rw IH.
    rw IH /= (concat_space_nonempty (word_runs_ok t)).
    by case: (word_runs t).
  - have Hs : is_space c = false.
    { by case Hsp: (is_space c) => //; move: (space_is_separator Hsp); rw Hc. }
    rw Hs /= IH. case Hw: (starts_word t).
    + have := word_runs_starts_word Hw. have -> : starts_sep t = false by case: t Hw {IH} => [|d t] //= /negbTE.
      by case: (word_runs t) => [|w ws] //= _; rw andbF; case: ws.
    + have Ht : t = EmptyString \/ starts_sep t.
      { case: t Hw {IH} => [|d t] /=; [by left|by move/negbFE; right]. }
      rw andbF. case: Ht => [-> //|->] /=. by case: (word_runs t).
Qed.

(** No run contains a space. *)
Lemma word_runs_blank_free (t : string) : all (fun w => ~~ has_char " " w) (word_runs t).
Proof.
  elim: t => [|c t IH] //=. case Hc: (is_separator c) => //.
  have Hb := nonsep_not_blank Hc.
  case: (starts_word t); last by cbn [all has_char]; rw Hb IH.
  by move: IH; case: (word_runs t) => [|w ws]; cbn [all has_char]; rw Hb.
Qed.

Lemma lstrip_concat_runs (R : seq string) :
  all starts_word R -> lstrip (String.concat " " R) = String.concat " " R.
Proof.
  case: R => [|w ws] // /andP [Hw _]. case: w Hw => [|c w] // /negbTE Hc.
  by rw concat_space_cons; cbn [lstrip]; rw (nonsep_not_space Hc).
Qed.

(** [re.split(" ")] of words without spaces joined by single spaces. *)
Lemma divide_blank_free (w : string) :
  has_char " " w = false -> divide_text_into_words w = [:: w].
Proof.
  elim: w => [|c w IH] //; cbn [has_char divide_text_into_words] => /norP [Hc Hw].
  by rw Ascii.eqb_sym (negbTE Hc) (IH (negbTE Hw)).
Qed.

Lemma divide_app_blank (w r : string) :
  has_char " " w = false ->
  divide_text_into_words (w ++ String " " r) = w :: divide_text_into_words r.
Proof.
  elim: w => [|c w IH]; first by [].
  cbn [has_char append divide_text_into_words] => /norP [Hc Hw].
  by rw Ascii.eqb_sym (negbTE Hc) (IH (negbTE Hw)).
Qed.

Lemma divide_concat_runs (R : seq string) :
  all (fun w => ~~ has_char " " w) R ->
  divide_text_into_words (String.concat " " R) = if R is [::] then [:: EmptyString] else R.
Proof.
  elim: R => [|w ws IH] //= /andP [/negbTE Hw Hws].
  case: ws IH Hws => [|w' ws] IH Hws; first by rw divide_blank_free.
  by rw divide_app_blank // IH.
Qed.

(** [remove_non_word_characters] keeps the runs of word characters,
    joined by single spaces. *)
Lemma remove_non_word_characters_runs (t : string) :
  remove_non_word_characters t = String.concat " " (word_runs t).
Proof.
  rw /remove_non_word_characters /strip rstrip_lstrip rstrip_sub_separators.
  by case: ifP => _ /=; apply: lstrip_concat_runs (word_runs_ok t).
Qed.

Fixpoint all_separators (s : string) : bool :=
  match s with
  | EmptyString => true
  | String c s' => is_separator c && all_separators s'
  end.

Lemma sub_separators_all (t : string) (b : bool) :
  all_separators t ->
  sub_separators t b = if (t != EmptyString) && ~~ b then " "%string else EmptyString.
Proof.
  elim: t b => [|c t IH] b //= /andP [Hc Ht]. rw Hc (IH true Ht) /=.
  by case: b; case: (t != EmptyString).
Qed.

Lemma AnalyseResult_props (d : seq (string * nat)) :
  sorted by_count_desc (AnalyseResult d) /\ perm_eq (AnalyseResult d) d /\
  forall n, [seq p <- AnalyseResult d | p.2 == n] = [seq p <- d | p.2 == n].
Proof.
  split; [exact: sort_sorted by_count_desc_total d|split; [by rw /AnalyseResult perm_sort|]].
  move=> n. rw /AnalyseResult (filter_sort by_count_desc_total by_count_desc_trans).
  exact: (sorted_sort by_count_desc_trans (same_count_sorted n d)).
Qed.

(** With distinct keys, [d[k]] does not depend on the order of the items:
    it is the sum of the counts stored under [k]. *)
Lemma filter_key_absent (d : seq (string * nat)) w :
  w \notin map fst d -> [seq p <- d | p.1 == w] = [::].
Proof.
  elim: d => [|[k n] d IH] //=. rw in_cons => /norP [Hk H].
  by rw eq_sym (negbTE Hk); apply: IH.
Qed.

Lemma lookup_sumn (d : seq (string * nat)) w :
  uniq (map fst d) -> lookup d w = sumn [seq p.2 | p <- d & p.1 == w].
Proof.
  elim: d => [|[k n] d IH] //= /andP [Hk Hu]. rw lookup_cons.
  case: eqP => [Ekw|_] /=; last exact: IH.
  by rw filter_key_absent ?addn0 // -Ekw.
Qed.

Lemma lookup_perm (d d' : seq (string * nat)) w :
  uniq (map fst d) -> perm_eq d' d -> lookup d' w = lookup d w.
Proof.
  move=> Hu Hp. have Hu' : uniq (map fst d') by rw (perm_uniq (perm_map fst Hp)).
  rw (lookup_sumn w Hu) (lookup_sumn w Hu').
  by apply/perm_sumn/perm_map/perm_filter.
Qed.

(** ** Properties of the analyser *)

(** C30: the words the analyser counts are the maximal runs of word
    characters of the text, in order; a text without any such run gives
    the single empty word ([re.split] of the empty string). *)
Theorem divide_words_are_runs (text : string) :
  divide_text_into_words (remove_non_word_characters text) =
  if word_runs text is [::] then [:: EmptyString] else word_runs text.
Proof. by rw remove_non_word_characters_runs (divide_concat_runs (word_runs_blank_free text)). Qed.

(** C31: in the report of [analyse(text)], the count of [w] is the number
    of maximal runs of word characters of [text] whose lowercase is [w]
    (one empty word when there is no run). *)
Theorem analyse_counts_runs (text w : string) :
  lookup (analyse text) w =
  count (pred1 w) (map lower (if word_runs text is [::] then [:: EmptyString] else word_runs text)).
Proof.
  rw /analyse remove_non_word_characters_runs (divide_concat_runs (word_runs_blank_free text)).
  move: (if word_runs text is [::] then _ else _) => ws.
  have [Hu _] := keys_fold ws (d := [::]) isT.
  have [_ [Hp _]] := AnalyseResult_props (count_words_occurrences ws).
  by rw (lookup_perm w Hu Hp) /count_words_occurrences count_words_fold.
Qed.

(** C22: the dictionary counts every word case-insensitively: the count
    it holds for [w] (0 when [w] is missing, as a [defaultdict] answers) is
    the number of words whose lowercase is [w]. *)
Theorem count_words_occurrences_spec (words : seq string) (w : string) :
  lookup (count_words_occurrences words) w = count (pred1 w) (map lower words).
Proof. by rw /count_words_occurrences count_words_fold. Qed.

(** C23: the dictionary has one entry per distinct lowercased word and no
    other. *)
Theorem count_words_occurrences_keys (words : seq string) :
  uniq (map fst (count_words_occurrences words)) /\
  forall k, (k \in map fst (count_words_occurrences words)) = (k \in map lower words).
Proof. have [H1 H2] := keys_fold words (d := [::]) isT. split; [exact: H1|move=> k; by rw H2 /=]. Qed.

(** C24: the report lists the words by count, highest first, and the
    words of equal count in the order in which their lowercase first occurs
    in the text: Python's [sort(key=lambda x: x[1], reverse=True)] is
    stable, and the [defaultdict] keeps its keys in insertion order. *)
Theorem AnalyseResult_report_order (words : seq string) :
  sorted (fun x y : string * nat => y.2 <= x.2) (AnalyseResult (count_words_occurrences words)) /\
  forall n, [seq p.1 | p <- AnalyseResult (count_words_occurrences words) & p.2 == n] =
            [seq w <- first_occ (map lower words) | count (pred1 w) (map lower words) == n].
Proof.
  have [Hu _] := keys_fold words (d := [::]) isT.
  have [Hs [_ Hf]] := AnalyseResult_props (count_words_occurrences words).
  split; first exact: Hs.
  move=> n. rw Hf (filter_keys n Hu) keys_first_occ. apply: eq_in_filter => w _.
  by rw /count_words_occurrences count_words_fold.
Qed.

(** C25: a stable sort by count is unique: any permutation of the items
    that is sorted by count, descending, and keeps the items of each count
    in their order is [AnalyseResult]; so Python's [list.sort], whatever
    its algorithm, returns what the model returns. *)
Theorem AnalyseResult_unique (d r : seq (string * nat)) :
  sorted by_count_desc r -> perm_eq r d ->
  (forall n, [seq p <- r | p.2 == n] = [seq p <- d | p.2 == n]) ->
  r = AnalyseResult d.
Proof.
  move=> Hs Hp Hf. have [Hs' [Hp' Hf']] := AnalyseResult_props d.
  apply: sorted_same_filters => //; last by move=> n; rw Hf Hf'.
  rw perm_sym in Hp'. exact: perm_trans Hp Hp'.
Qed.

Lemma AnalyseResult_unique_witness :
  let d := [:: ("a"%string, 1); ("b"%string, 2); ("c"%string, 1)] in
  let r := [:: ("b"%string, 2); ("a"%string, 1); ("c"%string, 1)] in
  (sorted by_count_desc r /\ perm_eq r d /\
   (forall n, [seq p <- r | p.2 == n] = [seq p <- d | p.2 == n])) /\
  r = AnalyseResult d.
Proof.
  have H : sorted by_count_desc [:: ("b"%string, 2); ("a"%string, 1); ("c"%string, 1)] /\
           perm_eq [:: ("b"%string, 2); ("a"%string, 1); ("c"%string, 1)]
                   [:: ("a"%string, 1); ("b"%string, 2); ("c"%string, 1)] /\
           (forall n, [seq p <- [:: ("b"%string, 2); ("a"%string, 1); ("c"%string, 1)] | p.2 == n] =
                      [seq p <- [:: ("a"%string, 1); ("b"%string, 2); ("c"%string, 1)] | p.2 == n]).
  { split; [reflexivity|split; [reflexivity|]].
    by case=> [|[|[|n]]]. }
  split; [exact H|]. case: H => [Hs [Hp Hf]]. exact: (AnalyseResult_unique Hs Hp Hf).
Defined.

(** C26: [get_most_used_words(count)] returns a prefix of the sorted
    items: the first [min(count, n)] of the [n] items when [count >= 0],
    all but the last [-count] otherwise (Python's slice [[:count]]). *)
Theorem get_most_used_words_prefix (result : seq (string * nat)) (count : Z) :
  (exists rest, result = seq.cat (get_most_used_words result count) rest) /\
  size (get_most_used_words result count) =
  if (0 <=? count)%Z then minn (Z.to_nat count) (size result)
  else size result - Z.to_nat (- count).
Proof.
  rw /get_most_used_words /py_take. case: (0 <=? count)%Z.
  - split; first by exists (drop (Z.to_nat count) result); rw cat_take_drop.
    by rw size_take /minn.
  - split; first by exists (drop (size result - Z.to_nat (- count)) result); rw cat_take_drop.
    by rw size_takel // leq_subr.
Qed.

(** C29: the report holds the most used words: for every [count >= 0],
    each word [get_most_used_words(count)] reports is used at least as
    often as every word it leaves out. *)
Theorem most_used_words_are_top (text : string) (k : nat) :
  all (fun p : string * nat => all (fun q : string * nat => q.2 <= p.2) (drop k (analyse text)))
      (get_most_used_words (analyse text) (Z.of_nat k)).
Proof.
  rw /get_most_used_words /py_take.
  have -> : (0 <=? Z.of_nat k)%Z = true by apply Z.leb_le, Nat2Z.is_nonneg.
  rw Nat2Z.id. have [Hs _] := AnalyseResult_props
    (count_words_occurrences (divide_text_into_words (remove_non_word_characters text))).
  move: Hs. rw -/(analyse text) (sorted_pairwise by_count_desc_trans).
  rw -{1}(cat_take_drop k (analyse text)) pairwise_cat => /and3P [H _ _]. exact: H.
Qed.

(** C27: a text without any word (only separators, or empty) is analysed
    as one empty word counted once: [analyse("")] and [analyse("123 !!")]
    both return [[("", 1)]], and [main] reports [": 1"]. *)
Theorem analyse_without_words (text : string) :
  all_separators text -> analyse text = [:: (EmptyString, 1)].
Proof.
  move=> H. rw /analyse /remove_non_word_characters (sub_separators_all false H).
  by case: (_ && _).
Qed.

Lemma analyse_without_words_witness :
  all_separators "123 !!" /\ analyse "123 !!" = [:: (EmptyString, 1)].
Proof. have H : all_separators "123 !!" by reflexivity. split; [exact H|exact: (analyse_without_words H)]. Defined.

End Analyse.
