(* ===== verification/Json.v ===== *)
(** * The JSON file of [save_to_file]: [json.dump(..., indent=4)]

    [save_to_file] (src/run.py l.15-18) writes
    [json.dump([i for i in most_used_words], f, indent=4)]: a list of
    [(word, count)] tuples, each serialised by Python's [json] encoder as a
    two-element array.  This file gives the encoder's output for the values
    that occur ([json]: strings, non-negative integers and arrays) exactly as
    [json.encoder] produces it: [_iterencode_list] with [indent=4] and the
    default separators, [encode_basestring_ascii] ([ensure_ascii=True]) for
    strings, [int.__repr__] for integers.

    To state what the file means, [json_loads] is a reference decoder for
    the same subset of JSON (RFC 8259 arrays, strings and non-negative
    integers, with its whitespace and escapes), written with fuel.  The
    theorems: decoding the dump of any value gives the value back, with the
    fuel [json_loads] provides (the round trip, with an arbitrary suffix in
    the style of a serialiser law); and every character of the dump is
    printable ASCII or a newline, as [ensure_ascii] promises. *)

From Stdlib Require Import String Ascii List Bool Arith Lia DecimalString DecimalNat.
From S2P Require Import Prelude PyStr.
Import ListNotations.
Open Scope string_scope.

Module Json.

(** ** Values *)

Inductive json : Type :=
| JStr (s : string)
| JInt (n : nat)
| JArr (items : list json).

(** Induction on values, with the hypothesis for the items of an array as
    a [Forall]. *)
Section JsonInd.
Variable P : json -> Prop.
Hypothesis H_str : forall s, P (JStr s).
Hypothesis H_int : forall n, P (JInt n).
Hypothesis H_arr : forall l, Forall P l -> P (JArr l).

Fixpoint json_tree_ind (v : json) : P v :=
  match v with
  | JStr s => H_str s
  | JInt n => H_int n
  | JArr l =>
      H_arr l
        ((fix go (l : list json) : Forall P l :=
            match l with
            | [] => Forall_nil P
            | x :: l' => Forall_cons x (json_tree_ind x) (go l')
            end) l)
  end.
End JsonInd.

(** ** The encoder *)

Definition quote : ascii := ascii_of_nat 34.
Definition bslash : ascii := ascii_of_nat 92.

(** A lowercase hexadecimal digit ([Py_hexdigits]). *)
Definition hex_digit (d : nat) : ascii :=
  ascii_of_nat (if Nat.ltb d 10 then 48 + d else 87 + d).

(** ['\\u{0:04x}'.format(n)] for a code point below 256. *)
Definition u_escape (n : nat) : string :=
  String bslash (String "u" (String "0" (String "0"
    (String (hex_digit (n / 16)) (String (hex_digit (n mod 16)) EmptyString))))).

(** The replacement of one character by [encode_basestring_ascii]:
    [ESCAPE_DCT] for the backslash, the quote and the five short escapes,
    the character itself when it is printable ASCII ([ -~]), and a [\u]
    escape otherwise. *)
Definition escape_char (c : ascii) : string :=
  let n := nat_of_ascii c in
  if Nat.eqb n 92 then String bslash (String bslash EmptyString)
  else if Nat.eqb n 34 then String bslash (String quote EmptyString)
  else if Nat.eqb n 8 then String bslash "b"
  else if Nat.eqb n 12 then String bslash "f"
  else if Nat.eqb n 10 then String bslash "n"
  else if Nat.eqb n 13 then String bslash "r"
  else if Nat.eqb n 9 then String bslash "t"
  else if Nat.leb 32 n && Nat.leb n 126 then String c EmptyString
  else u_escape n.

Fixpoint escape (s : string) : string :=
  match s with
  | EmptyString => EmptyString
  | String c s' => escape_char c ++ escape s'
  end.

(** [encode_basestring_ascii(s)]: [ '"' + ESCAPE_ASCII.sub(replace, s) + '"' ]. *)
Definition encode_basestring_ascii (s : string) : string :=
  String quote (escape s ++ String quote EmptyString).

Fixpoint spaces (n : nat) : string :=
  match n with 0 => EmptyString | S k => String " " (spaces k) end.

(** [newline_indent = '\n' + _indent * _current_indent_level] with
    [_indent = '    ']. *)
Definition newline_indent (level : nat) : string := nl ++ spaces (4 * level).

(** [_iterencode] at indentation level [level]: an empty list is ["[]"];
    a non-empty one opens with [[] and a new line one level deeper,
    separates its items by [","] and a new line, and closes with a new line
    at its own level and []]. *)
Fixpoint dumps_at (level : nat) (v : json) : string :=
  match v with
  | JStr s => encode_basestring_ascii s
  | JInt n => str_of_nat n
  | JArr [] => "[]"
  | JArr items =>
      "[" ++ newline_indent (S level) ++
      String.concat ("," ++ newline_indent (S level)) (map (dumps_at (S level)) items) ++
      newline_indent level ++ "]"
  end.

(** [json.dumps(v, indent=4)] *)
Definition dumps (v : json) : string := dumps_at 0 v.

(** A [(word, count)] tuple is encoded as a list. *)
Definition pair_json (p : string * nat) : json :=
  let '(w, c) := p in JArr [JStr w; JInt c].

(** What [save_to_file] writes: [json.dump([i for i in most_used_words], f,
    indent=4)]. *)
Definition json_dump (most_used_words : list (string * nat)) : string :=
  dumps (JArr (map pair_json most_used_words)).

(** ** The reference decoder *)

(** JSON whitespace: space, tab, newline, carriage return. *)
Definition is_json_ws (c : ascii) : bool :=
  let n := nat_of_ascii c in
  Nat.eqb n 32 || Nat.eqb n 9 || Nat.eqb n 10 || Nat.eqb n 13.

Fixpoint skip_ws (s : string) : string :=
  match s with
  | String c s' => if is_json_ws c then skip_ws s' else s
  | EmptyString => s
  end.

Definition is_digit (c : ascii) : bool :=
  Nat.leb 48 (nat_of_ascii c) && Nat.leb (nat_of_ascii c) 57.

Definition hex_val (c : ascii) : option nat :=
  let n := nat_of_ascii c in
  if Nat.leb 48 n && Nat.leb n 57 then Some (n - 48)
  else if Nat.leb 97 n && Nat.leb n 102 then Some (n - 87)
  else if Nat.leb 65 n && Nat.leb n 70 then Some (n - 55)
  else None.

(** The two-character escapes of JSON. *)
Definition unescape_simple (e : ascii) : option ascii :=
  let n := nat_of_ascii e in
  if Nat.eqb n 34 then Some quote
  else if Nat.eqb n 92 then Some bslash
  else if Nat.eqb n 47 then Some "/"%char
  else if Nat.eqb n 98 then Some (ascii_of_nat 8)
  else if Nat.eqb n 102 then Some (ascii_of_nat 12)
  else if Nat.eqb n 110 then Some (ascii_of_nat 10)
  else if Nat.eqb n 114 then Some (ascii_of_nat 13)
  else if Nat.eqb n 116 then Some (ascii_of_nat 9)
  else None.

Definition cons_fst (c : ascii) (p : string * string) : string * string :=
  let '(x, r) := p in (String c x, r).

(** The body of a string literal, after its opening quote: the decoded
    characters and what follows the closing quote.  Control characters are
    refused, as by [json.loads] (strict mode); a [\u] escape must denote a
    code point below 256, the characters of the model. *)
Fixpoint parse_str (s : string) : option (string * string) :=
  match s with
  | EmptyString => None
  | String c r =>
      if Ascii.eqb c quote then Some (EmptyString, r)
      else if Ascii.eqb c bslash then
        match r with
        | String e r1 =>
            if Ascii.eqb e "u" then
              match r1 with
              | String h1 (String h2 (String h3 (String h4 r2))) =>
                  match hex_val h1, hex_val h2, hex_val h3, hex_val h4 with
                  | Some a, Some b, Some c', Some d =>
                      let n := ((a * 16 + b) * 16 + c') * 16 + d in
                      if Nat.ltb n 256 then option_map (cons_fst (ascii_of_nat n)) (parse_str r2)
                      else None
                  | _, _, _, _ => None
                  end
              | _ => None
              end
            else
              match unescape_simple e with
              | Some d => option_map (cons_fst d) (parse_str r1)
              | None => None
              end
        | EmptyString => None
        end
      else if Nat.ltb (nat_of_ascii c) 32 then None
      else option_map (cons_fst c) (parse_str r)
  end.

Fixpoint span_digits (s : string) : string * string :=
  match s with
  | String c s' => if is_digit c then cons_fst c (span_digits s') else (EmptyString, s)
  | EmptyString => (EmptyString, EmptyString)
  end.

(** A non-negative integer literal: a run of digits in canonical form (no
    leading zero), which is how JSON writes integers. *)
Definition parse_int (s : string) : option (json * string) :=
  let (ds, rest) := span_digits s in
  match NilEmpty.uint_of_string ds with
  | Some u =>
      let n := Nat.of_uint u in
      if String.eqb (str_of_nat n) ds then Some (JInt n, rest) else None
  | None => None
  end.

(** A value, and the items of an array after its [[]; each call consumes
    one unit of fuel. *)
Fixpoint parse_value (fuel : nat) (s : string) {struct fuel} : option (json * string) :=
  match fuel with
  | O => None
  | S f =>
      match skip_ws s with
      | String c r =>
          if Ascii.eqb c quote then option_map (fun p => (JStr (fst p), snd p)) (parse_str r)
          else if Ascii.eqb c "[" then
            match skip_ws r with
            | String d r' =>
                if Ascii.eqb d "]" then Some (JArr [], r')
                else option_map (fun p => (JArr (fst p), snd p)) (parse_items f r)
            | EmptyString => None
            end
          else if is_digit c then parse_int (String c r)
          else None
      | EmptyString => None
      end
  end
with parse_items (fuel : nat) (s : string) {struct fuel} : option (list json * string) :=
  match fuel with
  | O => None
  | S f =>
      match parse_value f s with
      | Some (v, r) =>
          match skip_ws r with
          | String c r' =>
              if Ascii.eqb c "," then
                option_map (fun p => (v :: fst p, snd p)) (parse_items f r')
              else if Ascii.eqb c "]" then Some ([v], r')
              else None
          | EmptyString => None
          end
      | None => None
      end
  end.

(** [json.loads(s)]: one value, then only whitespace. *)
Definition json_loads (s : string) : option json :=
  match parse_value (S (String.length s)) s with
  | Some (v, rest) => if skip_ws rest is EmptyString then Some v else None
  | None => None
  end.

(** ** Lemmas on characters *)

(** Every character: decoding its escape gives it back. *)
Lemma parse_str_escape_char (c : ascii) (t : string) :
  parse_str (escape_char c ++ t) = option_map (cons_fst c) (parse_str t).
Proof. destruct c as [[] [] [] [] [] [] [] []]; reflexivity. Qed.

(** A digit is not whitespace, a quote or a bracket. *)
Lemma digit_char (c : ascii) :
  is_digit c = true ->
  is_json_ws c = false /\ Ascii.eqb c quote = false /\ Ascii.eqb c "[" = false.
Proof. destruct c as [[] [] [] [] [] [] [] []]; vm_compute; try discriminate; auto. Qed.

Lemma quote_not_ws : is_json_ws quote = false.
Proof. reflexivity. Qed.

Lemma bracket_not_ws : is_json_ws "[" = false.
Proof. reflexivity. Qed.

(** ** Strings *)

Lemma parse_str_escape (s rest : string) :
  parse_str (escape s ++ String quote rest) = Some (s, rest).
Proof.
  induction s as [|c s IH]; [reflexivity|].
  cbn [escape]. rewrite append_assoc, parse_str_escape_char, IH. reflexivity.
Qed.

(** ** Whitespace *)

Lemma skip_ws_spaces (m : nat) (s : string) : skip_ws (spaces m ++ s) = skip_ws s.
Proof. induction m as [|m IH]; [reflexivity|exact IH]. Qed.

Lemma skip_ws_newline_indent (k : nat) (s : string) :
  skip_ws (newline_indent k ++ s) = skip_ws s.
Proof. unfold newline_indent. rewrite append_assoc. exact (skip_ws_spaces _ s). Qed.

Lemma parse_value_newline_indent (fuel k : nat) (s : string) :
  parse_value fuel (newline_indent k ++ s) = parse_value fuel s.
Proof. destruct fuel; cbn [parse_value]; [reflexivity|]. now rewrite skip_ws_newline_indent. Qed.

(** ** Integers *)

Definition no_digit_start (s : string) : bool :=
  match s with String c _ => negb (is_digit c) | EmptyString => true end.

Fixpoint all_digits (s : string) : bool :=
  match s with String c s' => is_digit c && all_digits s' | EmptyString => true end.

Lemma all_digits_uint (d : Decimal.uint) : all_digits (NilEmpty.string_of_uint d) = true.
Proof. induction d; cbn; auto. Qed.

(** [str(n)] is a non-empty run of digits. *)
Lemma str_of_nat_digits (n : nat) :
  exists c ds, str_of_nat n = String c ds /\ is_digit c = true /\ all_digits ds = true.
Proof.
  unfold str_of_nat. rewrite <- (Unsigned.of_to n), Unsigned.to_of.
  pose proof (all_digits_uint (Decimal.unorm (Nat.to_uint n))) as H.
  destruct (NilEmpty.string_of_uint (Decimal.unorm (Nat.to_uint n))) as [|c ds] eqn:E.
  - exfalso. unfold Decimal.unorm in E.
    destruct (Decimal.nzhead (Nat.to_uint n)); discriminate.
  - apply andb_true_iff in H as [H1 H2]. eauto.
Qed.

Lemma span_digits_app (ds rest : string) :
  all_digits ds = true -> no_digit_start rest = true ->
  span_digits (ds ++ rest) = (ds, rest).
Proof.
  intros Hd Hr. induction ds as [|c ds IH]; cbn in *.
  - destruct rest as [|c r]; [reflexivity|]. cbn in *. now apply negb_true_iff in Hr as ->.
  - apply andb_true_iff in Hd as [-> Hd]. now rewrite IH.
Qed.

Lemma parse_int_str_of_nat (n : nat) (rest : string) :
  no_digit_start rest = true -> parse_int (str_of_nat n ++ rest) = Some (JInt n, rest).
Proof.
  intros Hr. unfold parse_int.
  destruct (str_of_nat_digits n) as (c & ds & E & Hc & Hds).
  rewrite span_digits_app; [|rewrite E; cbn; now rewrite Hc|exact Hr].
  pose proof (str_of_nat_uint n) as Hu.
  destruct (NilEmpty.uint_of_string (str_of_nat n)) as [u|]; [|discriminate].
  injection Hu as ->. now rewrite String.eqb_refl.
Qed.

(** ** Values *)

(** The fuel a value needs: one unit per value and per array item. *)
Fixpoint jsize (v : json) : nat :=
  match v with
  | JArr l => S (list_sum (map (fun x => S (jsize x)) l))
  | _ => 1
  end.

(** The round-trip law of one value at any indentation, followed by any
    text that does not continue an integer. *)
Definition dumps_roundtrip (v : json) : Prop :=
  forall level fuel rest, jsize v <= fuel -> no_digit_start rest = true ->
  parse_value fuel (dumps_at level v ++ rest) = Some (v, rest).

(** A dump starts with a quote, a bracket or a digit. *)
Lemma dumps_head (level : nat) (v : json) :
  exists c r, dumps_at level v = String c r /\ is_json_ws c = false /\ Ascii.eqb c "]" = false.
Proof.
  destruct v as [s|n|[|x l]]; cbn [dumps_at];
    [eexists _, _; split; [reflexivity|split; reflexivity]| |
     eexists _, _; split; [reflexivity|split; reflexivity]..].
  destruct (str_of_nat_digits n) as (c & ds & -> & Hc & _).
  exists c, ds. split; [reflexivity|split; [apply (digit_char c Hc)|]].
  destruct c as [[] [] [] [] [] [] [] []]; vm_compute in Hc; try discriminate; reflexivity.
Qed.

Lemma concat_cons_app (sep a : string) (l : list string) :
  exists r, String.concat sep (a :: l) = a ++ r.
Proof. destruct l; [exists EmptyString; now rewrite append_nil_r|eexists; reflexivity]. Qed.

Lemma concat_cons2 (sep a b : string) (l : list string) :
  String.concat sep (a :: b :: l) = a ++ sep ++ String.concat sep (b :: l).
Proof. reflexivity. Qed.

(** One step of [parse_value] on the first character of a dump. *)
Lemma parse_value_quote (f : nat) (r : string) :
  parse_value (S f) (String quote r) = option_map (fun p => (JStr (fst p), snd p)) (parse_str r).
Proof. reflexivity. Qed.

Lemma parse_value_bracket (f : nat) (r : string) :
  parse_value (S f) (String "[" r) =
  match skip_ws r with
  | String d r' =>
      if Ascii.eqb d "]" then Some (JArr [], r')
      else option_map (fun p => (JArr (fst p), snd p)) (parse_items f r)
  | EmptyString => None
  end.
Proof. reflexivity. Qed.

Lemma parse_value_digit (c : ascii) (r : string) (f : nat) :
  is_digit c = true -> parse_value (S f) (String c r) = parse_int (String c r).
Proof.
  intros Hc. destruct (digit_char c Hc) as (H1 & H2 & H3).
  cbn [parse_value skip_ws]. now rewrite H1, H2, H3, Hc.
Qed.

Lemma skip_ws_nonws (c : ascii) (s : string) :
  is_json_ws c = false -> skip_ws (String c s) = String c s.
Proof. cbn. now intros ->. Qed.

(** The items of an array start with the first character of a dump. *)
Lemma skip_ws_concat_dumps (k : nat) (x : json) (l : list json) (tail : string) :
  exists c r, skip_ws (String.concat ("," ++ newline_indent k) (map (dumps_at k) (x :: l)) ++ tail)
              = String c r /\ Ascii.eqb c "]" = false.
Proof.
  destruct (concat_cons_app ("," ++ newline_indent k) (dumps_at k x) (map (dumps_at k) l)) as [r Er].
  destruct (dumps_head k x) as (c & r0 & Ed & Hw & Hb).
  cbn [map]. rewrite Er, Ed. cbn [append]. rewrite skip_ws_nonws by exact Hw. eauto.
Qed.

(** The items of a non-empty array, after its [[]. *)
Lemma parse_items_dumps (k : nat) (l : list json) :
  Forall dumps_roundtrip l -> l <> [] ->
  forall fuel tail rest,
  list_sum (map (fun x => S (jsize x)) l) <= fuel ->
  skip_ws tail = String "]" rest -> no_digit_start tail = true ->
  parse_items fuel
    (newline_indent k ++ String.concat ("," ++ newline_indent k) (map (dumps_at k) l) ++ tail)
  = Some (l, rest).
Proof.
  induction 1 as [|x l Hx Hl IH]; intros Hne fuel tail rest Hf Ht Htd; [congruence|].
  destruct fuel as [|f]; [cbn in Hf; lia|]. cbn [map list_sum fold_right] in Hf.
  cbn [parse_items]. rewrite parse_value_newline_indent.
  destruct l as [|y l].
  - cbn [map String.concat]. rewrite Hx by (exact Htd || lia). rewrite Ht. reflexivity.
  - cbn [map] in IH |- *. rewrite concat_cons2, !append_assoc, Hx by (reflexivity || lia).
    change (skip_ws ("," ++ ?z)) with (String "," z). cbv beta iota.
    rewrite (IH ltac:(discriminate) f tail rest); [reflexivity| |exact Ht|exact Htd].
    cbn [map list_sum fold_right] in Hf |- *. lia.
Qed.

Lemma parse_value_dumps (v : json) : dumps_roundtrip v.
Proof.
  induction v as [s|n|l IH] using json_tree_ind;
    intros level fuel rest Hf Hr; destruct fuel as [|f]; try (cbn in Hf; lia).
  - cbn [dumps_at encode_basestring_ascii append]. rewrite append_assoc.
    change (String quote ?z) with (String quote z). rewrite parse_value_quote.
    cbn [append]. rewrite parse_str_escape. reflexivity.
  - destruct (str_of_nat_digits n) as (c & ds & E & Hc & _).
    cbn [dumps_at]. rewrite E. cbn [append]. rewrite (parse_value_digit c _ f Hc).
    change (String c (ds ++ rest)) with (String c ds ++ rest). rewrite <- E.
    now apply parse_int_str_of_nat.
  - destruct l as [|x l]; [reflexivity|].
    cbn [dumps_at]. rewrite !append_assoc.
    change ("[" ++ ?z) with (String "[" z). rewrite parse_value_bracket, skip_ws_newline_indent.
    destruct (skip_ws_concat_dumps (S level) x l
                (newline_indent level ++ "]" ++ rest)) as (c & r' & -> & Hb).
    rewrite Hb. cbv beta iota.
    rewrite (parse_items_dumps (S level) (x :: l) IH ltac:(discriminate) f
               (newline_indent level ++ "]" ++ rest) rest);
      [reflexivity| |now rewrite skip_ws_newline_indent|reflexivity].
    cbn [jsize] in Hf. lia.
Qed.

(** ** Fuel *)

Lemma length_spaces (m : nat) : String.length (spaces m) = m.
Proof. induction m; cbn; congruence. Qed.

Lemma length_newline_indent (k : nat) : String.length (newline_indent k) = S (4 * k).
Proof. unfold newline_indent. rewrite length_append, length_spaces. reflexivity. Qed.

Lemma sum_jsize_concat (k : nat) (sep : string) (l : list json) :
  Forall (fun v => forall level, jsize v <= String.length (dumps_at level v)) l ->
  1 <= String.length sep ->
  list_sum (map (fun x => S (jsize x)) l) <= S (String.length (String.concat sep (map (dumps_at k) l))).
Proof.
  intros Hl Hsep. induction Hl as [|x l Hx Hl IH]; cbn [map list_sum fold_right]; [lia|].
  specialize (Hx k). destruct l as [|y l]; [cbn [map String.concat fold_right] in *; lia|].
  cbn [map list_sum fold_right] in *. rewrite concat_cons2, !length_append. lia.
Qed.

(** A dump is at least as long as the fuel its value needs, so the fuel
    [json_loads] gives (the length of the text, plus one) is enough. *)
Lemma jsize_length (v : json) : forall level, jsize v <= String.length (dumps_at level v).
Proof.
  induction v as [s|n|l IH] using json_tree_ind; intros level.
  - cbn [dumps_at encode_basestring_ascii String.length jsize]. lia.
  - destruct (str_of_nat_digits n) as (c & ds & E & _). cbn [dumps_at]. rewrite E. cbn. lia.
  - destruct l as [|x l]; [cbn; lia|].
    pose proof (sum_jsize_concat (S level) ("," ++ newline_indent (S level)) (x :: l) IH) as H.
    cbn [dumps_at jsize]. rewrite !length_append, !length_newline_indent in *.
    cbn [String.length] in *. lia.
Qed.

(** [json.loads(json.dumps(v, indent=4)) == v]. *)
Lemma json_loads_dumps (v : json) : json_loads (dumps v) = Some v.
Proof.
  unfold json_loads. pose proof (jsize_length v 0) as Hj.
  pose proof (parse_value_dumps v 0 (S (String.length (dumps v))) EmptyString) as H.
  rewrite append_nil_r in H. unfold dumps in *. rewrite H by (reflexivity || lia). reflexivity.
Qed.

(** ** [ensure_ascii] *)

(** A character of the file: printable ASCII or the newline of the
    indentation. *)
Definition printable_char (c : ascii) : bool :=
  let n := nat_of_ascii c in Nat.eqb n 10 || (Nat.leb 32 n && Nat.leb n 126).

Fixpoint printable (s : string) : bool :=
  match s with String c s' => printable_char c && printable s' | EmptyString => true end.

Lemma printable_app (s t : string) : printable (s ++ t) = printable s && printable t.
Proof. induction s as [|c s IH]; cbn; [reflexivity|]. now rewrite IH, andb_assoc. Qed.

#[local] Hint Rewrite printable_app : pyhtml_rw.

Lemma printable_escape_char (c : ascii) : printable (escape_char c) = true.
Proof. destruct c as [[] [] [] [] [] [] [] []]; reflexivity. Qed.

Lemma printable_escape (s : string) : printable (escape s) = true.
Proof.
  induction s as [|c s IH]; [reflexivity|]. cbn [escape].
  autorewrite with pyhtml_rw. now rewrite printable_escape_char, IH.
Qed.

Lemma printable_spaces (m : nat) : printable (spaces m) = true.
Proof. induction m as [|m IH]; [reflexivity|exact IH]. Qed.

Lemma printable_newline_indent (k : nat) : printable (newline_indent k) = true.
Proof. exact (printable_spaces (4 * k)). Qed.

Lemma printable_digits (s : string) : all_digits s = true -> printable s = true.
Proof.
  induction s as [|c s IH]; cbn [all_digits printable]; [reflexivity|].
  intros [Hc Hs]%andb_true_iff. rewrite IH by exact Hs.
  destruct c as [[] [] [] [] [] [] [] []]; vm_compute in Hc |- *; congruence.
Qed.

Lemma printable_concat (sep : string) (l : list string) :
  printable sep = true -> forallb printable l = true -> printable (String.concat sep l) = true.
Proof.
  intros Hs. induction l as [|x l IH]; cbn [forallb]; [reflexivity|].
  intros [Hx Hl]%andb_true_iff. destruct l as [|y l]; [exact Hx|].
  rewrite concat_cons2. autorewrite with pyhtml_rw. now rewrite Hx, Hs, IH.
Qed.

Lemma printable_dumps (v : json) : forall level, printable (dumps_at level v) = true.
Proof.
  induction v as [s|n|l IH] using json_tree_ind; intros level.
  - cbn [dumps_at encode_basestring_ascii printable]. autorewrite with pyhtml_rw.
    now rewrite printable_escape.
  - destruct (str_of_nat_digits n) as (c & ds & E & Hc & Hds). cbn [dumps_at].
    apply printable_digits. rewrite E. cbn. now rewrite Hc.
  - destruct l as [|x l]; [reflexivity|]. cbn [dumps_at].
    autorewrite with pyhtml_rw. rewrite !printable_newline_indent, printable_concat; [reflexivity| |].
    + cbn [append printable]. now rewrite printable_newline_indent.
    + apply forallb_forall. intros d (w & <- & Hw)%in_map_iff.
      rewrite Forall_forall in IH. now apply IH.
Qed.

(** ** The file of [save_to_file] *)

(** C32: the file [save_to_file] writes can be read back: [json.loads]
    of [json.dump([i for i in most_used_words], indent=4)] is the list of
    the pairs, each as the two-element array [[word, count]], in order,
    whatever the words contain (quotes, backslashes, control and non-ASCII
    characters are escaped and decoded back). *)
Theorem json_dump_roundtrip (most_used_words : list (string * nat)) :
  json_loads (json_dump most_used_words) = Some (JArr (map pair_json most_used_words)).
Proof. apply json_loads_dumps. Qed.

(** C33: with [ensure_ascii], every character of the file is printable
    ASCII ([ ] to [~]) or the newline of the indentation: a word with
    accented letters is written with [\u00XX] escapes. *)
Theorem json_dump_ascii (most_used_words : list (string * nat)) :
  printable (json_dump most_used_words) = true.
Proof. apply printable_dumps. Qed.

End Json.
