(* ===== verification/Run.v ===== *)
(** * [main] of [src/run.py] and its effects

    [main(url)] (l.21-35) fetches the page ([requests.get], then
    [raise_for_status]), computes
    [analyse(parse_html(text).get_text()).get_most_used_words(10)], prints
    the report and saves the pairs with [save_to_file] (l.15-18) as JSON in
    a file named by the current time.

    The effects are modelled by a state-and-exception monad [IO] over a
    [world]: the web ([requests.get] answers a [response] or fails), the
    clock ([str(datetime.now())]), the directory of the script
    ([_CURRENT_DIR]), which paths can be opened for writing, the standard
    output and the files written.  A Python exception is an [Err] that stops
    the rest of [main] and keeps the effects already done.  [main_run]
    computes [main] on every world; the theorems read off its outcomes: the
    two failures of the fetch leave the world unchanged, a successful run
    prints the report and writes a file that decodes back to the pairs, and
    a file that cannot be written fails only after the report is printed. *)

From Stdlib Require Import String Ascii List ZArith Bool Lia.
From S2P Require Import PyStr Nodes Parser Analyse Json.
Import ListNotations.
Open Scope string_scope.

Module Run.
Import Parser Analyse Json.

(** ** The world and the monad *)

(** The two attributes of a [requests.Response] that [main] uses. *)
Record response := { status_code : Z; text : string }.

(** The exceptions [main] lets through. *)
Inductive py_exc :=
| ConnectionError          (** [requests.get] fails: no response *)
| HTTPError (status : Z)   (** [raise_for_status] on a 4xx or 5xx status *)
| OSError (path : string). (** [open(filename, "w")] fails *)

Inductive result (A : Type) := Ok (a : A) | Err (e : py_exc).
Arguments Ok {A} a.
Arguments Err {A} e.

Record world := {
  web : string -> option response;
  clock : string;
  script_dir : string;
  writable : string -> bool;
  stdout : string;
  files : list (string * string)
}.

Definition IO (A : Type) : Type := world -> result A * world.

Definition ret {A} (a : A) : IO A := fun w => (Ok a, w).

Definition raise {A} (e : py_exc) : IO A := fun w => (Err e, w).

Definition bind {A B} (m : IO A) (k : A -> IO B) : IO B :=
  fun w => match m w with
           | (Ok a, w') => k a w'
           | (Err e, w') => (Err e, w')
           end.

Declare Scope io_scope.
Delimit Scope io_scope with io.
Notation "x <- m ;; k" := (bind m (fun x => k))
  (at level 100, m at next level, right associativity) : io_scope.
Notation "m ;; k" := (bind m (fun _ => k))
  (at level 100, right associativity) : io_scope.
Open Scope io_scope.

(** ** The effects *)

(** [requests.get(url)] *)
Definition requests_get (url : string) : IO response :=
  fun w => match web w url with
           | Some r => (Ok r, w)
           | None => (Err ConnectionError, w)
           end.

(** A client (4xx) or server (5xx) error status. *)
Definition is_http_error (status : Z) : bool := (400 <=? status)%Z && (status <? 600)%Z.

(** [response.raise_for_status()] *)
Definition raise_for_status (r : response) : IO unit :=
  if is_http_error (status_code r) then raise (HTTPError (status_code r)) else ret tt.

Definition with_stdout (w : world) (out : string) : world :=
  {| web := web w; clock := clock w; script_dir := script_dir w; writable := writable w;
     stdout := out; files := files w |}.

Definition with_files (w : world) (fs : list (string * string)) : world :=
  {| web := web w; clock := clock w; script_dir := script_dir w; writable := writable w;
     stdout := stdout w; files := fs |}.

(** [print(s)]: the text and a newline. *)
Definition print (s : string) : IO unit :=
  fun w => (Ok tt, with_stdout w (stdout w ++ s ++ nl)).

(** [str(datetime.now())] and [_CURRENT_DIR] *)
Definition now : IO string := fun w => (Ok (clock w), w).
Definition current_dir : IO string := fun w => (Ok (script_dir w), w).

(** [_CURRENT_DIR / name]: the [/] of [pathlib] on a name with no
    separator. *)
Definition path_join (dir name : string) : string := dir ++ "/" ++ name.

(** [with open(path, "w") as f: f.write(contents)]: the file is created or
    truncated, or [open] raises. *)
Definition write_file (path contents : string) : IO unit :=
  fun w => if writable w path then (Ok tt, with_files w ((path, contents) :: files w))
           else (Err (OSError path), w).

(** [save_to_file(most_used_words)] (l.15-18) *)
Definition save_to_file (most_used_words : list (string * nat)) : IO unit :=
  dir <- current_dir ;;
  name <- now ;;
  write_file (path_join dir name) (json_dump most_used_words).

(** ** [main] *)

(** [stats = analyse(parse_html(str(response.text)).get_text());
    stats.get_most_used_words(10)] (l.25-28). *)
Definition most_used_words (html : string) : list (string * nat) :=
  get_most_used_words (analyse (html_text html)) 10%Z.

(** The argument of [print] (l.31-32). *)
Definition report (url : string) (most_used_words : list (string * nat)) : string :=
  "Most used words on " ++ url ++ " are:" ++ nl ++ chr 9 ++
  String.concat (nl ++ chr 9)
    (map (fun '(w, c) => w ++ ": " ++ str_of_nat c) most_used_words).

(** [main(url)] (l.21-35) *)
Definition main (url : string) : IO unit :=
  response <- requests_get url ;;
  raise_for_status response ;;
  let words := most_used_words (text response) in
  print (report url words) ;;
  save_to_file words.

(** ** What [main] does on every world *)

Lemma main_run (url : string) (w : world) :
  main url w =
  match web w url with
  | None => (Err ConnectionError, w)
  | Some r =>
      if is_http_error (status_code r) then (Err (HTTPError (status_code r)), w)
      else
        let words := most_used_words (text r) in
        let w1 := with_stdout w (stdout w ++ report url words ++ nl) in
        let path := path_join (script_dir w) (clock w) in
        if writable w path then (Ok tt, with_files w1 ((path, json_dump words) :: files w))
        else (Err (OSError path), w1)
  end.
Proof.
  unfold main, bind, requests_get. destruct (web w url) as [r|]; [|reflexivity].
  unfold raise_for_status. now destruct (is_http_error (status_code r)).
Qed.

Lemma is_http_error_spec (status : Z) :
  is_http_error status = true <-> (400 <= status < 600)%Z.
Proof. unfold is_http_error. rewrite andb_true_iff, Z.leb_le, Z.ltb_lt. reflexivity. Qed.

Lemma is_http_error_false (status : Z) :
  (status < 400 \/ 600 <= status)%Z -> is_http_error status = false.
Proof. intros H. apply not_true_iff_false. rewrite is_http_error_spec. lia. Qed.

(** The worlds of the witnesses: a web that answers every URL with one
    page, a clock, and a directory that can or cannot be written. *)
Definition page_world (status : Z) (html : string) (can_write : bool) : world :=
  {| web := fun _ => Some {| status_code := status; text := html |};
     clock := "2020-01-01 00:00:00"; script_dir := "/v/src";
     writable := fun _ => can_write; stdout := EmptyString; files := [] |}.

Definition offline_world : world :=
  {| web := fun _ => None; clock := "2020-01-01 00:00:00"; script_dir := "/v/src";
     writable := fun _ => true; stdout := EmptyString; files := [] |}.

(** ** Properties of [main] *)

(** C34: when the server answers with a client or server error status
    (400 to 599), [raise_for_status] raises [HTTPError]: nothing is
    printed and no file is written. *)
Theorem main_http_error (url : string) (w : world) (r : response) :
  web w url = Some r -> (400 <= status_code r < 600)%Z ->
  main url w = (Err (HTTPError (status_code r)), w).
Proof.
  intros Hw Hs. rewrite main_run, Hw. apply is_http_error_spec in Hs as ->. reflexivity.
Qed.

(** C35: when [requests.get] fails, [main] raises before any effect. *)
Theorem main_connection_error (url : string) (w : world) :
  web w url = None -> main url w = (Err ConnectionError, w).
Proof. intros Hw. now rewrite main_run, Hw. Qed.

(** C36: on a page fetched without error status, and a file that can be
    written, [main] succeeds: it prints the report of the ten most used
    words followed by a newline, and writes their JSON dump to the file
    [_CURRENT_DIR / str(datetime.now())]; nothing else changes. *)
Theorem main_success (url : string) (w : world) (r : response) :
  web w url = Some r -> (status_code r < 400 \/ 600 <= status_code r)%Z ->
  writable w (path_join (script_dir w) (clock w)) = true ->
  main url w =
  (Ok tt,
   with_files (with_stdout w (stdout w ++ report url (most_used_words (text r)) ++ nl))
     ((path_join (script_dir w) (clock w), json_dump (most_used_words (text r))) :: files w)).
Proof.
  intros Hw Hs Hp. rewrite main_run, Hw, (is_http_error_false _ Hs). cbv zeta. now rewrite Hp.
Qed.

(** C37: the file a successful run writes holds the most used words:
    [json.load] of it gives back the [[word, count]] pairs in order. *)
Theorem main_saved_file_loads (url : string) (w : world) (r : response) :
  web w url = Some r -> (status_code r < 400 \/ 600 <= status_code r)%Z ->
  writable w (path_join (script_dir w) (clock w)) = true ->
  exists contents w',
    main url w = (Ok tt, w') /\
    files w' = (path_join (script_dir w) (clock w), contents) :: files w /\
    json_loads contents = Some (JArr (map pair_json (most_used_words (text r)))).
Proof.
  intros Hw Hs Hp. rewrite main_run, Hw, (is_http_error_false _ Hs). cbv zeta. rewrite Hp.
  do 2 eexists. split; [reflexivity|split; [reflexivity|]]. apply json_loads_dumps.
Qed.

(** C38: the report is printed before the file is opened, so when the
    file cannot be written [main] raises [OSError] after printing: the
    report is on the standard output and no file is added. *)
Theorem main_report_before_save (url : string) (w : world) (r : response) :
  web w url = Some r -> (status_code r < 400 \/ 600 <= status_code r)%Z ->
  writable w (path_join (script_dir w) (clock w)) = false ->
  main url w =
  (Err (OSError (path_join (script_dir w) (clock w))),
   with_stdout w (stdout w ++ report url (most_used_words (text r)) ++ nl)).
Proof.
  intros Hw Hs Hp. rewrite main_run, Hw, (is_http_error_false _ Hs). cbv zeta. now rewrite Hp.
Qed.

Lemma main_http_error_witness :
  web (page_world 404 "<p>gone</p>" true) "https://example.org" =
    Some {| status_code := 404; text := "<p>gone</p>" |} /\
  (400 <= status_code {| status_code := 404; text := "<p>gone</p>" |} < 600)%Z /\
  main "https://example.org" (page_world 404 "<p>gone</p>" true) =
    (Err (HTTPError 404), page_world 404 "<p>gone</p>" true).
Proof.
  split; [reflexivity|split; [cbn; lia|]].
  exact (main_http_error "https://example.org" (page_world 404 "<p>gone</p>" true)
           {| status_code := 404; text := "<p>gone</p>" |} eq_refl ltac:(cbn; lia)).
Defined.

Lemma main_connection_error_witness :
  web offline_world "https://example.org" = None /\
  main "https://example.org" offline_world = (Err ConnectionError, offline_world).
Proof.
  split; [reflexivity|]. exact (main_connection_error "https://example.org" offline_world eq_refl).
Defined.

Lemma main_success_witness :
  let w := page_world 200 "<p>a b a</p>" true in
  let r := {| status_code := 200; text := "<p>a b a</p>" |} in
  web w "u" = Some r /\ (status_code r < 400 \/ 600 <= status_code r)%Z /\
  writable w (path_join (script_dir w) (clock w)) = true /\
  main "u" w =
  (Ok tt,
   with_files (with_stdout w (stdout w ++ report "u" (most_used_words (text r)) ++ nl))
     ((path_join (script_dir w) (clock w), json_dump (most_used_words (text r))) :: files w)).
Proof.
  cbv zeta. split; [reflexivity|split; [cbn; lia|split; [reflexivity|]]].
  exact (main_success "u" (page_world 200 "<p>a b a</p>" true)
           {| status_code := 200; text := "<p>a b a</p>" |} eq_refl ltac:(cbn; lia) eq_refl).
Defined.

Lemma main_saved_file_loads_witness :
  let w := page_world 200 "<p>a b a</p>" true in
  let r := {| status_code := 200; text := "<p>a b a</p>" |} in
  web w "u" = Some r /\ (status_code r < 400 \/ 600 <= status_code r)%Z /\
  writable w (path_join (script_dir w) (clock w)) = true /\
  exists contents w',
    main "u" w = (Ok tt, w') /\
    files w' = (path_join (script_dir w) (clock w), contents) :: files w /\
    json_loads contents = Some (JArr (map pair_json (most_used_words (text r)))).
Proof.
  cbv zeta. split; [reflexivity|split; [cbn; lia|split; [reflexivity|]]].
  exact (main_saved_file_loads "u" (page_world 200 "<p>a b a</p>" true)
           {| status_code := 200; text := "<p>a b a</p>" |} eq_refl ltac:(cbn; lia) eq_refl).
Defined.

Lemma main_report_before_save_witness :
  let w := page_world 200 "<p>a b a</p>" false in
  let r := {| status_code := 200; text := "<p>a b a</p>" |} in
  web w "u" = Some r /\ (status_code r < 400 \/ 600 <= status_code r)%Z /\
  writable w (path_join (script_dir w) (clock w)) = false /\
  main "u" w =
  (Err (OSError (path_join (script_dir w) (clock w))),
   with_stdout w (stdout w ++ report "u" (most_used_words (text r)) ++ nl)).
Proof.
  cbv zeta. split; [reflexivity|split; [cbn; lia|split; [reflexivity|]]].
  exact (main_report_before_save "u" (page_world 200 "<p>a b a</p>" false)
           {| status_code := 200; text := "<p>a b a</p>" |} eq_refl ltac:(cbn; lia) eq_refl).
Defined.

End Run.
